(** * dw_local_prototype: the export-declaration warehouse pipeline

    A shallow embedding of [transform_to_core] and [build_semantic_layer]
    of [dw_local_prototype.py], together with the fragment of the
    data-frame library the two functions call, of the ingestion
    ([read_excel_to_staging], [ingest_to_staging]), of the analysis
    ([query_dw], [analyze_data]) up to what the SQL engine computes, and
    of the main flow.

    Conventions of the embedding.
    - A cell is a [value]; every null ([None], [NaN], [NaT]) is the single
      constructor [NaN], numbers are exact rationals (rounding and the
      int/float distinction of a column are not tracked).
    - A [DataFrame] is its list of column labels (labels may repeat, as in
      pandas) and its rows, each row carrying its index label.
    - Library calls that can fail return an [outcome]; the two pipeline
      functions run in the monad [M], which threads the log, the Parquet
      snapshot, the SQLite tables and the store of frame objects. *)

From Stdlib Require Import ZArith QArith Qcanon Ascii String List Lia.
From stdpp Require Import base decidable option list strings gmap numbers.

Local Open Scope string_scope.
Local Open Scope list_scope.
Local Open Scope Z_scope.

(** ** Text helpers: [str.strip] and [str.upper] on ASCII text *)

Definition is_space (a : ascii) : bool :=
  let n := nat_of_ascii a in
  ((9 <=? n)%nat && (n <=? 13)%nat) || ((28 <=? n)%nat && (n <=? 32)%nat).

Fixpoint lstrip (s : string) : string :=
  match s with
  | String a s' => if is_space a then lstrip s' else s
  | EmptyString => EmptyString
  end.

Fixpoint rstrip (s : string) : string :=
  match s with
  | String a s' =>
      match rstrip s' with
      | EmptyString => if is_space a then EmptyString else String a EmptyString
      | t => String a t
      end
  | EmptyString => EmptyString
  end.

Definition strip (s : string) : string := rstrip (lstrip s).

Definition upper_ascii (a : ascii) : ascii :=
  let n := nat_of_ascii a in
  if (97 <=? n)%nat && (n <=? 122)%nat then ascii_of_nat (n - 32) else a.

Fixpoint upper (s : string) : string :=
  match s with
  | String a s' => String (upper_ascii a) (upper s')
  | EmptyString => EmptyString
  end.

Example strip_upper_ex : upper (strip "  num_Serie ") = "NUM_SERIE".
Proof. reflexivity. Qed.

(** ** Exceptions and outcomes *)

Inductive exn :=
  | ValueError (msg : string)
  | KeyError (keys : list string)
  | TypeError (msg : string)
  | AttributeError (msg : string)
  | InvalidIndexError (msg : string)
  | ArrowInvalid (msg : string)
  | OperationalError (msg : string)
  | NameError (msg : string)
  | DatabaseError (msg : string).

Inductive outcome (A : Type) :=
  | Return (a : A)
  | Raise (e : exn).
Arguments Return {A} a.
Arguments Raise {A} e.

#[global] Instance outcome_ret : MRet outcome := @Return.
#[global] Instance outcome_bind : MBind outcome := λ A B f o,
  match o with
  | Return a => f a
  | Raise e => Raise e
  end.

(** A [for] loop whose body may raise. *)
Fixpoint for_each {A S : Type} (l : list A) (body : A → S → outcome S) (s : S)
  : outcome S :=
  match l with
  | [] => Return s
  | a :: l' => s' ← body a s; for_each l' body s'
  end.

(** ** The data-frame library *)

Module pd.

(** *** Cells *)

Inductive value :=
  | NaN
  | Num (q : Qc)
  | Str (s : string)
  | Timestamp (y m d : Z).

#[global] Instance value_eq_dec : EqDecision value.
Proof. solve_decision. Defined.

(** An integer as a cell. *)
Definition Numz (z : Z) : value := Num (Qc_of_Z z).

Definition isna (v : value) : bool :=
  match v with NaN => true | _ => false end.

(** *** Frames *)

Record DataFrame := mkDataFrame {
  columns : list string;
  rows : list (Z * list value)
}.

#[global] Instance DataFrame_eq_dec : EqDecision DataFrame.
Proof. solve_decision. Defined.

(** [pd.DataFrame()] *)
Definition DataFrame_new : DataFrame := mkDataFrame [] [].

(** [df.empty]: some axis has length zero. *)
Definition empty (df : DataFrame) : bool :=
  bool_decide (columns df = []) || bool_decide (rows df = []).

(** [df.index] and the rows without their labels. *)
Definition index (df : DataFrame) : list Z := (rows df).*1.
Definition cells (df : DataFrame) : list (list value) := (rows df).*2.

(** [df.shape[0]] *)
Definition shape0 (df : DataFrame) : Z := Z.of_nat (length (rows df)).

(** [RangeIndex(n)] laid over a list of rows. *)
Definition with_range_index (cs : list (list value)) : list (Z * list value) :=
  zip (seqZ 0 (Z.of_nat (length cs))) cs.

(** The cells of one row that sit under the labels satisfying [p], in
    column order. *)
Fixpoint cells_where (p : string → bool) (cols : list string)
  (cs : list value) : list value :=
  match cols, cs with
  | c :: cols', v :: cs' =>
      if p c then v :: cells_where p cols' cs' else cells_where p cols' cs'
  | _, _ => []
  end.

(** [(col.values for name, col in self.items() if name in subset)] *)
Definition cells_in (subset : list string) : list string → list value → list value :=
  cells_where (λ c, bool_decide (c ∈ subset)).

(** The cell of a row under label [c]; a label the row does not have reads
    as null, which is how reindexing fills a missing column. *)
Definition cell (c : string) (cols : list string) (cs : list value) : value :=
  default NaN (head (cells_in [c] cols cs)).

(** The values of [df[c]] when the label [c] occurs once. *)
Definition column (c : string) (df : DataFrame) : list value :=
  map (cell c (columns df)) (cells df).

(** Apply [f] to the cells under label [c]. *)
Fixpoint map_cell (c : string) (f : value → value) (cols : list string)
  (cs : list value) : list value :=
  match cols, cs with
  | n :: cols', v :: cs' =>
      (if decide (n = c) then f v else v) :: map_cell c f cols' cs'
  | _, _ => cs
  end.

Definition map_column (c : string) (f : value → value) (df : DataFrame)
  : DataFrame :=
  mkDataFrame (columns df)
    (map (λ r, (r.1, map_cell c f (columns df) r.2)) (rows df)).

(** *** [pd.concat(objs, ignore_index=True)]

    An empty list of objects is refused.  Frames with the same labels are
    stacked as they are; otherwise the labels are united in order of first
    appearance and every frame is reindexed to them, which needs each
    frame's labels to be unique.  The result gets a fresh [RangeIndex]. *)

Definition union_columns (objs : list DataFrame) : list string :=
  foldl (λ acc d, acc ++ filter (λ c, c ∉ acc) (columns d)) [] objs.

Definition reindex_cells (target : list string) (d : DataFrame)
  : list (list value) :=
  map (λ cs, map (λ c, cell c (columns d) cs) target) (cells d).

Definition concat (objs : list DataFrame) : outcome DataFrame :=
  match objs with
  | [] => Raise (ValueError "No objects to concatenate")
  | o :: rest =>
      if forallb (λ d, bool_decide (columns d = columns o)) rest then
        Return (mkDataFrame (columns o) (with_range_index (flat_map cells objs)))
      else if forallb (λ d, bool_decide (NoDup (columns d))) objs then
        let cols := union_columns objs in
        Return (mkDataFrame cols
                  (with_range_index (flat_map (reindex_cells cols) objs)))
      else
        Raise (InvalidIndexError
                 "Reindexing only valid with uniquely valued Index objects")
  end.

(** *** Column labels *)

(** [df.columns = labels] *)
Definition set_columns (labels : list string) (df : DataFrame) : DataFrame :=
  mkDataFrame labels (rows df).

(** [df.rename(columns={old: new})] *)
Definition rename (old new : string) (df : DataFrame) : DataFrame :=
  mkDataFrame (map (λ c, if decide (c = old) then new else c) (columns df))
    (rows df).

(** *** [df[key]] and [df[key] = values] *)

(** [df[key]] is a Series when the label occurs once and a frame of all the
    columns carrying it when it is repeated. *)
Inductive selection (A : Type) :=
  | Series (vs : list A)
  | Frame (d : DataFrame).
Arguments Series {A} vs.
Arguments Frame {A} d.

Definition getitem (key : string) (df : DataFrame) : outcome (selection value) :=
  match filter (λ c, c = key) (columns df) with
  | [] => Raise (KeyError [key])
  | [_] => Return (Series (column key df))
  | ks => Return (Frame (mkDataFrame ks
                    (map (λ r, (r.1, cells_in [key] (columns df) r.2)) (rows df))))
  end.

(** One row of [df[key] = values]: the cells under [key] are overwritten,
    or a new last cell is added when the label is new. *)
Definition set_cell (key : string) (v : value) (cols : list string)
  (cs : list value) : list value :=
  if decide (key ∈ cols) then map_cell key (λ _, v) cols cs else cs ++ [v].

Definition setitem (key : string) (vals : list value) (df : DataFrame)
  : outcome DataFrame :=
  if decide (length vals = length (rows df)) then
    Return (mkDataFrame
              (if decide (key ∈ columns df) then columns df
               else columns df ++ [key])
              (zip_with (λ r v, (r.1, set_cell key v (columns df) r.2))
                 (rows df) vals))
  else Raise (ValueError "Length of values does not match length of index").

(** [df[keys]] with a list of labels. *)
Definition getitem_list (keys : list string) (df : DataFrame)
  : outcome DataFrame :=
  match filter (λ k, k ∉ columns df) keys with
  | [] =>
      Return (mkDataFrame
                (flat_map (λ k, filter (λ c, c = k) (columns df)) keys)
                (map (λ r, (r.1, flat_map (λ k, cells_in [k] (columns df) r.2) keys))
                   (rows df)))
  | missing => Raise (KeyError missing)
  end.

(** *** [pd.to_datetime(texts, format='%Y%m%d', errors='coerce')]

    The library turns the format into the regular expression
    [(\d\d\d\d)(1[0-2]|0[1-9]|[1-9])(3[0-1]|[1-2]\d|0[1-9]|[1-9]| [1-9])]
    and matches it at the head of the text: the alternatives of a group
    are tried in order, and a later one is taken when what follows cannot
    be matched after an earlier one.  The first match found has to end
    where the text ends, its three groups are read as integers, and they
    have to name a day of the calendar that the timestamp type holds;
    every other text is coerced to null.  So a month or a day may be
    written with one digit, and a day with a space and a digit.  (The
    library tries its ISO parser first; it takes the eight-digit texts
    only, which the expression matches in the same way.)  The text is
    ASCII: the other decimal digits of Unicode, which [\d] takes as well,
    are not among its characters. *)

Definition digit_of (a : ascii) : option Z :=
  let n := nat_of_ascii a in
  if (48 <=? n)%nat && (n <=? 57)%nat then Some (Z.of_nat (n - 48)) else None.

Fixpoint number_of (ds : list ascii) (acc : Z) : option Z :=
  match ds with
  | [] => Some acc
  | a :: ds' => d ← digit_of a; number_of ds' (10 * acc + d)
  end.

(** A character class of the expression: [\d], [[lo-hi]] or one
    character. *)
Inductive class :=
  | Digit
  | Between (lo hi : ascii)
  | Exactly (c : ascii).

Definition accepts (k : class) (a : ascii) : bool :=
  let n := nat_of_ascii a in
  match k with
  | Digit => (48 <=? n)%nat && (n <=? 57)%nat
  | Between lo hi => (nat_of_ascii lo <=? n)%nat && (n <=? nat_of_ascii hi)%nat
  | Exactly c => (n =? nat_of_ascii c)%nat
  end.

(** One alternative, a sequence of classes, at the head of the text: the
    characters matched and the rest. *)
Fixpoint match_seq (p : list class) (s : list ascii)
  : option (list ascii * list ascii) :=
  match p, s with
  | [], _ => Some ([], s)
  | k :: p', a :: s' =>
      if accepts k a then
        match match_seq p' s' with
        | Some (t, r) => Some (a :: t, r)
        | None => None
        end
      else None
  | _ :: _, [] => None
  end.

(** A sequence of groups, each a list of alternatives: the text of each
    group in the first match, and the rest. *)
Fixpoint match_groups (gs : list (list (list class))) (s : list ascii)
  : option (list (list ascii) * list ascii) :=
  match gs with
  | [] => Some ([], s)
  | g :: gs' =>
      (fix first_of (alts : list (list class)) :=
         match alts with
         | [] => None
         | p :: alts' =>
             match match_seq p s with
             | Some (t, r) =>
                 match match_groups gs' r with
                 | Some (ts, r') => Some (t :: ts, r')
                 | None => first_of alts'
                 end
             | None => first_of alts'
             end
         end) g
  end.

Definition year_group : list (list class) := [[Digit; Digit; Digit; Digit]].
Definition month_group : list (list class) :=
  [[Exactly "1"; Between "0" "2"]; [Exactly "0"; Between "1" "9"];
   [Between "1" "9"]].
Definition day_group : list (list class) :=
  [[Exactly "3"; Between "0" "1"]; [Between "1" "2"; Digit];
   [Exactly "0"; Between "1" "9"]; [Between "1" "9"];
   [Exactly " "; Between "1" "9"]].

Definition Ymd_regex : list (list (list class)) :=
  [year_group; month_group; day_group].

(** [int(text)] on the text of a group: white space before the digits is
    dropped (a group has none after them). *)
Fixpoint int (t : list ascii) : option Z :=
  match t with
  | [] => None
  | a :: t' => if is_space a then int t' else number_of t 0
  end.

Definition is_leap (y : Z) : bool :=
  ((y mod 4 =? 0) && negb (y mod 100 =? 0)) || (y mod 400 =? 0).

Definition days_in_month (y m : Z) : Z :=
  match m with
  | 1 | 3 | 5 | 7 | 8 | 10 | 12 => 31
  | 4 | 6 | 9 | 11 => 30
  | 2 => if is_leap y then 29 else 28
  | _ => 0
  end.

Definition valid_date (y m d : Z) : bool :=
  (1 <=? m) && (m <=? 12) && (1 <=? d) && (d <=? days_in_month y m).

(** The column is [datetime64[ns]]: a day is kept as the nanoseconds from
    1970-01-01 to its midnight, in 64 bits of which the least value stands
    for null.  A day outside them is out of bounds
    ([OutOfBoundsDatetime]), which [errors='coerce'] turns into null as
    it does a text that does not parse. *)
Definition days_before_month (y m : Z) : Z :=
  match m with
  | 1 => 0
  | 2 => 31
  | _ =>
      (if is_leap y then 1 else 0) +
      match m with
      | 3 => 59 | 4 => 90 | 5 => 120 | 6 => 151 | 7 => 181 | 8 => 212
      | 9 => 243 | 10 => 273 | 11 => 304 | _ => 334
      end
  end.

(** [date(y, m, d).toordinal()]: the days from 0001-01-01, counted from
    one. *)
Definition toordinal (y m d : Z) : Z :=
  let y' := y - 1 in
  365 * y' + y' / 4 - y' / 100 + y' / 400 + days_before_month y m + d.

Definition nanoseconds (y m d : Z) : Z :=
  (toordinal y m d - toordinal 1970 1 1) * 86400 * 1000000000.

Definition in_bounds (y m d : Z) : bool :=
  (- 2 ^ 63 <? nanoseconds y m d) && (nanoseconds y m d <? 2 ^ 63).

Definition strptime_Ymd (s : string) : option (Z * Z * Z) :=
  match match_groups Ymd_regex (list_ascii_of_string s) with
  | Some ([ty; tm; td], []) =>
      y ← int ty;
      m ← int tm;
      d ← int td;
      if valid_date y m d then
        if in_bounds y m d then Some (y, m, d) else None
      else None
  | _ => None
  end.

Definition to_datetime_cell (s : string) : value :=
  match strptime_Ymd s with
  | Some (y, m, d) => Timestamp y m d
  | None => NaN
  end.

Definition to_datetime (arg : selection string) : outcome (list value) :=
  match arg with
  | Series texts => Return (map to_datetime_cell texts)
  | Frame _ => Raise (ValueError "cannot assemble with duplicate keys")
  end.

(** *** [df.drop_duplicates(subset)]

    [duplicated] marks every row whose key already occurred above it
    (keep='first'); nulls in a key compare equal.  [drop_duplicates] keeps
    the unmarked rows with their index labels. *)

Fixpoint duplicated_keys {K : Type} `{EqDecision K} (seen ks : list K)
  : list bool :=
  match ks with
  | [] => []
  | k :: ks' =>
      if decide (k ∈ seen) then true :: duplicated_keys seen ks'
      else false :: duplicated_keys (k :: seen) ks'
  end.

Fixpoint select_unmarked {A : Type} (mask : list bool) (l : list A) : list A :=
  match mask, l with
  | b :: mask', a :: l' =>
      if b then select_unmarked mask' l' else a :: select_unmarked mask' l'
  | _, _ => []
  end.

Definition duplicated (subset : option (list string)) (df : DataFrame)
  : outcome (list bool) :=
  let subset := default (columns df) subset in
  match filter (λ c, c ∉ columns df) subset with
  | [] => Return (duplicated_keys []
                    (map (cells_in subset (columns df)) (cells df)))
  | diff => Raise (KeyError diff)
  end.

Definition drop_duplicates (subset : option (list string)) (df : DataFrame)
  : outcome DataFrame :=
  mask ← duplicated subset df;
  Return (mkDataFrame (columns df) (select_unmarked mask (rows df))).

(** [df.reset_index(drop=True)] *)
Definition reset_index (df : DataFrame) : DataFrame :=
  mkDataFrame (columns df) (with_range_index (cells df)).

(** [df.index + k] *)
Definition index_plus (k : Z) (df : DataFrame) : list value :=
  map (λ i, Numz (i + k)) (index df).

(** *** [series.fillna(v)] assigned back to its label *)

Definition fillna_cell (v x : value) : value := if isna x then v else x.

Definition fillna (key : string) (v : value) (df : DataFrame) : DataFrame :=
  map_column key (fillna_cell v) df.

(** *** [series.dt.year], [.month], [.day]

    The accessor exists on a column of timestamps (nulls allowed). *)

Definition is_datetimelike (v : value) : bool :=
  match v with Timestamp _ _ _ | NaN => true | _ => false end.

Definition dt (field : Z → Z → Z → Z) (arg : selection value)
  : outcome (list value) :=
  match arg with
  | Series vs =>
      if forallb is_datetimelike vs then
        Return (map (λ v, match v with
                          | Timestamp y m d => Numz (field y m d)
                          | _ => NaN
                          end) vs)
      else Raise (AttributeError "Can only use .dt accessor with datetimelike values")
  | Frame _ => Raise (AttributeError "'DataFrame' object has no attribute 'dt'")
  end.

(** *** [left.merge(right, on=keys)]

    An inner join on the key labels; a null key matches a null key.  Every
    left row, in order, is paired with the right rows of equal key.  The
    result has the left labels followed by the right labels that are not
    keys; a label the two sides share outside the keys gets the suffixes
    [_x] and [_y].  (The refusal of suffixed labels that collide with an
    existing label is not modelled.) *)

Definition key_cells (on : list string) (cols : list string) (cs : list value)
  : list value :=
  map (λ k, cell k cols cs) on.

Definition merge (left right : DataFrame) (on : list string)
  : outcome DataFrame :=
  match filter (λ k, k ∉ columns left ∨ k ∉ columns right) on with
  | [] =>
      match filter (λ k, length (filter (λ c, c = k) (columns left)) ≠ 1%nat
                        ∨ length (filter (λ c, c = k) (columns right)) ≠ 1%nat) on with
      | [] =>
          let overlap :=
            filter (λ c, (c ∉ on) ∧ (c ∈ columns right)) (columns left) in
          let llabels :=
            map (λ c, if decide (c ∈ overlap) then c +:+ "_x" else c)
              (columns left) in
          let rlabels :=
            map (λ c, if decide (c ∈ overlap) then c +:+ "_y" else c)
              (filter (λ c, c ∉ on) (columns right)) in
          let joined :=
            flat_map (λ l,
              map (λ r, l ++ cells_where (λ c, bool_decide (c ∉ on)) (columns right) r)
                (filter (λ r, key_cells on (columns right) r
                              = key_cells on (columns left) l)
                   (cells right)))
              (cells left) in
          Return (mkDataFrame (llabels ++ rlabels) (with_range_index joined))
      | k :: _ =>
          Raise (ValueError ("The column label '" +:+ (k +:+ "' is not unique.")))
      end
  | missing => Raise (KeyError missing)
  end.

(** *** [series.astype(str)] and [pd.to_numeric(series, errors='coerce')]

    How a cell is written as text depends on the dtype of its column, and
    the grammar of numerals is the library's: the renderer (given the whole
    column and the cell) and the numeral parser are arguments. *)

Definition astype_str (render : list value → value → string)
  (arg : selection value) : selection string :=
  match arg with
  | Series vs => Series (map (render vs) vs)
  | Frame d => Frame d
  end.

Definition to_numeric_cell (parse_number : string → option Qc) (v : value)
  : value :=
  match v with
  | Num q => Num q
  | Str s => match parse_number s with Some q => Num q | None => NaN end
  | NaN | Timestamp _ _ _ => NaN
  end.

Definition to_numeric (parse_number : string → option Qc)
  (arg : selection value) : outcome (list value) :=
  match arg with
  | Series vs => Return (map (to_numeric_cell parse_number) vs)
  | Frame _ =>
      Raise (TypeError "arg must be a list, tuple, 1-d array, or Series")
  end.

(** *** [index.str.strip().str.upper()]

    The labels of the model are text (a header that holds numbers or
    dates is outside it).  The [.str] accessor is refused on an index
    without text: that is the index of a frame without columns, which is
    what a sheet without a cell is read as. *)

Definition str_strip_upper (labels : list string) : outcome (list string) :=
  match labels with
  | [] => Raise (AttributeError "Can only use .str accessor with string values!")
  | _ => Return (map (λ c, upper (strip c)) labels)
  end.

(** *** [df.dropna(how='all')]

    The rows in which every cell is null are dropped; the others keep
    their index labels. *)

Definition dropna_all (df : DataFrame) : DataFrame :=
  mkDataFrame (columns df)
    (filter (λ r, Exists (λ v, isna v = false) r.2) (rows df)).

End pd.

(** ** The state a run works on *)

Inductive level := INFO | WARNING | ERROR.

(** The pieces of a formatted log message. *)
Inductive fragment :=
  | Lit (s : string)
  | Count (n : Z)
  | Labels (l : list string).

(** A frame object is addressed by its position in the store. *)
Definition ref := nat.

Record world := mkWorld {
  log : list (level * list fragment);
  core_parquet : option pd.DataFrame;
  objects : list pd.DataFrame;
  dw : gmap string pd.DataFrame
}.

Definition M (A : Type) : Type := world → outcome A * world.

#[global] Instance M_ret : MRet M := λ A a w, (Return a, w).
#[global] Instance M_bind : MBind M := λ A B f m w,
  match m w with
  | (Return a, w') => f a w'
  | (Raise e, w') => (Raise e, w')
  end.

Definition lift {A : Type} (o : outcome A) : M A := λ w, (o, w).

Definition logging (l : level) (msg : list fragment) : M unit := λ w,
  (Return (), mkWorld (log w ++ [(l, msg)]) (core_parquet w) (objects w) (dw w)).
Definition logging_info : list fragment → M unit := logging INFO.
Definition logging_error : list fragment → M unit := logging ERROR.

(** A new frame object: it goes to the end of the store. *)
Definition new (df : pd.DataFrame) : M ref := λ w,
  (Return (length (objects w)),
   mkWorld (log w) (core_parquet w) (objects w ++ [df]) (dw w)).

Definition load (r : ref) : M pd.DataFrame := λ w,
  match objects w !! r with
  | Some df => (Return df, w)
  | None => (Raise (NameError "unbound frame"), w)
  end.

Definition store (r : ref) (df : pd.DataFrame) : M unit := λ w,
  (Return (), mkWorld (log w) (core_parquet w) (<[r := df]> (objects w)) (dw w)).

(** A method that reads the object. *)
Definition read {A : Type} (f : pd.DataFrame → outcome A) (r : ref) : M A :=
  df ← load r; lift (f df).

(** A method that returns a new object and leaves its receiver alone. *)
Definition call (f : pd.DataFrame → outcome pd.DataFrame) (r : ref) : M ref :=
  df ← load r; d ← lift (f df); new d.

(** A statement that changes the object in place. *)
Definition update (f : pd.DataFrame → outcome pd.DataFrame) (r : ref) : M unit :=
  df ← load r; d ← lift (f df); store r d.

(** [df.to_sql(name, conn, if_exists='replace', index=False)]: the table
    is replaced as a whole; SQLite refuses a repeated column name. *)
Definition replace_table (name : string) (df : pd.DataFrame) : M unit := λ w,
  (Return (), mkWorld (log w) (core_parquet w) (objects w) (<[name := df]> (dw w))).

Definition to_sql (name : string) (r : ref) : M unit :=
  df ← load r;
  if decide (NoDup (pd.columns df)) then replace_table name df
  else lift (Raise (OperationalError "duplicate column name")).

(** [df.to_parquet(path, engine='pyarrow')]: the snapshot is replaced.  The
    engine refuses repeated column names; [arrow_ok] stands for its other
    conversion checks (a column must convert to one Arrow type). *)
Definition write_parquet (df : pd.DataFrame) : M unit := λ w,
  (Return (), mkWorld (log w) (Some df) (objects w) (dw w)).

Definition to_parquet (arrow_ok : pd.DataFrame → bool) (df : pd.DataFrame)
  : M unit :=
  if decide (NoDup (pd.columns df)) then
    if arrow_ok df then write_parquet df
    else lift (Raise (ArrowInvalid "Could not convert column"))
  else lift (Raise (ValueError "Duplicate column names found")).

(** ** The pipeline *)

Definition FECHA : string := "FECHA_DECLARACION_EXPORTACION".
Definition PAIS : string := "PAIS_DESTINO_FINAL".

Definition numeric_cols : list string :=
  ["CANTIDAD_UNIDADES_FISICAS"; "PESO_BRUTO_KGS"; "PESO_NETO_KGS";
   "VALOR_FOB_USD"; "VALOR_FOB_PESOS"].

Definition required_cols : list string := ["NUMERO_FORMULARIO"; "NUMERO_SERIE"].

Section Transform.

(** What the library and the Parquet engine decide: the text of a cell
    under [astype(str)], the numerals [to_numeric] reads, and the frames
    the engine can write. *)
Variable render : list pd.value → pd.value → string.
Variable parse_number : string → option Qc.
Variable arrow_ok : pd.DataFrame → bool.

(** Column-name correction: normalise the labels, then force the name of
    NUMERO_SERIE. *)
Definition reconcile (all_data : pd.DataFrame) : pd.DataFrame :=
  let all_data :=
    pd.set_columns (map (λ c, upper (strip c)) (pd.columns all_data)) all_data in
  if decide ("NUM_SERIE" ∈ pd.columns all_data) then
    pd.rename "NUM_SERIE" "NUMERO_SERIE" all_data
  else if decide ("NUMERO SERIE" ∈ pd.columns all_data) then
    pd.rename "NUMERO SERIE" "NUMERO_SERIE" all_data
  else all_data.

(** The date and the numeric columns are parsed. *)
Definition parse_dates (all_data : pd.DataFrame) : outcome pd.DataFrame :=
  s ← pd.getitem FECHA all_data;
  d ← pd.to_datetime (pd.astype_str render s);
  pd.setitem FECHA d all_data.

Definition parse_numeric (col : string) (all_data : pd.DataFrame)
  : outcome pd.DataFrame :=
  if decide (col ∈ pd.columns all_data) then
    s ← pd.getitem col all_data;
    n ← pd.to_numeric parse_number s;
    pd.setitem col n all_data
  else Return all_data.

(** Null handling: the measures get 0, the destination country "Unknown". *)
Definition fill_nulls (all_data : pd.DataFrame) : pd.DataFrame :=
  let all_data :=
    foldl (λ df col,
             if decide (col ∈ pd.columns df) then pd.fillna col (pd.Numz 0) df
             else df)
      all_data numeric_cols in
  if decide (PAIS ∈ pd.columns all_data) then
    pd.fillna PAIS (pd.Str "Unknown") all_data
  else all_data.

Definition transform_to_core (staging_dfs : list (string * pd.DataFrame))
  : M pd.DataFrame :=
  all_data ← lift (pd.concat (filter (λ df, pd.empty df = false) staging_dfs.*2));
  if pd.empty all_data then
    logging_error [Lit "No hay datos en staging. Terminando."];;
    mret pd.DataFrame_new
  else
    logging_info [Lit "Datos integrados en core: ";
                  Count (pd.shape0 all_data); Lit " filas"];;
    let all_data := reconcile all_data in
    let missing := filter (λ col, col ∉ pd.columns all_data) required_cols in
    if bool_decide (missing ≠ []) then
      logging_error [Lit "Columnas faltantes para deduplicación: ";
                     Labels missing];;
      mret pd.DataFrame_new
    else
      all_data ← lift (parse_dates all_data);
      all_data ← lift (for_each numeric_cols parse_numeric all_data);
      all_data ← lift (pd.drop_duplicates (Some required_cols) all_data);
      let all_data := fill_nulls all_data in
      to_parquet arrow_ok all_data;;
      logging_info [Lit "Guardado en core: "; Lit "dw/core_exportaciones.parquet"];;
      mret all_data.

End Transform.

(** *** Stage 3: the dimensional model

    [core_df] is the caller's frame object.  Selecting columns, dropping
    duplicates, resetting the index and merging each return a new object;
    the assignments [dim[...] = ...] change the dimension object in
    place.  The SQLite file is the map [dw] of its tables; opening and
    closing the connection leave it as it is and are not modelled. *)

Definition dim_time_cols : list string := [FECHA].
Definition dim_empresa_cols : list string :=
  ["NIT_EXPORTADOR"; "RAZON_SOCIAL_EXPORTADOR"; "DIREC_EXPORTADOR"].
Definition dim_pais_cols : list string := ["COD_PAIS_DESTINO"; PAIS].
Definition dim_mercancia_cols : list string := ["SUBPARTIDA"].

Definition fact_cols : list string :=
  ["TIME_ID"; "EMPRESA_ID"; "PAIS_ID"; "MERCANCIA_ID";
   "VALOR_FOB_USD"; "PESO_NETO_KGS"; "CANTIDAD_UNIDADES_FISICAS";
   "NUMERO_FORMULARIO"].

(** [core_df[cols].drop_duplicates().reset_index(drop=True)] *)
Definition distinct_tuples (cols : list string) (core_df : ref) : M ref :=
  selected ← call (pd.getitem_list cols) core_df;
  unique ← call (pd.drop_duplicates None) selected;
  call (λ df, Return (pd.reset_index df)) unique.

(** [dim[name] = dim.index + 1] *)
Definition assign_id (name : string) (dim : ref) : M unit :=
  ids ← read (λ df, Return (pd.index_plus 1 df)) dim;
  update (pd.setitem name ids) dim.

(** [dim[name] = dim[FECHA].dt.<field>] *)
Definition assign_dt (name : string) (field : Z → Z → Z → Z) (dim : ref)
  : M unit :=
  part ← read (λ df, s ← pd.getitem FECHA df; pd.dt field s) dim;
  update (pd.setitem name part) dim.

(** [left.merge(right, on=keys)] *)
Definition merge (on : list string) (left right : ref) : M ref :=
  r ← load right;
  call (λ l, pd.merge l r on) left.

Definition build_semantic_layer (core_df : ref) : M unit :=
  is_empty ← read (λ df, Return (pd.empty df)) core_df;
  if (is_empty : bool) then
    logging_error [Lit "Core DF vacío. No se puede construir semantic layer."]
  else
    logging_info [Lit "Conectado a SQLite para Semantic Layer"];;
    dim_time ← distinct_tuples dim_time_cols core_df;
    assign_id "TIME_ID" dim_time;;
    assign_dt "YEAR" (λ y _ _, y) dim_time;;
    assign_dt "MONTH" (λ _ m _, m) dim_time;;
    assign_dt "DAY" (λ _ _ d, d) dim_time;;
    to_sql "DIM_TIME" dim_time;;
    dim_empresa ← distinct_tuples dim_empresa_cols core_df;
    assign_id "EMPRESA_ID" dim_empresa;;
    to_sql "DIM_EMPRESA" dim_empresa;;
    dim_pais ← distinct_tuples dim_pais_cols core_df;
    assign_id "PAIS_ID" dim_pais;;
    to_sql "DIM_PAIS" dim_pais;;
    dim_mercancia ← distinct_tuples dim_mercancia_cols core_df;
    assign_id "MERCANCIA_ID" dim_mercancia;;
    to_sql "DIM_MERCANCIA" dim_mercancia;;
    fact_exportaciones ← merge dim_time_cols core_df dim_time;
    fact_exportaciones ← merge dim_empresa_cols fact_exportaciones dim_empresa;
    fact_exportaciones ← merge dim_pais_cols fact_exportaciones dim_pais;
    fact_exportaciones ← merge dim_mercancia_cols fact_exportaciones dim_mercancia;
    fact_exportaciones ← call (pd.getitem_list fact_cols) fact_exportaciones;
    to_sql "FACT_EXPORTACIONES" fact_exportaciones;;
    logging_info [Lit "Semantic Layer construida en SQLite"].

(** *** Stage 1: ingestion

    The disk is the raw spreadsheets and the staging snapshots.  A raw
    file is kept as what [pd.read_excel] makes of it: a frame, or the
    exception of a file that cannot be read as a spreadsheet with a sheet
    [Sheet1]; a file that does not exist is absent from the map.  After
    the read the label normalisation can still raise.  A
    snapshot is kept as the table written: the header and the cells of the
    rows, without the index ([index=False]). *)

Definition csv : Type := list string * list (list pd.value).

Record site := mkSite {
  raw : gmap (string * string) (outcome pd.DataFrame);
  staging : gmap string csv;
  run : world
}.

Definition IO (A : Type) : Type := site → outcome A * site.

#[global] Instance IO_ret : MRet IO := λ A a s, (Return a, s).
#[global] Instance IO_bind : MBind IO := λ A B f m s,
  match m s with
  | (Return a, s') => f a s'
  | (Raise e, s') => (Raise e, s')
  end.

(** A computation on the run-time state, run on the site. *)
Definition in_run {A : Type} (m : M A) : IO A := λ s,
  let '(o, w) := m (run s) in (o, mkSite (raw s) (staging s) w).

Definition io_lift {A : Type} (o : outcome A) : IO A := λ s, (o, s).

Definition logging_warning : list fragment → M unit := logging WARNING.

Definition MONTHS : list string := ["2025-01"; "2025-02"; "2025-03"].

Definition EXCEL_FILES : list (string * string) :=
  [("2025-01", "01_Exportaciones_2025_Enero.xlsx");
   ("2025-02", "02_Exportaciones_2025_Febrero.xlsx");
   ("2025-03", "03_Exportaciones_2025_Marzo.xlsx")].

(** [dict.get(key)] on a dictionary kept in insertion order. *)
Fixpoint dict_get {V : Type} (key : string) (d : list (string * V)) : option V :=
  match d with
  | [] => None
  | (k, v) :: d' => if decide (k = key) then Some v else dict_get key d'
  end.

(** [d[key] = v]: an existing key keeps its place, a new one goes last. *)
Fixpoint dict_set {V : Type} (key : string) (v : V) (d : list (string * V))
  : list (string * V) :=
  match d with
  | [] => [(key, v)]
  | (k, v') :: d' =>
      if decide (k = key) then (k, v) :: d' else (k, v') :: dict_set key v d'
  end.

Definition raw_path (month file_name : string) : string :=
  "raw/" +:+ (month +:+ ("/" +:+ file_name)).

Definition staging_path (month : string) : string :=
  "staging/staging_" +:+ (month +:+ ".csv").

(** [pd.read_excel(raw_path, sheet_name='Sheet1', engine='openpyxl')] inside
    the [try]: [None] is the [FileNotFoundError] the code catches. *)
Definition read_excel (month file_name : string) : IO (option pd.DataFrame) :=
  λ s, match raw s !! (month, file_name) with
       | None => (Return None, s)
       | Some (Return df) => (Return (Some df), s)
       | Some (Raise e) => (Raise e, s)
       end.

(** [df.to_csv(staging_path, index=False)] *)
Definition to_csv (month : string) (df : pd.DataFrame) : IO unit := λ s,
  (Return (),
   mkSite (raw s)
     (<[staging_path month := (pd.columns df, (pd.rows df).*2)]> (staging s))
     (run s)).

Definition read_excel_to_staging (month file_name : string) : IO pd.DataFrame :=
  in_run (logging_info [Lit "Leyendo archivo raw: "; Lit (raw_path month file_name)]);;
  found ← read_excel month file_name;
  match found with
  | None =>
      in_run (logging_warning [Lit "Archivo no encontrado para "; Lit month;
                               Lit ": "; Lit (raw_path month file_name);
                               Lit ". Saltando."]);;
      mret pd.DataFrame_new
  | Some df =>
      let df := pd.dropna_all df in
      labels ← io_lift (pd.str_strip_upper (pd.columns df));
      let df := pd.set_columns labels df in
      in_run (logging_info [Lit "Datos leídos para "; Lit month; Lit ": ";
                            Count (pd.shape0 df); Lit " filas"]);;
      to_csv month df;;
      in_run (logging_info [Lit "Guardado en staging: "; Lit (staging_path month)]);;
      mret df
  end.

(** The loop of [ingest_to_staging] from a given dictionary on. *)
Fixpoint ingest_months (months : list string)
  (staging_dfs : list (string * pd.DataFrame))
  : IO (list (string * pd.DataFrame)) :=
  match months with
  | [] => mret staging_dfs
  | month :: months' =>
      match dict_get month EXCEL_FILES with
      | Some (String a file_name' as file_name) =>
          df ← read_excel_to_staging month file_name;
          ingest_months months' (dict_set month df staging_dfs)
      | _ => ingest_months months' staging_dfs
      end
  end.

Definition ingest_to_staging : IO (list (string * pd.DataFrame)) :=
  ingest_months MONTHS [].

Section Main.

Variable render : list pd.value → pd.value → string.
Variable parse_number : string → option Qc.
Variable arrow_ok : pd.DataFrame → bool.

(** The main flow through its three stages; the analysis and the closing
    line follow in [main].  The frame [transform_to_core] returns is the
    object [core_df] handed to [build_semantic_layer]. *)
Definition main_stages : IO unit :=
  in_run (logging_info [Lit "Iniciando prototipo de Data Warehouse"]);;
  staging_dfs ← ingest_to_staging;
  core ← in_run (transform_to_core render parse_number arrow_ok staging_dfs);
  core_df ← in_run (new core);
  in_run (build_semantic_layer core_df).

End Main.

(** *** The analysis and the whole main flow

    A process is the site and what has been printed.  A query is kept as
    its text and the tables of its FROM clause, in the order in which the
    engine looks them up.  Connecting creates the database file when there
    is none, without a table.  What the engine computes from tables that
    exist is its own; a table that does not exist makes the query fail
    with the [DatabaseError] in which the library wraps the engine's
    [no such table]. *)

Inductive output :=
  | Line (text : string)
  | Table (df : pd.DataFrame).

Record process := mkProcess {
  disk : site;
  stdout : list output
}.

Definition Run (A : Type) : Type := process → outcome A * process.

#[global] Instance Run_ret : MRet Run := λ A a p, (Return a, p).
#[global] Instance Run_bind : MBind Run := λ A B f m p,
  match m p with
  | (Return a, p') => f a p'
  | (Raise e, p') => (Raise e, p')
  end.

Definition on_disk {A : Type} (m : IO A) : Run A := λ p,
  let '(o, s) := m (disk p) in (o, mkProcess s (stdout p)).

Definition print (o : output) : Run unit := λ p,
  (Return (), mkProcess (disk p) (stdout p ++ [o])).

Record statement := mkStatement {
  from_tables : list string;
  sql_text : string
}.

Definition q1 : statement :=
  mkStatement ["FACT_EXPORTACIONES"; "DIM_TIME"; "DIM_EMPRESA"]
    "
    SELECT e.RAZON_SOCIAL_EXPORTADOR, SUM(f.VALOR_FOB_USD) as TOTAL_FOB_USD
    FROM FACT_EXPORTACIONES f
    JOIN DIM_TIME t ON f.TIME_ID = t.TIME_ID
    JOIN DIM_EMPRESA e ON f.EMPRESA_ID = e.EMPRESA_ID
    WHERE t.YEAR = 2025 AND t.MONTH = 3
    GROUP BY e.RAZON_SOCIAL_EXPORTADOR
    ORDER BY TOTAL_FOB_USD DESC
    LIMIT 10;
    ".

Definition q2 : statement :=
  mkStatement ["FACT_EXPORTACIONES"; "DIM_TIME"]
    "
    SELECT t.YEAR, t.MONTH, SUM(f.VALOR_FOB_USD) as TOTAL_FOB_USD
    FROM FACT_EXPORTACIONES f
    JOIN DIM_TIME t ON f.TIME_ID = t.TIME_ID
    GROUP BY t.YEAR, t.MONTH
    ORDER BY t.YEAR, t.MONTH;
    ".

Definition q3 : statement :=
  mkStatement ["FACT_EXPORTACIONES"; "DIM_TIME"; "DIM_PAIS"]
    "
    SELECT p.PAIS_DESTINO_FINAL, SUM(f.VALOR_FOB_USD) as TOTAL_FOB_USD
    FROM FACT_EXPORTACIONES f
    JOIN DIM_TIME t ON f.TIME_ID = t.TIME_ID
    JOIN DIM_PAIS p ON f.PAIS_ID = p.PAIS_ID
    WHERE t.YEAR = 2025 AND t.MONTH BETWEEN 1 AND 3
    GROUP BY p.PAIS_DESTINO_FINAL
    ORDER BY TOTAL_FOB_USD DESC
    LIMIT 10;
    ".

Definition a1 : statement :=
  mkStatement ["FACT_EXPORTACIONES"; "DIM_MERCANCIA"]
    "
    SELECT m.SUBPARTIDA, SUM(f.VALOR_FOB_USD) as TOTAL_FOB_USD
    FROM FACT_EXPORTACIONES f
    JOIN DIM_MERCANCIA m ON f.MERCANCIA_ID = m.MERCANCIA_ID
    GROUP BY m.SUBPARTIDA
    ORDER BY TOTAL_FOB_USD DESC
    LIMIT 10;
    ".

Definition a2 : statement :=
  mkStatement ["FACT_EXPORTACIONES"; "DIM_PAIS"]
    "
    SELECT p.PAIS_DESTINO_FINAL, SUM(f.PESO_NETO_KGS) as TOTAL_PESO_NETO_KGS
    FROM FACT_EXPORTACIONES f
    JOIN DIM_PAIS p ON f.PAIS_ID = p.PAIS_ID
    GROUP BY p.PAIS_DESTINO_FINAL
    ORDER BY TOTAL_PESO_NETO_KGS DESC
    LIMIT 10;
    ".

Definition newline : string := String (ascii_of_nat 10) EmptyString.

(** The first table of the FROM clause that the database does not have. *)
Fixpoint first_missing (D : gmap string pd.DataFrame) (ts : list string)
  : option string :=
  match ts with
  | [] => None
  | t :: ts' =>
      match D !! t with
      | None => Some t
      | Some _ => first_missing D ts'
      end
  end.

Section Analysis.

Variable render : list pd.value → pd.value → string.
Variable parse_number : string → option Qc.
Variable arrow_ok : pd.DataFrame → bool.

(** What SQLite makes of a statement whose tables exist. *)
Variable sqlite : statement → gmap string pd.DataFrame → outcome pd.DataFrame.

(** [pd.read_sql_query(sql_query, conn)] *)
Definition read_sql_query (sql_query : statement) : M pd.DataFrame := λ w,
  match first_missing (dw w) (from_tables sql_query) with
  | Some t =>
      (Raise (DatabaseError ("Execution failed on sql '" +:+ sql_text sql_query
                             +:+ "': no such table: " +:+ t)), w)
  | None => (sqlite sql_query (dw w), w)
  end.

Definition query_dw (sql_query : statement) : Run pd.DataFrame :=
  on_disk (in_run (read_sql_query sql_query)).

Definition analyze_data : Run unit :=
  top_empresas ← query_dw q1;
  print (Line "Top 10 Empresas que más exportaron en el último mes (Marzo 2025):");;
  print (Table top_empresas);;
  total_mes ← query_dw q2;
  print (Line (newline +:+ "Valor Total FOB Mes a Mes:"));;
  print (Table total_mes);;
  top_destinos ← query_dw q3;
  print (Line (newline +:+ "Top 10 Destinos en los Últimos 3 Meses:"));;
  print (Table top_destinos);;
  top_productos ← query_dw a1;
  print (Line (newline +:+ "Análisis Adicional 1: Top 10 Productos Más Exportados por Valor FOB:"));;
  print (Table top_productos);;
  concentracion_peso ← query_dw a2;
  print (Line (newline +:+ "Análisis Adicional 2: Top 10 Países por Peso Neto Exportado:"));;
  print (Table concentracion_peso).

(** The main block. *)
Definition main : Run unit :=
  on_disk (main_stages render parse_number arrow_ok);;
  analyze_data;;
  on_disk (in_run (logging_info [Lit "Proceso completado"])).

End Analysis.

(** ** Examples *)

Definition w0 : world := mkWorld [] None [] ∅.

Definition ex_render (col : list pd.value) (v : pd.value) : string :=
  match v with pd.Str s => s | _ => "nan" end.
Definition ex_parse (s : string) : option Qc :=
  match s with "10" => Some (Qc_of_Z 10) | "7" => Some (Qc_of_Z 7) | _ => None end.

Definition ex_jan : pd.DataFrame :=
  pd.mkDataFrame
    ["NUMERO_FORMULARIO"; "NUM_SERIE"; FECHA; "VALOR_FOB_USD"; PAIS]
    [(0, [pd.Numz 100; pd.Numz 1; pd.Str "20250115"; pd.Str "10"; pd.Str "PERU"]);
     (1, [pd.Numz 100; pd.Numz 1; pd.Str "20250116"; pd.Str "7"; pd.NaN]);
     (3, [pd.Numz 101; pd.NaN; pd.Str "2025-01-17"; pd.Str "x"; pd.NaN])].

Definition ex_core : pd.DataFrame :=
  pd.mkDataFrame
    ["NUMERO_FORMULARIO"; "NUMERO_SERIE"; FECHA; "NIT_EXPORTADOR";
     "RAZON_SOCIAL_EXPORTADOR"; "DIREC_EXPORTADOR"; "COD_PAIS_DESTINO"; PAIS;
     "SUBPARTIDA"; "VALOR_FOB_USD"; "PESO_NETO_KGS"; "CANTIDAD_UNIDADES_FISICAS"]
    [(0, [pd.Numz 100; pd.Numz 1; pd.Timestamp 2025 1 15; pd.Numz 900;
          pd.Str "ACME"; pd.NaN; pd.Str "PE"; pd.Str "PERU"; pd.Numz 901;
          pd.Numz 10; pd.Numz 3; pd.Numz 1]);
     (2, [pd.Numz 101; pd.NaN; pd.NaN; pd.Numz 900;
          pd.Str "ACME"; pd.NaN; pd.NaN; pd.Str "Unknown"; pd.Numz 901;
          pd.Numz 0; pd.Numz 4; pd.Numz 2]);
     (5, [pd.Numz 102; pd.Numz 1; pd.NaN; pd.Numz 950;
          pd.Str "BETA"; pd.Str "CALLE 1"; pd.Str "PE"; pd.Str "PERU"; pd.Numz 902;
          pd.Numz 5; pd.Numz 4; pd.Numz 2])].

Definition ex_feb : pd.DataFrame :=
  pd.mkDataFrame
    ["NUMERO_FORMULARIO"; "NUM_SERIE"; FECHA; "VALOR_FOB_USD"; PAIS]
    [(0, [pd.Numz 100; pd.Numz 1; pd.Str "20250201"; pd.Str "7"; pd.Str "CHILE"]);
     (1, [pd.Numz 101; pd.NaN; pd.Str "20250202"; pd.NaN; pd.Str "CHILE"]);
     (2, [pd.Numz 102; pd.Numz 1; pd.Str "20250230"; pd.NaN; pd.NaN])].

Definition ex_staging : list (string * pd.DataFrame) :=
  [("2025-01", ex_jan); ("2025-02", ex_feb); ("2025-03", pd.DataFrame_new)].

Definition ex_run : outcome pd.DataFrame * world :=
  Eval vm_compute in
    transform_to_core ex_render ex_parse (λ _, true) ex_staging w0.

Definition ex_out : pd.DataFrame :=
  match ex_run.1 with Return d => d | Raise _ => pd.DataFrame_new end.

Definition ex_null_keys : pd.DataFrame :=
  pd.mkDataFrame
    ["NUMERO_FORMULARIO"; "NUMERO_SERIE"; "VALOR_FOB_USD"]
    [(0, [pd.Numz 100; pd.NaN; pd.Numz 1]);
     (1, [pd.NaN; pd.NaN; pd.Numz 2]);
     (2, [pd.Numz 100; pd.NaN; pd.Numz 3]);
     (3, [pd.NaN; pd.NaN; pd.Numz 4])].

Definition ex_null_keys_out : pd.DataFrame :=
  pd.mkDataFrame
    ["NUMERO_FORMULARIO"; "NUMERO_SERIE"; "VALOR_FOB_USD"]
    [(0, [pd.Numz 100; pd.NaN; pd.Numz 1]);
     (1, [pd.NaN; pd.NaN; pd.Numz 2])].

Definition ex_world : world := mkWorld [] None [ex_core] ∅.

Definition ex_sheet : pd.DataFrame :=
  pd.mkDataFrame
    [" numero_formulario"; "Num_Serie "; "fecha_declaracion_exportacion"]
    [(0, [pd.Numz 100; pd.Numz 1; pd.Str "20250115"]);
     (1, [pd.NaN; pd.NaN; pd.NaN]);
     (2, [pd.Numz 101; pd.NaN; pd.Str "20250116"])].

(** January is on disk, February and March are not. *)
Definition ex_site : site :=
  mkSite {[ ("2025-01", "01_Exportaciones_2025_Enero.xlsx") := Return ex_sheet ]}
    ∅ w0.

Definition ex_site_empty : site := mkSite ∅ ∅ w0.

Definition ex_ingested : list (string * pd.DataFrame) :=
  [("2025-01",
    pd.mkDataFrame ["NUMERO_FORMULARIO"; "NUM_SERIE"; FECHA]
      [(0, [pd.Numz 100; pd.Numz 1; pd.Str "20250115"]);
       (2, [pd.Numz 101; pd.NaN; pd.Str "20250116"])]);
   ("2025-02", pd.DataFrame_new);
   ("2025-03", pd.DataFrame_new)].

(** ** Notions the properties are stated with *)

(** The rows a keep-first deduplication by [key] retains: a row survives
    when no row above it (and nothing in [seen]) has its key. *)
Fixpoint keep_first {A K : Type} `{EqDecision K} (key : A → K)
  (seen : list K) (l : list A) : list A :=
  match l with
  | [] => []
  | a :: l' =>
      if decide (key a ∈ seen) then keep_first key seen l'
      else a :: keep_first key (key a :: seen) l'
  end.

(** The (NUMERO_FORMULARIO, NUMERO_SERIE) key of a row of [df]. *)
Definition natural_key (df : pd.DataFrame) (r : Z * list pd.value)
  : list pd.value :=
  pd.cells_in required_cols (pd.columns df) r.2.

(** The cells under label [c], row by row. *)
Definition under (c : string) (df : pd.DataFrame) : list (list pd.value) :=
  map (pd.cells_in [c] (pd.columns df)) (pd.cells df).

(** The frame [transform_to_core] holds when it reaches the
    deduplication: the periods concatenated, the labels reconciled, the
    date and the measures parsed. *)
Definition integrated (render : list pd.value → pd.value → string)
  (parse_number : string → option Qc)
  (staging_dfs : list (string * pd.DataFrame)) : outcome pd.DataFrame :=
  all_data ← pd.concat (filter (λ df, pd.empty df = false) staging_dfs.*2);
  all_data ← parse_dates render (reconcile all_data);
  for_each numeric_cols (parse_numeric parse_number) all_data.

(** The guard on the key columns fires: the periods concatenate, and a
    key label is absent from the reconciled labels. *)
Definition keys_missing (staging_dfs : list (string * pd.DataFrame)) : Prop :=
  ∃ all_data,
    pd.concat (filter (λ df, pd.empty df = false) staging_dfs.*2)
      = Return all_data
    ∧ filter (λ col, col ∉ pd.columns (reconcile all_data)) required_cols ≠ [].

(** The same frame after [drop_duplicates], before the nulls are filled. *)
Definition deduplicated (render : list pd.value → pd.value → string)
  (parse_number : string → option Qc)
  (staging_dfs : list (string * pd.DataFrame)) : outcome pd.DataFrame :=
  all_data ← integrated render parse_number staging_dfs;
  pd.drop_duplicates (Some required_cols) all_data.

(** [m] leaves the object at [r] as it is, whatever its outcome, and a
    value it returns satisfies [post]. *)
Definition keeps (r : ref) (core : pd.DataFrame) {A : Type} (m : M A)
  (post : A → Prop) : Prop :=
  ∀ w, objects w !! r = Some core →
    objects (m w).2 !! r = Some core
    ∧ match (m w).1 with Return a => post a | Raise _ => True end.

(** *** The dimensional model as values

    The frames [build_semantic_layer] computes, without the store: what
    each table is as a function of the integrated frame. *)

(** [core_df[cols].drop_duplicates().reset_index(drop=True)] followed by
    [dim[id] = dim.index + 1]. *)
Definition dimension (cols : list string) (id : string) (core : pd.DataFrame)
  : outcome pd.DataFrame :=
  selected ← pd.getitem_list cols core;
  unique ← pd.drop_duplicates None selected;
  pd.setitem id (pd.index_plus 1 (pd.reset_index unique)) (pd.reset_index unique).

Definition with_dt (name : string) (field : Z → Z → Z → Z) (dim : pd.DataFrame)
  : outcome pd.DataFrame :=
  part ← (s ← pd.getitem FECHA dim; pd.dt field s);
  pd.setitem name part dim.

(** What [to_sql] asks of a frame. *)
Definition sql_ok (df : pd.DataFrame) : outcome pd.DataFrame :=
  if decide (NoDup (pd.columns df)) then Return df
  else Raise (OperationalError "duplicate column name").

Record tables := mkTables {
  DIM_TIME : pd.DataFrame;
  DIM_EMPRESA : pd.DataFrame;
  DIM_PAIS : pd.DataFrame;
  DIM_MERCANCIA : pd.DataFrame;
  FACT_EXPORTACIONES : pd.DataFrame
}.

Definition semantic_tables (core : pd.DataFrame) : outcome tables :=
  dim_time ← dimension dim_time_cols "TIME_ID" core;
  dim_time ← with_dt "YEAR" (λ y _ _, y) dim_time;
  dim_time ← with_dt "MONTH" (λ _ m _, m) dim_time;
  dim_time ← with_dt "DAY" (λ _ _ d, d) dim_time;
  dim_time ← sql_ok dim_time;
  dim_empresa ← dimension dim_empresa_cols "EMPRESA_ID" core;
  dim_empresa ← sql_ok dim_empresa;
  dim_pais ← dimension dim_pais_cols "PAIS_ID" core;
  dim_pais ← sql_ok dim_pais;
  dim_mercancia ← dimension dim_mercancia_cols "MERCANCIA_ID" core;
  dim_mercancia ← sql_ok dim_mercancia;
  fact ← pd.merge core dim_time dim_time_cols;
  fact ← pd.merge fact dim_empresa dim_empresa_cols;
  fact ← pd.merge fact dim_pais dim_pais_cols;
  fact ← pd.merge fact dim_mercancia dim_mercancia_cols;
  fact ← pd.getitem_list fact_cols fact;
  fact ← sql_ok fact;
  Return (mkTables dim_time dim_empresa dim_pais dim_mercancia fact).

(** The tuples of a frame under the labels [cols], row by row. *)
Definition tuples (cols : list string) (df : pd.DataFrame)
  : list (list pd.value) :=
  map (pd.key_cells cols (pd.columns df)) (pd.cells df).

(** Every row has one cell per label. *)
Definition rectangular (df : pd.DataFrame) : Prop :=
  Forall (λ cs, length cs = length (pd.columns df)) (pd.cells df).

(** The labels the dimensional model reads, and those it creates. *)
Definition read_cols : list string :=
  dim_time_cols ++ dim_empresa_cols ++ dim_pais_cols ++ dim_mercancia_cols
  ++ ["VALOR_FOB_USD"; "PESO_NETO_KGS"; "CANTIDAD_UNIDADES_FISICAS";
      "NUMERO_FORMULARIO"].

Definition made_cols : list string :=
  ["TIME_ID"; "YEAR"; "MONTH"; "DAY"; "EMPRESA_ID"; "PAIS_ID"; "MERCANCIA_ID"].

(** An integrated frame the dimensional model can be built from: it is not
    empty, its labels are distinct, it has the labels that are read and
    none of those that are created, and its date column holds timestamps
    or nulls. *)
Definition core_ready (core : pd.DataFrame) : Prop :=
  pd.empty core = false
  ∧ NoDup (pd.columns core)
  ∧ rectangular core
  ∧ Forall (λ c, c ∈ pd.columns core) read_cols
  ∧ Forall (λ c, c ∉ pd.columns core) made_cols
  ∧ Forall (λ v, pd.is_datetimelike v = true) (pd.column FECHA core).

(** A dimension table: its surrogate keys are 1, 2, ... in row order, its
    tuples are pairwise distinct and are exactly the tuples of the
    integrated frame, so that it has one row per distinct tuple. *)
Definition is_dimension (cols : list string) (id : string)
  (core t : pd.DataFrame) : Prop :=
  pd.column id t = map pd.Numz (seqZ 1 (Z.of_nat (length (pd.rows t))))
  ∧ NoDup (tuples cols t)
  ∧ (∀ x, x ∈ tuples cols t ↔ x ∈ tuples cols core)
  ∧ length (pd.rows t) = length (remove_dups (tuples cols core)).

(** The rows of a dimension: the distinct tuples in order, labelled from
    [s] on, each followed by its surrogate key (the label plus one). *)
Fixpoint numbered (s : Z) (ts : list (list pd.value))
  : list (Z * list pd.value) :=
  match ts with
  | [] => []
  | t :: ts' => (s, t ++ [pd.Numz (s + 1)]) :: numbered (s + 1) ts'
  end.

(** The distinct tuples of [core] under [cols], first occurrences in row
    order. *)
Definition distinct_tuples_of (cols : list string) (core : pd.DataFrame)
  : list (list pd.value) :=
  (keep_first snd []
     (map (λ r, (r.1, pd.key_cells cols (pd.columns core) r.2)) (pd.rows core))).*2.

(** [d'] has the rows of [d], each with further cells at its end, under
    further labels at the end. *)
Definition extends (d d' : pd.DataFrame) : Prop :=
  (∃ E, pd.columns d' = pd.columns d ++ E)
  ∧ Forall2 (λ cs cs', ∃ x, cs' = cs ++ x) (pd.cells d) (pd.cells d').

(** The three periods as [ingest_to_staging] leaves them when no
    spreadsheet is found. *)
Definition no_files : list (string * pd.DataFrame) :=
  [("2025-01", pd.DataFrame_new); ("2025-02", pd.DataFrame_new);
   ("2025-03", pd.DataFrame_new)].

Definition ex_no_serial : pd.DataFrame :=
  pd.mkDataFrame ["NUMERO_FORMULARIO"; FECHA]
    [(0, [pd.Numz 100; pd.Str "20250115"])].

(** The text of a date under the strict eight-digit format of the
    specification: four digits of year, two of month, two of day. *)
Definition digit_char (k : Z) : ascii := ascii_of_nat (48 + Z.to_nat k).

Definition Ymd_text (y m d : Z) : string :=
  string_of_list_ascii
    [digit_char (y / 1000); digit_char (y / 100 mod 10);
     digit_char (y / 10 mod 10); digit_char (y mod 10);
     digit_char (m / 10); digit_char (m mod 10);
     digit_char (d / 10); digit_char (d mod 10)].

(** The spellings of a date that the date step reads as that date or as
    another one: the year in four digits, the month in two digits or, below
    ten, in one, the day in two digits or, below ten, in one or as a space
    and a digit.  [Ymd_text] is the first of them. *)
Definition year_text (y : Z) : list ascii :=
  [digit_char (y / 1000); digit_char (y / 100 mod 10);
   digit_char (y / 10 mod 10); digit_char (y mod 10)].

Definition two_digits (n : Z) : list ascii :=
  [digit_char (n / 10); digit_char (n mod 10)].

Definition month_texts (m : Z) : list (list ascii) :=
  two_digits m :: (if m <? 10 then [[digit_char m]] else []).

Definition day_texts (d : Z) : list (list ascii) :=
  two_digits d
  :: (if d <? 10 then [[digit_char d]; [" "%char; digit_char d]] else []).

Definition Ymd_spellings (y m d : Z) : list string :=
  mt ← month_texts m;
  dt ← day_texts d;
  [string_of_list_ascii (year_text y ++ mt ++ dt)].

(** The days of the Gregorian calendar, as the calendar is told: thirty
    days have September, April, June and November, the others thirty-one,
    but February, which has twenty-eight and in a leap year twenty-nine; a
    year is a leap year when four divides it, unless a hundred divides it
    and four hundred does not. *)
Definition leap_year (y : Z) : Prop :=
  (4 | y) ∧ ((100 | y) → (400 | y)).

Inductive calendar_day (y m d : Z) : Prop :=
  | day_of_long_month :
      m ∈ [1; 3; 5; 7; 8; 10; 12] → 1 ≤ d ≤ 31 → calendar_day y m d
  | day_of_short_month :
      m ∈ [4; 6; 9; 11] → 1 ≤ d ≤ 30 → calendar_day y m d
  | day_of_february :
      m = 2 → 1 ≤ d ≤ 28 → calendar_day y m d
  | leap_day :
      m = 2 → d = 29 → leap_year y → calendar_day y m d.

(** The days a timestamp of nanoseconds holds: from 22 September 1677 to
    11 April 2262. *)
Definition not_after (y1 m1 d1 y2 m2 d2 : Z) : Prop :=
  y1 < y2 ∨ (y1 = y2 ∧ (m1 < m2 ∨ (m1 = m2 ∧ d1 ≤ d2))).

Definition Timestamp_day (y m d : Z) : Prop :=
  not_after 1677 9 22 y m d ∧ not_after y m d 2262 4 11.

(** The characters of a class. *)
Definition class_chars (k : pd.class) : list ascii :=
  filter (λ a, pd.accepts k a = true) (map ascii_of_nat (seq 0 256)).

(** A date column with texts outside the eight-digit format, and with a
    day before the first that the timestamp type holds. *)
Definition ex_short_dates : pd.DataFrame :=
  pd.mkDataFrame [FECHA]
    [(0, [pd.Str "2025115"]); (1, [pd.Str "202515"]); (2, [pd.Str "20251 5"]);
     (3, [pd.Str "20250115"]); (4, [pd.Str "2025-01-15"]);
     (5, [pd.Str "13000101"])].

(** The cell the date step writes for a cell [v] of the date column
    [col]. *)
Definition parsed_date (render : list pd.value → pd.value → string)
  (col : list pd.value) (v : pd.value) : pd.value :=
  pd.to_datetime_cell (render col v).

(** The dimension of [cols] right after its surrogate key is assigned. *)
Definition keyed (cols : list string) (id : string) (core : pd.DataFrame)
  : pd.DataFrame :=
  pd.mkDataFrame (cols ++ [id]) (numbered 0 (distinct_tuples_of cols core)).

Definition ex_tables : tables :=
  match semantic_tables ex_core with
  | Return T => T
  | Raise _ =>
      mkTables pd.DataFrame_new pd.DataFrame_new pd.DataFrame_new
        pd.DataFrame_new pd.DataFrame_new
  end.

(** The frame Stage 1 makes of a sheet. *)
Definition staged (df : pd.DataFrame) : pd.DataFrame :=
  pd.set_columns (map (λ c, upper (strip c)) (pd.columns (pd.dropna_all df)))
    (pd.dropna_all df).

(** What Stage 1 holds for a month, given the raw files of the site. *)
Definition ingested (s : site) (entry : string * pd.DataFrame) : Prop :=
  ∃ file_name,
    dict_get entry.1 EXCEL_FILES = Some file_name
    ∧ match raw s !! (entry.1, file_name) with
      | None => entry.2 = pd.DataFrame_new
      | Some (Return df) => entry.2 = staged df
      | Some (Raise _) => False
      end.

(** Every spreadsheet of the period that is on disk can be read and has
    a column. *)
Definition readable (s : site) : Prop :=
  Forall (λ file, match raw s !! file with
                  | Some (Raise _) => False
                  | Some (Return df) => pd.columns df ≠ []
                  | None => True
                  end) EXCEL_FILES.

Definition no_text_labels : exn :=
  AttributeError "Can only use .str accessor with string values!".

(** No spreadsheet of the period is on disk. *)
Definition no_raw_files (s : site) : Prop :=
  Forall (λ file, raw s !! file = None) EXCEL_FILES.

(** The text does not begin with white space. *)
Definition begins (s : string) : Prop :=
  match s with
  | String a _ => is_space a = false
  | EmptyString => True
  end.

(** The reconciled frame with its date and its measures parsed, and the
    frame Stage 2 makes of it: first rows by key, nulls filled. *)
Definition typed (render : list pd.value → pd.value → string)
  (parse_number : string → option Qc) (rc : pd.DataFrame) : pd.DataFrame :=
  foldl (λ d col, pd.map_column col (pd.to_numeric_cell parse_number) d)
    (pd.map_column FECHA (parsed_date render (pd.column FECHA rc)) rc)
    numeric_cols.

Definition cleaned (render : list pd.value → pd.value → string)
  (parse_number : string → option Qc) (rc : pd.DataFrame) : pd.DataFrame :=
  let t := typed render parse_number rc in
  fill_nulls
    (pd.mkDataFrame (pd.columns t) (keep_first (natural_key t) [] (pd.rows t))).

(** The log lines of Stage 2. *)
Definition log_integrated (all_data : pd.DataFrame) : level * list fragment :=
  (INFO, [Lit "Datos integrados en core: "; Count (pd.shape0 all_data);
          Lit " filas"]).
Definition log_saved : level * list fragment :=
  (INFO, [Lit "Guardado en core: "; Lit "dw/core_exportaciones.parquet"]).
Definition log_no_data : level * list fragment :=
  (ERROR, [Lit "No hay datos en staging. Terminando."]).

Definition logged (w : world) (lines : list (level * list fragment)) : world :=
  mkWorld (log w ++ lines) (core_parquet w) (objects w) (dw w).

(** January spells the serial number one way, February the other. *)
Definition ex_mixed : list (string * pd.DataFrame) :=
  [("2025-01",
    pd.mkDataFrame ["NUMERO_FORMULARIO"; "NUM_SERIE"; FECHA]
      [(0, [pd.Numz 100; pd.Numz 1; pd.Str "20250115"])]);
   ("2025-02",
    pd.mkDataFrame ["NUMERO_FORMULARIO"; "NUMERO_SERIE"; FECHA]
      [(0, [pd.Numz 101; pd.Numz 1; pd.Str "20250215"])])].

Definition ex_mixed_all : pd.DataFrame :=
  pd.mkDataFrame ["NUMERO_FORMULARIO"; "NUM_SERIE"; FECHA; "NUMERO_SERIE"]
    [(0, [pd.Numz 100; pd.Numz 1; pd.Str "20250115"; pd.NaN]);
     (1, [pd.Numz 101; pd.NaN; pd.Str "20250215"; pd.Numz 1])].

(** A period without the declaration date. *)
Definition ex_no_date : pd.DataFrame :=
  pd.mkDataFrame ["NUMERO_FORMULARIO"; "NUM_SERIE"; "VALOR_FOB_USD"]
    [(0, [pd.Numz 100; pd.Numz 1; pd.Str "10"])].

Definition ex_all : pd.DataFrame :=
  pd.mkDataFrame
    ["NUMERO_FORMULARIO"; "NUM_SERIE"; FECHA; "VALOR_FOB_USD"; PAIS]
    [(0, [pd.Numz 100; pd.Numz 1; pd.Str "20250115"; pd.Str "10"; pd.Str "PERU"]);
     (1, [pd.Numz 100; pd.Numz 1; pd.Str "20250116"; pd.Str "7"; pd.NaN]);
     (2, [pd.Numz 101; pd.NaN; pd.Str "2025-01-17"; pd.Str "x"; pd.NaN]);
     (3, [pd.Numz 100; pd.Numz 1; pd.Str "20250201"; pd.Str "7"; pd.Str "CHILE"]);
     (4, [pd.Numz 101; pd.NaN; pd.Str "20250202"; pd.NaN; pd.Str "CHILE"]);
     (5, [pd.Numz 102; pd.Numz 1; pd.Str "20250230"; pd.NaN; pd.NaN])].

(** The tables of the dimensional model. *)
Definition own_tables : list string :=
  ["DIM_TIME"; "DIM_EMPRESA"; "DIM_PAIS"; "DIM_MERCANCIA"; "FACT_EXPORTACIONES"].

(** [m] only adds lines to the log, leaves the Parquet snapshot alone and
    writes no table but those of the dimensional model, whatever its
    outcome. *)
Definition confined {A : Type} (m : M A) : Prop :=
  ∀ w,
    core_parquet (m w).2 = core_parquet w
    ∧ (∀ name, name ∉ own_tables → dw (m w).2 !! name = dw w !! name)
    ∧ ∃ lines, log (m w).2 = log w ++ lines.

Definition log_core_empty : level * list fragment :=
  (ERROR, [Lit "Core DF vacío. No se puede construir semantic layer."]).
Definition log_connected : level * list fragment :=
  (INFO, [Lit "Conectado a SQLite para Semantic Layer"]).

(** The time dimension as it is written. *)
Definition time_table (core : pd.DataFrame) : outcome pd.DataFrame :=
  dim_time ← dimension dim_time_cols "TIME_ID" core;
  dim_time ← with_dt "YEAR" (λ y _ _, y) dim_time;
  dim_time ← with_dt "MONTH" (λ _ m _, m) dim_time;
  dim_time ← with_dt "DAY" (λ _ _ d, d) dim_time;
  sql_ok dim_time.

(** A frame with dates but without the exporter's columns. *)
Definition ex_dates_only : pd.DataFrame :=
  pd.mkDataFrame [FECHA; "VALOR_FOB_USD"]
    [(0, [pd.Timestamp 2025 1 15; pd.Numz 10]);
     (1, [pd.NaN; pd.Numz 7]);
     (2, [pd.Timestamp 2025 1 15; pd.Numz 5])].

Definition ex_time_table : pd.DataFrame :=
  pd.mkDataFrame [FECHA; "TIME_ID"; "YEAR"; "MONTH"; "DAY"]
    [(0, [pd.Timestamp 2025 1 15; pd.Numz 1; pd.Numz 2025; pd.Numz 1; pd.Numz 15]);
     (1, [pd.NaN; pd.Numz 2; pd.NaN; pd.NaN; pd.NaN])].

(** The part of a date cell that [.dt.year], [.dt.month] and [.dt.day]
    give. *)
Definition date_part (field : Z → Z → Z → Z) (v : pd.value) : pd.value :=
  match v with
  | pd.Timestamp y m d => pd.Numz (field y m d)
  | _ => pd.NaN
  end.

(** The cell under [c] of the first row of [t] whose cells under [on] are
    [key]. *)
Definition vlookup (on : list string) (c : string) (t : pd.DataFrame)
  (key : list pd.value) : pd.value :=
  match filter (λ r, pd.key_cells on (pd.columns t) r = key) (pd.cells t) with
  | r :: _ => pd.cell c (pd.columns t) r
  | [] => pd.NaN
  end.

Definition measure_cols : list string :=
  ["VALOR_FOB_USD"; "PESO_NETO_KGS"; "CANTIDAD_UNIDADES_FISICAS";
   "NUMERO_FORMULARIO"].

(** The site once the main flow has logged its start. *)
Definition started (s : site) : site :=
  mkSite (raw s) (staging s)
    (logged (run s) [(INFO, [Lit "Iniciando prototipo de Data Warehouse"])]).

(** A month with every column the pipeline reads. *)
Definition ex_full_sheet : pd.DataFrame :=
  pd.mkDataFrame
    ["numero_formulario"; " num_serie"; FECHA; "NIT_EXPORTADOR";
     "RAZON_SOCIAL_EXPORTADOR"; "DIREC_EXPORTADOR"; "COD_PAIS_DESTINO"; PAIS;
     "SUBPARTIDA"; "VALOR_FOB_USD"; "PESO_NETO_KGS"; "CANTIDAD_UNIDADES_FISICAS"]
    [(0, [pd.Numz 100; pd.Numz 1; pd.Str "20250115"; pd.Numz 900;
          pd.Str "ACME"; pd.NaN; pd.Str "PE"; pd.Str "PERU"; pd.Numz 901;
          pd.Str "10"; pd.Numz 3; pd.Numz 1]);
     (1, [pd.NaN; pd.NaN; pd.NaN; pd.NaN; pd.NaN; pd.NaN; pd.NaN; pd.NaN;
          pd.NaN; pd.NaN; pd.NaN; pd.NaN]);
     (2, [pd.Numz 100; pd.Numz 1; pd.Str "20250116"; pd.Numz 900;
          pd.Str "ACME"; pd.NaN; pd.Str "PE"; pd.Str "PERU"; pd.Numz 901;
          pd.Str "7"; pd.Numz 3; pd.Numz 1]);
     (3, [pd.Numz 101; pd.NaN; pd.Str "2025-01-17"; pd.Numz 950;
          pd.Str "BETA"; pd.Str "CALLE 1"; pd.NaN; pd.NaN; pd.Numz 902;
          pd.Str "x"; pd.NaN; pd.Numz 2])].

Definition ex_site_full : site :=
  mkSite {[ ("2025-01", "01_Exportaciones_2025_Enero.xlsx") := Return ex_full_sheet ]}
    ∅ w0.

Definition ex_full_ingested : list (string * pd.DataFrame) :=
  [("2025-01", staged ex_full_sheet); ("2025-02", pd.DataFrame_new);
   ("2025-03", pd.DataFrame_new)].

Definition ex_full_all : pd.DataFrame :=
  pd.mkDataFrame (pd.columns (staged ex_full_sheet))
    (pd.with_range_index (pd.cells (staged ex_full_sheet))).

(** A sheet without the form number. *)
Definition ex_sheet_no_form : pd.DataFrame :=
  pd.mkDataFrame [" num_serie"; "fecha_declaracion_exportacion"]
    [(0, [pd.Numz 1; pd.Str "20250115"]);
     (1, [pd.NaN; pd.NaN]);
     (2, [pd.Numz 2; pd.Str "20250116"])].

Definition ex_site_no_form : site :=
  mkSite {[ ("2025-03", "03_Exportaciones_2025_Marzo.xlsx") := Return ex_sheet_no_form ]}
    ∅ w0.

Definition ex_ingested_no_form : list (string * pd.DataFrame) :=
  [("2025-01", pd.DataFrame_new); ("2025-02", pd.DataFrame_new);
   ("2025-03", staged ex_sheet_no_form)].

Definition ex_staged_all : pd.DataFrame :=
  pd.mkDataFrame ["NUM_SERIE"; FECHA]
    [(0, [pd.Numz 1; pd.Str "20250115"]);
     (1, [pd.Numz 2; pd.Str "20250116"])].

(** An engine for the examples: it returns the first table of the
    statement. *)
Definition ex_sqlite (q : statement) (D : gmap string pd.DataFrame)
  : outcome pd.DataFrame :=
  match from_tables q with
  | t :: _ => match D !! t with
              | Some df => Return df
              | None => Raise (DatabaseError "no such table")
              end
  | [] => Return pd.DataFrame_new
  end.

(** * Properties *)

(** ** Running the monad *)

Arguments for_each {A S} l body s : simpl never.
Arguments reconcile all_data : simpl never.
Arguments fill_nulls all_data : simpl never.
Arguments parse_dates render all_data : simpl never.
Arguments pd.drop_duplicates subset df : simpl never.

Lemma run_bind {A B : Type} (m : M A) (f : A → M B) w a w' :
  m w = (Return a, w') → (m ≫= f) w = f a w'.
Proof. intros H. unfold mbind, M_bind. by rewrite H. Qed.

Lemma run_bind_raise {A B : Type} (m : M A) (f : A → M B) w e w' :
  m w = (Raise e, w') → (m ≫= f) w = (Raise e, w').
Proof. intros H. unfold mbind, M_bind. by rewrite H. Qed.

Lemma bind_unfold {A B : Type} (m : M A) (f : A → M B) w :
  (m ≫= f) w
  = match m w with
    | (Return a, w') => f a w'
    | (Raise e, w') => (Raise e, w')
    end.
Proof. done. Qed.

Lemma run_lift {A : Type} (o : outcome A) w : lift o w = (o, w).
Proof. done. Qed.

(** ** Concatenation *)

Lemma length_with_range_index cs :
  length (pd.with_range_index cs) = length cs.
Proof.
  unfold pd.with_range_index. rewrite length_zip, length_seqZ. lia.
Qed.

Lemma with_range_index_snd cs : (pd.with_range_index cs).*2 = cs.
Proof.
  unfold pd.with_range_index. apply snd_zip. rewrite length_seqZ. lia.
Qed.

Lemma union_columns_prefix objs acc :
  ∃ t, foldl (λ acc d, acc ++ filter (λ c, c ∉ acc) (pd.columns d)) acc objs
       = acc ++ t.
Proof.
  revert acc. induction objs as [|o objs IH]; intros acc; simpl.
  - exists []. by rewrite app_nil_r.
  - destruct (IH (acc ++ filter (λ c, c ∉ acc) (pd.columns o))) as [t ->].
    eexists. by rewrite <- app_assoc.
Qed.

Lemma filter_not_in_nil (l : list string) : filter (λ c, c ∉ []) l = l.
Proof.
  induction l as [|c l IH]; [done|].
  rewrite filter_cons_True by apply not_elem_of_nil. by rewrite IH.
Qed.

(** Non-empty frames concatenate to a non-empty frame: the test
    [all_data.empty] after a successful [pd.concat] is never true. *)
Lemma concat_nonempty objs all_data :
  Forall (λ d, pd.empty d = false) objs →
  pd.concat objs = Return all_data →
  pd.empty all_data = false.
Proof.
  intros Hne Hc. destruct objs as [|o rest]; [done|].
  apply Forall_cons_1 in Hne as [Ho _].
  unfold pd.empty in Ho. apply orb_false_iff in Ho as [Hcols Hrows].
  apply bool_decide_eq_false in Hcols, Hrows.
  assert (Hlen : ∀ l : list (list pd.value),
             l ≠ [] → pd.with_range_index l ≠ []).
  { intros l Hl Hw. apply (f_equal length) in Hw.
    rewrite length_with_range_index in Hw. by destruct l. }
  unfold pd.concat in Hc.
  destruct (forallb _ rest).
  - inversion Hc; subst. unfold pd.empty; simpl.
    apply orb_false_iff; split; apply bool_decide_eq_false; [done|].
    apply Hlen. unfold pd.cells. destruct (pd.rows o); [done|]. done.
  - destruct (forallb _ (o :: rest)); [|done].
    inversion Hc; subst. unfold pd.empty; simpl.
    apply orb_false_iff; split; apply bool_decide_eq_false.
    + unfold pd.union_columns; simpl. rewrite filter_not_in_nil.
      destruct (union_columns_prefix rest (pd.columns o)) as [t ->].
      by destruct (pd.columns o).
    + apply Hlen. unfold pd.reindex_cells at 1, pd.cells.
      destruct (pd.rows o); [done|]. done.
Qed.

Lemma filter_nonempty_Forall (dfs : list pd.DataFrame) :
  Forall (λ d, pd.empty d = false) (filter (λ df, pd.empty df = false) dfs).
Proof. apply list.Forall_forall. intros d Hd. by apply list_elem_of_filter in Hd as [? _]. Qed.

(** ** Stage 2, the guards *)

(** No period has data: the list handed to [pd.concat] is empty and the
    call raises before anything is logged. *)
Lemma transform_nothing_to_concat render parse_number arrow_ok
    (staging_dfs : list (string * pd.DataFrame)) w :
  Forall (λ d, pd.empty d = true) staging_dfs.*2 →
  transform_to_core render parse_number arrow_ok staging_dfs w
  = (Raise (ValueError "No objects to concatenate"), w).
Proof.
  intros Hall. unfold transform_to_core.
  assert (filter (λ df, pd.empty df = false) staging_dfs.*2 = []) as ->.
  { induction Hall as [|d l Hd _ IH]; [done|].
    rewrite filter_cons_False; [done|]. by rewrite Hd. }
  done.
Qed.


(** C1 (fails on the code): with every period's staging dataset empty,
    [transform_to_core] does not log an error and return an empty dataset;
    it ends in the [ValueError] of [pd.concat], with nothing logged. *)
Theorem transform_all_periods_empty_raises render parse_number arrow_ok w :
  transform_to_core render parse_number arrow_ok no_files w
  = (Raise (ValueError "No objects to concatenate"), w).
Proof.
  apply transform_nothing_to_concat. unfold no_files; simpl.
  repeat constructor.
Qed.

(** C7: when a key column is absent after column reconciliation,
    [transform_to_core] logs the missing columns and returns the empty
    frame; no later step runs: the log gets the row count and the error
    only, and no Parquet snapshot is written. *)
Theorem transform_missing_key_columns render parse_number arrow_ok
    (staging_dfs : list (string * pd.DataFrame)) w all_data :
  pd.concat (filter (λ df, pd.empty df = false) staging_dfs.*2)
    = Return all_data →
  filter (λ col, col ∉ pd.columns (reconcile all_data)) required_cols ≠ [] →
  transform_to_core render parse_number arrow_ok staging_dfs w
  = (Return pd.DataFrame_new,
     mkWorld
       (log w ++
        [(INFO, [Lit "Datos integrados en core: ";
                 Count (pd.shape0 all_data); Lit " filas"]);
         (ERROR, [Lit "Columnas faltantes para deduplicación: ";
                  Labels (filter (λ col, col ∉ pd.columns (reconcile all_data))
                            required_cols)])])
       (core_parquet w) (objects w) (dw w)).
Proof.
  intros Hc Hmiss. unfold transform_to_core. rewrite Hc.
  erewrite run_bind by apply run_lift.
  rewrite (concat_nonempty _ _ (filter_nonempty_Forall _) Hc).
  erewrite run_bind by reflexivity.
  rewrite bool_decide_eq_true_2 by done.
  erewrite run_bind by reflexivity.
  unfold mret, M_ret; simpl. by rewrite <- app_assoc.
Qed.


Lemma transform_missing_key_columns_witness :
  transform_to_core ex_render ex_parse (λ _, true) [("2025-01", ex_no_serial)] w0
  = (Return pd.DataFrame_new,
     mkWorld
       [(INFO, [Lit "Datos integrados en core: "; Count 1; Lit " filas"]);
        (ERROR, [Lit "Columnas faltantes para deduplicación: ";
                 Labels ["NUMERO_SERIE"]])]
       None [] ∅).
Proof.
  apply (transform_missing_key_columns ex_render ex_parse (λ _, true)
           [("2025-01", ex_no_serial)] w0
           (pd.mkDataFrame ["NUMERO_FORMULARIO"; FECHA]
              [(0, [pd.Numz 100; pd.Str "20250115"])])).
  - reflexivity.
  - vm_compute. discriminate.
Defined.

(** ** The date format *)


Example Ymd_text_ex : Ymd_text 2025 1 15 = "20250115".
Proof. reflexivity. Qed.

Lemma digit_of_char k : 0 ≤ k ≤ 9 → pd.digit_of (digit_char k) = Some k.
Proof.
  intros Hk.
  assert (k = 0 ∨ k = 1 ∨ k = 2 ∨ k = 3 ∨ k = 4 ∨ k = 5 ∨ k = 6 ∨ k = 7
          ∨ k = 8 ∨ k = 9) as Hc by lia.
  repeat destruct Hc as [-> | Hc]; try reflexivity. by subst.
Qed.

Lemma char_of_digit a k :
  pd.digit_of a = Some k → a = digit_char k ∧ 0 ≤ k ≤ 9.
Proof.
  intros H.
  destruct a as [[] [] [] [] [] [] [] []]; vm_compute in H;
    try discriminate; injection H as <-; (split; [reflexivity | lia]).
Qed.

Lemma valid_date_bounds y m d :
  pd.valid_date y m d = true → 1 ≤ m ≤ 12 ∧ 1 ≤ d ≤ 31.
Proof.
  unfold pd.valid_date. rewrite !andb_true_iff, !Z.leb_le.
  intros [[[? ?] ?] Hd]. split; [lia|]. split; [lia|].
  assert (pd.days_in_month y m ≤ 31); [|lia].
  unfold pd.days_in_month.
  repeat match goal with
         | |- context [match ?x with _ => _ end] => destruct x
         end; lia.
Qed.

(** *** The expression matched *)

Lemma accepts_digit_char k : 0 ≤ k ≤ 9 → pd.accepts pd.Digit (digit_char k) = true.
Proof.
  intros Hk.
  assert (k = 0 ∨ k = 1 ∨ k = 2 ∨ k = 3 ∨ k = 4 ∨ k = 5 ∨ k = 6 ∨ k = 7
          ∨ k = 8 ∨ k = 9) as Hc by lia.
  repeat destruct Hc as [-> | Hc]; try reflexivity. by subst.
Qed.

Lemma digit_char_not_space k : 0 ≤ k ≤ 9 → is_space (digit_char k) = false.
Proof.
  intros Hk.
  assert (k = 0 ∨ k = 1 ∨ k = 2 ∨ k = 3 ∨ k = 4 ∨ k = 5 ∨ k = 6 ∨ k = 7
          ∨ k = 8 ∨ k = 9) as Hc by lia.
  repeat destruct Hc as [-> | Hc]; try reflexivity. by subst.
Qed.

Lemma accepts_digit a :
  pd.accepts pd.Digit a = true → ∃ k, 0 ≤ k ≤ 9 ∧ a = digit_char k.
Proof.
  intros H.
  assert (pd.digit_of a = Some (Z.of_nat (nat_of_ascii a - 48))) as Hd.
  { unfold pd.digit_of. unfold pd.accepts in H. by rewrite H. }
  apply char_of_digit in Hd as [Ha ?]. eexists. split; [|exact Ha]. done.
Qed.

Lemma accepts_class_chars k a : pd.accepts k a = true → a ∈ class_chars k.
Proof.
  intros H. unfold class_chars. apply list_elem_of_filter. split; [done|].
  rewrite <- (ascii_nat_embedding a). apply list_elem_of_fmap_2.
  apply elem_of_seq. pose proof (nat_ascii_bounded a). lia.
Qed.

Lemma match_seq_inv p s t r :
  pd.match_seq p s = Some (t, r) →
  s = t ++ r ∧ Forall2 (λ k a, pd.accepts k a = true) p t.
Proof.
  revert s t r. induction p as [|k p IH]; intros s t r H.
  { simpl in H. injection H as <- <-. by split. }
  destruct s as [|a s]; [done|]. simpl in H.
  destruct (pd.accepts k a) eqn:Ha; [|done].
  destruct (pd.match_seq p s) as [[t' r']|] eqn:E; [|done].
  injection H as <- <-. destruct (IH _ _ _ E) as [-> HF].
  split; [done|]. by constructor.
Qed.

Lemma match_groups_inv gs s ts r :
  pd.match_groups gs s = Some (ts, r) →
  s = concat ts ++ r
  ∧ Forall2 (λ g t, ∃ p, p ∈ g ∧ Forall2 (λ k a, pd.accepts k a = true) p t)
      gs ts.
Proof.
  revert s ts r. induction gs as [|g gs IH]; intros s ts r H.
  { simpl in H. injection H as <- <-. by split. }
  cbn [pd.match_groups] in H.
  induction g as [|p g IHg]; [done|].
  destruct (pd.match_seq p s) as [[t r1]|] eqn:Ep.
  - destruct (pd.match_groups gs r1) as [[ts1 r2]|] eqn:Eg.
    + injection H as <- <-.
      apply match_seq_inv in Ep as [-> HF].
      destruct (IH _ _ _ Eg) as [-> HFs].
      split; [simpl; by rewrite app_assoc|].
      constructor; [|done]. exists p. split; [apply list_elem_of_here|done].
    + destruct (IHg H) as [-> HF]. split; [done|].
      apply Forall2_cons_inv_l in HF as (t' & ts' & (q & Hq & HFq) & HF & ->).
      constructor; [|done]. exists q. split; [by apply list_elem_of_further|done].
  - destruct (IHg H) as [-> HF]. split; [done|].
    apply Forall2_cons_inv_l in HF as (t' & ts' & (q & Hq & HFq) & HF & ->).
    constructor; [|done]. exists q. split; [by apply list_elem_of_further|done].
Qed.

(** *** The groups as numbers *)

Ltac by_computation := apply (bool_decide_unpack _); vm_compute; exact I.

Lemma month_group_inv t :
  (∃ p, p ∈ pd.month_group ∧ Forall2 (λ k a, pd.accepts k a = true) p t) →
  ∃ m, pd.int t = Some m ∧ 1 ≤ m ≤ 12 ∧ t ∈ month_texts m.
Proof.
  intros (p & Hp & HF). unfold pd.month_group in Hp.
  repeat (apply elem_of_cons in Hp as [->|Hp]); [| | |by apply elem_of_nil in Hp];
    repeat (apply Forall2_cons_inv_l in HF as (? & ? & ?%accepts_class_chars & HF & ->));
    apply Forall2_nil_inv_l in HF as ->;
    repeat match goal with
           | H : _ ∈ class_chars _ |- _ =>
               vm_compute in H;
               repeat (apply elem_of_cons in H as [->|H]);
               [..|by apply elem_of_nil in H]
           end;
    (eexists; split; [vm_compute; reflexivity|]; split; [lia|by_computation]).
Qed.

Lemma day_group_inv t :
  (∃ p, p ∈ pd.day_group ∧ Forall2 (λ k a, pd.accepts k a = true) p t) →
  ∃ d, pd.int t = Some d ∧ 1 ≤ d ≤ 31 ∧ t ∈ day_texts d.
Proof.
  intros (p & Hp & HF). unfold pd.day_group in Hp.
  repeat (apply elem_of_cons in Hp as [->|Hp]);
    [| | | | |by apply elem_of_nil in Hp];
    repeat (apply Forall2_cons_inv_l in HF as (? & ? & ?%accepts_class_chars & HF & ->));
    apply Forall2_nil_inv_l in HF as ->;
    repeat match goal with
           | H : _ ∈ class_chars _ |- _ =>
               vm_compute in H;
               repeat (apply elem_of_cons in H as [->|H]);
               [..|by apply elem_of_nil in H]
           end;
    (eexists; split; [vm_compute; reflexivity|]; split; [lia|by_computation]).
Qed.

Lemma number_of_year a b c d :
  pd.number_of [digit_char a; digit_char b; digit_char c; digit_char d] 0
  = Some (1000 * a + 100 * b + 10 * c + d) ∨ ¬ (0 ≤ a ≤ 9 ∧ 0 ≤ b ≤ 9 ∧ 0 ≤ c ≤ 9 ∧ 0 ≤ d ≤ 9).
Proof.
  destruct (decide (0 ≤ a ≤ 9 ∧ 0 ≤ b ≤ 9 ∧ 0 ≤ c ≤ 9 ∧ 0 ≤ d ≤ 9))
    as [(Ha & Hb & Hc & Hd)|]; [left|by right].
  cbn [pd.number_of mbind option_bind].
  rewrite !digit_of_char by done. cbn [mbind option_bind]. f_equal. lia.
Qed.

Lemma year_group_inv t :
  (∃ p, p ∈ pd.year_group ∧ Forall2 (λ k a, pd.accepts k a = true) p t) →
  ∃ y, pd.int t = Some y ∧ 0 ≤ y ≤ 9999 ∧ t = year_text y.
Proof.
  intros (p & Hp & HF). unfold pd.year_group in Hp.
  apply list_elem_of_singleton in Hp as ->.
  repeat (apply Forall2_cons_inv_l in HF as (? & ? & (? & ? & ->)%accepts_digit & HF & ->)).
  apply Forall2_nil_inv_l in HF as ->.
  match goal with
  | |- context [[digit_char ?a; digit_char ?b; digit_char ?c; digit_char ?d]] =>
      exists (1000 * a + 100 * b + 10 * c + d);
      destruct (number_of_year a b c d) as [Hn|Hn]; [|by destruct Hn]
  end.
  split; [|split; [lia|]].
  - cbn [pd.int]. by rewrite digit_char_not_space.
  - unfold year_text.
    repeat (apply (f_equal2 cons); [f_equal; Z.div_mod_to_equations; lia|]).
    done.
Qed.

(** *** The calendar *)

Lemma is_leap_year y : pd.is_leap y = true ↔ leap_year y.
Proof.
  unfold pd.is_leap, leap_year.
  rewrite orb_true_iff, andb_true_iff, negb_true_iff, !Z.eqb_eq, Z.eqb_neq.
  rewrite <- !Z.mod_divide by lia.
  split.
  - intros [[H4 H100]|H400]; [split; [done|by intros ?]|].
    split; [|done]. Z.div_mod_to_equations; lia.
  - intros [H4 H]. destruct (decide (y mod 100 = 0)) as [H100|H100].
    + right. by apply H.
    + by left.
Qed.

Lemma valid_date_calendar y m d :
  pd.valid_date y m d = true ↔ calendar_day y m d.
Proof.
  split.
  - intros Hv. pose proof (valid_date_bounds _ _ _ Hv) as [Hm Hd].
    unfold pd.valid_date in Hv.
    rewrite !andb_true_iff, !Z.leb_le in Hv. destruct Hv as [_ Hdays].
    assert (m = 1 ∨ m = 2 ∨ m = 3 ∨ m = 4 ∨ m = 5 ∨ m = 6 ∨ m = 7 ∨ m = 8
            ∨ m = 9 ∨ m = 10 ∨ m = 11 ∨ m = 12) as Hc by lia.
    repeat destruct Hc as [-> | Hc]; try subst m; simpl in Hdays;
      try (apply day_of_long_month; [by_computation|lia]);
      try (apply day_of_short_month; [by_computation|lia]).
    destruct (pd.is_leap y) eqn:Hl.
    + destruct (decide (d = 29)) as [->|?].
      * apply leap_day; [done..|]. by apply is_leap_year.
      * apply day_of_february; [done|lia].
    + apply day_of_february; [done|lia].
  - intros [Hm Hd | Hm Hd | -> Hd | -> -> Hl]; unfold pd.valid_date;
      rewrite !andb_true_iff, !Z.leb_le.
    + repeat (apply elem_of_cons in Hm as [->|Hm]);
        [..|by apply elem_of_nil in Hm]; simpl; lia.
    + repeat (apply elem_of_cons in Hm as [->|Hm]);
        [..|by apply elem_of_nil in Hm]; simpl; lia.
    + simpl. destruct (pd.is_leap y); lia.
    + apply is_leap_year in Hl. simpl. rewrite Hl. lia.
Qed.

(** *** The days in bounds *)

Lemma is_leap_arith y :
  pd.is_leap y = true ↔ (y mod 4 = 0 ∧ y mod 100 ≠ 0) ∨ y mod 400 = 0.
Proof.
  unfold pd.is_leap.
  by rewrite orb_true_iff, andb_true_iff, negb_true_iff, !Z.eqb_eq, Z.eqb_neq.
Qed.

Lemma in_bounds_days y m d :
  1 ≤ m ≤ 12 → 1 ≤ d ≤ 31 →
  pd.in_bounds y m d = true ↔ Timestamp_day y m d.
Proof.
  intros Hm Hd.
  unfold pd.in_bounds, pd.nanoseconds, Timestamp_day, not_after.
  rewrite andb_true_iff, !Z.ltb_lt.
  change (pd.toordinal 1970 1 1) with 719163.
  change (2 ^ 63) with 9223372036854775808.
  unfold pd.toordinal. cbv zeta.
  pose proof (is_leap_arith y) as Hl.
  assert (m = 1 ∨ m = 2 ∨ m = 3 ∨ m = 4 ∨ m = 5 ∨ m = 6 ∨ m = 7 ∨ m = 8
          ∨ m = 9 ∨ m = 10 ∨ m = 11 ∨ m = 12) as Hc by lia.
  repeat destruct Hc as [-> | Hc]; try subst m;
    cbn [pd.days_before_month];
    destruct (pd.is_leap y);
    (assert (y < 1677 ∨ y = 1677 ∨ 1677 < y < 2262 ∨ y = 2262 ∨ 2262 < y)
       as [Hy|[->|[Hy|[->|Hy]]]] by lia);
    try (exfalso; Z.div_mod_to_equations; lia);
    (Z.div_mod_to_equations; lia).
Qed.

(** *** The parse *)

Lemma match_year_group a b c d rest gs :
  0 ≤ a ≤ 9 → 0 ≤ b ≤ 9 → 0 ≤ c ≤ 9 → 0 ≤ d ≤ 9 →
  pd.match_groups (pd.year_group :: gs)
    (digit_char a :: digit_char b :: digit_char c :: digit_char d :: rest)
  = match pd.match_groups gs rest with
    | Some (ts, r) =>
        Some ([digit_char a; digit_char b; digit_char c; digit_char d] :: ts, r)
    | None => None
    end.
Proof.
  intros Ha Hb Hc Hd. cbn [pd.match_groups pd.year_group pd.match_seq].
  rewrite !accepts_digit_char by done.
  by destruct (pd.match_groups gs rest) as [[ts r]|].
Qed.

Lemma in_seqZ_1 (P : Z → Prop) (hi n : Z) :
  Forall P (seqZ 1 hi) → 1 ≤ n ≤ hi → P n.
Proof.
  intros Hall Hn. rewrite list.Forall_forall in Hall. apply Hall.
  apply elem_of_seqZ. lia.
Qed.

Lemma match_month_day m d :
  1 ≤ m ≤ 12 → 1 ≤ d ≤ 31 →
  pd.match_groups [pd.month_group; pd.day_group] (two_digits m ++ two_digits d)
  = Some ([two_digits m; two_digits d], []).
Proof.
  intros Hm Hd.
  assert (Forall (λ m, Forall (λ d,
            pd.match_groups [pd.month_group; pd.day_group]
              (two_digits m ++ two_digits d)
            = Some ([two_digits m; two_digits d], [])) (seqZ 1 31)) (seqZ 1 12))
    as Hall by by_computation.
  apply (in_seqZ_1 _ 12 m) in Hall; [|done].
  by apply (in_seqZ_1 _ 31 d) in Hall.
Qed.

Lemma int_two_digits n : 1 ≤ n ≤ 31 → pd.int (two_digits n) = Some n.
Proof.
  apply (in_seqZ_1 (λ n, pd.int (two_digits n) = Some n) 31 n).
  by_computation.
Qed.

Lemma strptime_of_text y m d :
  0 ≤ y ≤ 9999 → pd.valid_date y m d = true → pd.in_bounds y m d = true →
  pd.strptime_Ymd (Ymd_text y m d) = Some (y, m, d).
Proof.
  intros Hy Hv Hb. pose proof (valid_date_bounds _ _ _ Hv) as [Hm Hd].
  unfold pd.strptime_Ymd, Ymd_text.
  rewrite list_ascii_of_string_of_list_ascii. unfold pd.Ymd_regex.
  rewrite match_year_group by (Z.div_mod_to_equations; lia).
  change [digit_char (m / 10); digit_char (m mod 10);
          digit_char (d / 10); digit_char (d mod 10)]
    with (two_digits m ++ two_digits d).
  rewrite match_month_day by done.
  destruct (number_of_year (y / 1000) (y / 100 mod 10) (y / 10 mod 10) (y mod 10))
    as [Hn|Hn]; [|destruct Hn; Z.div_mod_to_equations; lia].
  cbn [pd.int]. rewrite digit_char_not_space by (Z.div_mod_to_equations; lia).
  rewrite Hn. cbn [mbind option_bind].
  fold (two_digits m) (two_digits d). rewrite !int_two_digits by lia.
  cbn [mbind option_bind].
  replace (1000 * (y / 1000) + 100 * (y / 100 mod 10) + 10 * (y / 10 mod 10)
           + y mod 10) with y by (Z.div_mod_to_equations; lia).
  by rewrite Hv, Hb.
Qed.

Lemma strptime_inv s y m d :
  pd.strptime_Ymd s = Some (y, m, d) →
  pd.valid_date y m d = true ∧ pd.in_bounds y m d = true
  ∧ s ∈ Ymd_spellings y m d.
Proof.
  unfold pd.strptime_Ymd. intros H.
  destruct (pd.match_groups pd.Ymd_regex (list_ascii_of_string s))
    as [[[|ty [|tm [|td [|? ?]]]] [|? ?]]|] eqn:E; try done.
  apply match_groups_inv in E as [Hs HF].
  unfold pd.Ymd_regex in HF.
  apply Forall2_cons_1 in HF as [Hy HF].
  apply Forall2_cons_1 in HF as [Hm HF].
  apply Forall2_cons_1 in HF as [Hd _].
  apply year_group_inv in Hy as (y' & Ey & Hy & ->).
  apply month_group_inv in Hm as (m' & Em & Hm & Hmt).
  apply day_group_inv in Hd as (d' & Ed & Hd & Hdt).
  rewrite Ey, Em, Ed in H. cbn [mbind option_bind] in H.
  destruct (pd.valid_date y' m' d') eqn:Hv; [|done].
  destruct (pd.in_bounds y' m' d') eqn:Hb; [|done].
  injection H as <- <- <-. split; [done|]. split; [done|].
  unfold Ymd_spellings.
  apply list_elem_of_bind. exists tm. split; [|done].
  apply list_elem_of_bind. exists td. split; [|done].
  apply list_elem_of_singleton.
  rewrite <- (string_of_list_ascii_of_string s), Hs.
  cbn [concat]. by rewrite !app_nil_r.
Qed.

Lemma Ymd_text_spelling y m d : Ymd_text y m d ∈ Ymd_spellings y m d.
Proof.
  unfold Ymd_spellings.
  apply list_elem_of_bind. exists (two_digits m). split; [|apply list_elem_of_here].
  apply list_elem_of_bind. exists (two_digits d). split; [|apply list_elem_of_here].
  by apply list_elem_of_singleton.
Qed.

(** ** Cells of a row *)

Lemma map_cell_absent c f cols cs : c ∉ cols → pd.map_cell c f cols cs = cs.
Proof.
  revert cs. induction cols as [|n cols IH]; intros [|v cs] Hc; try done.
  apply not_elem_of_cons in Hc as [? ?]. simpl.
  rewrite decide_False by done. by rewrite IH.
Qed.

Lemma filter_eq_absent (c : string) cols :
  filter (λ n, n = c) cols = [] → c ∉ cols.
Proof.
  intros H Hin. assert (c ∈ filter (λ n, n = c) cols) as Hc
    by by apply list_elem_of_filter.
  rewrite H in Hc. by apply elem_of_nil in Hc.
Qed.

(** Overwriting the one cell under [c] with a function of that cell is
    mapping the function over it. *)
Lemma map_cell_of_cell c (h : pd.value → pd.value) cols cs :
  length (filter (λ n, n = c) cols) = 1%nat →
  pd.map_cell c (λ _, h (pd.cell c cols cs)) cols cs = pd.map_cell c h cols cs.
Proof.
  revert cs. induction cols as [|n cols IH]; intros cs Hone; [done|].
  destruct cs as [|v cs]; [done|].
  destruct (decide (n = c)) as [->|Hn].
  - rewrite filter_cons_True in Hone by done. simpl in Hone.
    assert (c ∉ cols) as Hc.
    { apply filter_eq_absent. destruct (filter _ cols); [done|]. simpl in Hone; lia. }
    simpl. rewrite decide_True by done.
    rewrite !map_cell_absent by done.
    unfold pd.cell, pd.cells_in. simpl.
    rewrite bool_decide_eq_true_2 by (by apply list_elem_of_singleton).
    simpl. by rewrite decide_True by done.
  - rewrite filter_cons_False in Hone by done.
    assert (pd.cell c (n :: cols) (v :: cs) = pd.cell c cols cs) as Hcell.
    { unfold pd.cell, pd.cells_in. simpl.
      rewrite bool_decide_eq_false_2; [done|].
      by rewrite list_elem_of_singleton. }
    simpl. rewrite !decide_False by done. f_equal.
    rewrite Hcell. by apply IH.
Qed.

Lemma zip_with_fmap_same {A B C : Type} (f : A → B → C) (g : A → B) l :
  zip_with f l (map g l) = map (λ x, f x (g x)) l.
Proof. induction l as [|x l IH]; simpl; [done|]. by rewrite IH. Qed.

Lemma filter_eq_nil (c : string) cols :
  c ∉ cols → filter (λ n, n = c) cols = [].
Proof.
  induction cols as [|n cols IH]; intros Hc; [done|].
  apply not_elem_of_cons in Hc as [? ?].
  rewrite filter_cons_False by done. by apply IH.
Qed.

Lemma occurs_once_elem_of (c : string) cols :
  length (filter (λ n, n = c) cols) = 1%nat → c ∈ cols.
Proof.
  intros Hone. destruct (decide (c ∈ cols)) as [|Hn]; [done|].
  by rewrite (filter_eq_nil _ _ Hn) in Hone.
Qed.

(** [df[c] = g(df[c])] for a label that occurs once. *)
Lemma setitem_of_column c (h : pd.value → pd.value) df :
  length (filter (λ n, n = c) (pd.columns df)) = 1%nat →
  pd.setitem c (map h (pd.column c df)) df = Return (pd.map_column c h df).
Proof.
  intros Hone. pose proof (occurs_once_elem_of _ _ Hone) as Hin.
  unfold pd.setitem, pd.column, pd.cells, pd.map_column.
  rewrite decide_True by (by rewrite !length_map).
  rewrite decide_True by done. do 2 f_equal.
  rewrite !map_map, zip_with_fmap_same.
  apply map_ext. intros [i cs]. simpl. f_equal.
  unfold pd.set_cell. rewrite decide_True by done.
  by apply map_cell_of_cell.
Qed.

Lemma getitem_once c df :
  length (filter (λ n, n = c) (pd.columns df)) = 1%nat →
  pd.getitem c df = Return (pd.Series (pd.column c df)).
Proof.
  intros Hone. unfold pd.getitem.
  destruct (filter _ (pd.columns df)) as [|? [|? ?]]; done.
Qed.

(** Without the date column the selection raises. *)
Lemma parse_dates_column_absent render df :
  FECHA ∉ pd.columns df → parse_dates render df = Raise (KeyError [FECHA]).
Proof.
  intros Hn. unfold parse_dates, pd.getitem.
  by rewrite (filter_eq_nil _ _ Hn).
Qed.


Lemma calendar_day_in_bounds y m d :
  calendar_day y m d →
  pd.valid_date y m d = true
  ∧ (pd.in_bounds y m d = true ↔ Timestamp_day y m d).
Proof.
  intros Hc. apply valid_date_calendar in Hc. split; [done|].
  apply valid_date_bounds in Hc as [Hm Hd]. by apply in_bounds_days.
Qed.




Example parse_dates_ex :
  (d ← parse_dates ex_render ex_jan; Return (pd.column FECHA d))
  = Return [pd.Timestamp 2025 1 15; pd.Timestamp 2025 1 16; pd.NaN].
Proof. reflexivity. Qed.

(** ** Keep-first deduplication *)

Section KeepFirst.
Context {A K : Type} `{EqDecision K} (key : A → K).

Lemma select_unmarked_keep_first seen l :
  pd.select_unmarked (pd.duplicated_keys seen (map key l)) l
  = keep_first key seen l.
Proof.
  revert seen. induction l as [|a l IH]; intros seen; simpl; [done|].
  destruct (decide (key a ∈ seen)); simpl; by rewrite IH.
Qed.

Lemma keep_first_elem seen l a :
  a ∈ keep_first key seen l → a ∈ l ∧ key a ∉ seen.
Proof.
  revert seen. induction l as [|x l IH]; intros seen; simpl.
  - intros H. by apply elem_of_nil in H.
  - destruct (decide (key x ∈ seen)) as [Hx|Hx].
    + intros H. apply IH in H as [? ?]. split; [by right | done].
    + intros H. apply elem_of_cons in H as [->|H]; [split; [by left | done]|].
      apply IH in H as [? Hn]. split; [by right|].
      intros Hs. apply Hn. by right.
Qed.

Lemma keep_first_NoDup seen l : NoDup (map key (keep_first key seen l)).
Proof.
  revert seen. induction l as [|x l IH]; intros seen; simpl; [constructor|].
  destruct (decide (key x ∈ seen)) as [Hx|Hx]; [apply IH|].
  simpl. constructor; [|apply IH].
  intros Hin. apply (list_elem_of_fmap key) in Hin as (a & Ha & Hin).
  apply keep_first_elem in Hin as [_ Hn]. apply Hn. rewrite Ha. by left.
Qed.

Lemma keep_first_complete seen l a :
  a ∈ l → key a ∉ seen →
  ∃ a', a' ∈ keep_first key seen l ∧ key a' = key a.
Proof.
  revert seen. induction l as [|x l IH]; intros seen Hin Hn.
  - by apply elem_of_nil in Hin.
  - simpl. destruct (decide (key x ∈ seen)) as [Hx|Hx].
    + apply elem_of_cons in Hin as [->|Hin]; [done|]. by apply IH.
    + destruct (decide (key x = key a)) as [He|He].
      * exists x. split; [by left | done].
      * apply elem_of_cons in Hin as [->|Hin]; [done|].
        destruct (IH (key x :: seen) Hin) as (a' & Ha' & He').
        { intros Hs. apply elem_of_cons in Hs as [Hs|Hs]; [by apply He | done]. }
        exists a'. split; [by right | done].
Qed.

Lemma keep_first_sublist seen l : sublist (keep_first key seen l) l.
Proof.
  revert seen. induction l as [|x l IH]; intros seen; simpl; [constructor|].
  destruct (decide (key x ∈ seen)).
  - apply sublist_cons, IH.
  - apply sublist_skip, IH.
Qed.

(** A kept row is the first row with its key. *)
Lemma keep_first_first seen l a :
  a ∈ keep_first key seen l →
  ∃ j, l !! j = Some a
       ∧ ∀ j' a', (j' < j)%nat → l !! j' = Some a' → key a' ≠ key a.
Proof.
  revert seen. induction l as [|x l IH]; intros seen; simpl.
  - intros H. by apply elem_of_nil in H.
  - destruct (decide (key x ∈ seen)) as [Hx|Hx].
    + intros H. pose proof (keep_first_elem _ _ _ H) as [_ Hn].
      apply IH in H as (j & Hj & Hfirst). exists (S j). split; [done|].
      intros [|j'] a' Hlt Ha'; simpl in Ha'.
      * injection Ha' as <-. intros He. apply Hn. by rewrite <- He.
      * apply (Hfirst j'); [lia | done].
    + intros H. apply elem_of_cons in H as [->|H].
      * exists 0%nat. split; [done|]. intros; lia.
      * pose proof (keep_first_elem _ _ _ H) as [_ Hn].
        apply IH in H as (j & Hj & Hfirst). exists (S j). split; [done|].
        intros [|j'] a' Hlt Ha'; simpl in Ha'.
        -- injection Ha' as <-. intros He. apply Hn. rewrite <- He. by left.
        -- apply (Hfirst j'); [lia | done].
Qed.

(** The mask of [duplicated]: row [j] is marked exactly when its key
    occurs above it. *)
Lemma duplicated_keys_lookup seen (ks : list K) j k :
  ks !! j = Some k →
  ∃ b, pd.duplicated_keys seen ks !! j = Some b
       ∧ (b = true ↔ k ∈ seen ∨ ∃ i, (i < j)%nat ∧ ks !! i = Some k).
Proof.
  revert seen j. induction ks as [|x ks IH]; intros seen j Hj; [done|].
  destruct j as [|j]; simpl in *.
  - injection Hj as ->. destruct (decide (k ∈ seen)) as [Hs|Hs]; simpl.
    + exists true. split; [done|]. split; [by left | done].
    + exists false. split; [done|]. split; [done|].
      intros [?|(i & ? & _)]; [done | lia].
  - destruct (decide (x ∈ seen)) as [Hx|Hx]; simpl;
      [destruct (IH seen _ Hj) as (b & -> & Hb)
      |destruct (IH (x :: seen) _ Hj) as (b & -> & Hb)];
      exists b; (split; [done|]); rewrite Hb; split.
    + intros [Hs|(i & Hi & Hk)]; [by left|].
      right. exists (S i). split; [lia | done].
    + intros [Hs|(i & Hi & Hk)]; [by left|].
      destruct i as [|i]; simpl in Hk.
      * injection Hk as ->. by left.
      * right. exists i. split; [lia | done].
    + intros [Hs|(i & Hi & Hk)].
      * apply elem_of_cons in Hs as [->|Hs]; [|by left].
        right. exists 0%nat. split; [lia | done].
      * right. exists (S i). split; [lia | done].
    + intros [Hs|(i & Hi & Hk)]; [left; by right|].
      destruct i as [|i]; simpl in Hk.
      * injection Hk as ->. left. by left.
      * right. exists i. split; [lia | done].
Qed.
End KeepFirst.

(** [drop_duplicates] keeps the first row of every key. *)
Lemma drop_duplicates_inv subset df out :
  pd.drop_duplicates subset df = Return out →
  out = pd.mkDataFrame (pd.columns df)
          (keep_first (λ r, pd.cells_in (default (pd.columns df) subset)
                              (pd.columns df) r.2) [] (pd.rows df)).
Proof.
  unfold pd.drop_duplicates, pd.duplicated. intros H.
  destruct (filter _ (default (pd.columns df) subset)); [|done].
  simpl in H. injection H as <-. f_equal.
  unfold pd.cells. rewrite <- list_fmap_compose.
  apply (select_unmarked_keep_first
           (λ r, pd.cells_in (default (pd.columns df) subset) (pd.columns df) r.2)).
Qed.

Lemma filter_absent_nil (subset cols : list string) :
  Forall (λ c, c ∈ cols) subset → filter (λ c, c ∉ cols) subset = [].
Proof.
  induction 1 as [|c l Hc _ IH]; [done|].
  rewrite filter_cons_False; [done|]. intros Hn. by apply Hn.
Qed.

Lemma drop_duplicates_present subset df :
  Forall (λ c, c ∈ pd.columns df) (default (pd.columns df) subset) →
  pd.drop_duplicates subset df
  = Return (pd.mkDataFrame (pd.columns df)
              (keep_first (λ r, pd.cells_in (default (pd.columns df) subset)
                                  (pd.columns df) r.2) [] (pd.rows df))).
Proof.
  intros Hall.
  destruct (pd.drop_duplicates subset df) as [out|e] eqn:E.
  - by rewrite (drop_duplicates_inv _ _ _ E).
  - unfold pd.drop_duplicates, pd.duplicated in E.
    by rewrite (filter_absent_nil _ _ Hall) in E.
Qed.

(** ** Null filling *)

Lemma cells_where_map_cell p c f cols cs :
  p c = false →
  pd.cells_where p cols (pd.map_cell c f cols cs) = pd.cells_where p cols cs.
Proof.
  intros Hp. revert cs. induction cols as [|n cols IH]; intros [|v cs]; try done.
  simpl. destruct (decide (n = c)) as [->|Hn].
  - by rewrite Hp.
  - destruct (p n); by rewrite IH.
Qed.

Lemma cells_in_map_cell c f cols cs :
  pd.cells_in [c] cols (pd.map_cell c f cols cs) = map f (pd.cells_in [c] cols cs).
Proof.
  unfold pd.cells_in. revert cs.
  induction cols as [|n cols IH]; intros [|v cs]; try done.
  simpl. destruct (decide (n = c)) as [->|Hn].
  - rewrite bool_decide_eq_true_2 by (by apply list_elem_of_singleton).
    simpl. by rewrite IH.
  - rewrite bool_decide_eq_false_2 by (by rewrite list_elem_of_singleton).
    apply IH.
Qed.

Lemma map_column_columns c f df :
  pd.columns (pd.map_column c f df) = pd.columns df.
Proof. done. Qed.

Lemma under_map_column c c' f df :
  under c (pd.map_column c' f df)
  = if decide (c = c') then map (map f) (under c df) else under c df.
Proof.
  unfold under, pd.map_column, pd.cells. simpl.
  rewrite <- !list_fmap_compose.
  destruct (decide (c = c')) as [->|Hn].
  - apply list_fmap_ext. intros ? [i cs] _. simpl.
    apply cells_in_map_cell.
  - apply list_fmap_ext. intros ? [i cs] _. simpl.
    apply cells_where_map_cell.
    apply bool_decide_eq_false_2. rewrite list_elem_of_singleton. congruence.
Qed.

Lemma natural_key_map_column c f df :
  c ∉ required_cols →
  map (natural_key (pd.map_column c f df)) (pd.rows (pd.map_column c f df))
  = map (natural_key df) (pd.rows df).
Proof.
  intros Hc. unfold natural_key, pd.map_column. simpl. rewrite map_map.
  apply map_ext. intros [i cs]. simpl. apply cells_where_map_cell.
  by apply bool_decide_eq_false_2.
Qed.

Lemma map_column_absent c f df :
  c ∉ pd.columns df → pd.map_column c f df = df.
Proof.
  intros Hc. destruct df as [cols rows]. unfold pd.map_column. simpl in *.
  f_equal. rewrite <- (map_id rows) at 2. apply map_ext. intros [i cs]. simpl.
  by rewrite map_cell_absent.
Qed.

(** The guards [if col in all_data.columns] do not change the result. *)
Lemma fill_nulls_unfold df :
  fill_nulls df
  = pd.fillna PAIS (pd.Str "Unknown")
      (foldl (λ d col, pd.fillna col (pd.Numz 0) d) df numeric_cols).
Proof.
  unfold fill_nulls.
  assert (∀ l d,
    foldl (λ df col, if decide (col ∈ pd.columns df)
                     then pd.fillna col (pd.Numz 0) df else df) d l
    = foldl (λ d col, pd.fillna col (pd.Numz 0) d) d l) as ->.
  { induction l as [|c l IH]; intros d; simpl; [done|].
    destruct (decide (c ∈ pd.columns d)) as [|Hn]; [apply IH|].
    replace (pd.fillna c (pd.Numz 0) d) with d; [apply IH|].
    unfold pd.fillna. by rewrite (map_column_absent _ _ _ Hn). }
  destruct (decide (PAIS ∈ _)) as [|Hn]; [done|].
  symmetry. by apply map_column_absent.
Qed.

Lemma fill_nulls_columns df : pd.columns (fill_nulls df) = pd.columns df.
Proof. rewrite fill_nulls_unfold. done. Qed.

Lemma fill_nulls_natural_key df :
  map (natural_key (fill_nulls df)) (pd.rows (fill_nulls df))
  = map (natural_key df) (pd.rows df).
Proof.
  rewrite fill_nulls_unfold. unfold pd.fillna, numeric_cols. simpl.
  rewrite !natural_key_map_column; [done|..];
    unfold required_cols, PAIS; rewrite !elem_of_cons, elem_of_nil;
    intros H; repeat destruct H as [H|H]; done.
Qed.

(** ** Stage 2, the path to a result *)

(** A returned frame is either the empty frame of the guards or the
    deduplicated frame with its nulls filled, which was also written to the
    Parquet snapshot. *)
Lemma transform_returns render parse_number arrow_ok
    (staging_dfs : list (string * pd.DataFrame)) w out w' :
  transform_to_core render parse_number arrow_ok staging_dfs w = (Return out, w') →
  out = pd.DataFrame_new
  ∨ ∃ pre d,
      integrated render parse_number staging_dfs = Return pre
      ∧ pd.drop_duplicates (Some required_cols) pre = Return d
      ∧ out = fill_nulls d
      ∧ NoDup (pd.columns out)
      ∧ core_parquet w' = Some out.
Proof.
  unfold transform_to_core, integrated. intros H.
  destruct (pd.concat _) as [all_data|e]; [|done].
  rewrite bind_unfold in H. rewrite run_lift in H. cbv beta iota in H.
  destruct (pd.empty all_data).
  { left. repeat (rewrite bind_unfold in H; simpl in H). by injection H as <- _. }
  rewrite bind_unfold in H. simpl in H.
  destruct (bool_decide _).
  { left. repeat (rewrite bind_unfold in H; simpl in H). by injection H as <- _. }
  right. simpl.
  destruct (parse_dates render (reconcile all_data)) as [a1|e]; [|done].
  rewrite bind_unfold in H. rewrite run_lift in H. cbv beta iota in H. simpl.
  destruct (for_each numeric_cols (parse_numeric parse_number) a1) as [a2|e];
    [|done].
  rewrite bind_unfold in H. rewrite run_lift in H. cbv beta iota in H.
  destruct (pd.drop_duplicates (Some required_cols) a2) as [d|e] eqn:Ed;
    [|done].
  rewrite bind_unfold in H. rewrite run_lift in H. cbv beta iota in H.
  exists a2, d. split; [done|]. split; [done|].
  unfold to_parquet in H.
  destruct (decide (NoDup (pd.columns (fill_nulls d)))) as [Hnd|]; [|done].
  destruct (arrow_ok (fill_nulls d)); [|done].
  repeat (rewrite bind_unfold in H; simpl in H). injection H as <- <-. done.
Qed.

(** The empty frame is returned by the guard on the key columns only. *)
Lemma transform_returns_guarded render parse_number arrow_ok
    (staging_dfs : list (string * pd.DataFrame)) w out w' :
  transform_to_core render parse_number arrow_ok staging_dfs w = (Return out, w') →
  (keys_missing staging_dfs ∧ out = pd.DataFrame_new)
  ∨ ∃ pre d,
      integrated render parse_number staging_dfs = Return pre
      ∧ pd.drop_duplicates (Some required_cols) pre = Return d
      ∧ out = fill_nulls d
      ∧ Forall (λ c, c ∈ pd.columns out) required_cols.
Proof.
  unfold transform_to_core, integrated, keys_missing. intros H.
  destruct (pd.concat _) as [all_data|e] eqn:Hc; [|done].
  rewrite bind_unfold in H. rewrite run_lift in H. cbv beta iota in H.
  rewrite (concat_nonempty _ _ (filter_nonempty_Forall _) Hc) in H.
  rewrite bind_unfold in H. simpl in H.
  destruct (bool_decide _) eqn:Hb.
  { left. apply bool_decide_eq_true_1 in Hb.
    repeat (rewrite bind_unfold in H; simpl in H). injection H as <- _.
    split; [by exists all_data|done]. }
  apply bool_decide_eq_false_1 in Hb.
  right. simpl.
  destruct (parse_dates render (reconcile all_data)) as [a1|e]; [|done].
  rewrite bind_unfold in H. rewrite run_lift in H. cbv beta iota in H. simpl.
  destruct (for_each numeric_cols (parse_numeric parse_number) a1) as [a2|e];
    [|done].
  rewrite bind_unfold in H. rewrite run_lift in H. cbv beta iota in H.
  destruct (pd.drop_duplicates (Some required_cols) a2) as [d|e] eqn:Ed;
    [|done].
  rewrite bind_unfold in H. rewrite run_lift in H. cbv beta iota in H.
  exists a2, d. split; [done|]. split; [done|].
  unfold to_parquet in H.
  destruct (decide (NoDup (pd.columns (fill_nulls d)))) as [Hnd|]; [|done].
  destruct (arrow_ok (fill_nulls d)); [|done].
  repeat (rewrite bind_unfold in H; simpl in H). injection H as <- <-.
  split; [done|]. rewrite fill_nulls_columns.
  unfold pd.drop_duplicates, pd.duplicated in Ed. simpl in Ed.
  destruct (filter _ required_cols) eqn:Ef in Ed; [|done].
  injection Ed as <-. simpl.
  clear -Ef. revert Ef. generalize required_cols.
  induction l as [|c l IH]; [constructor|].
  destruct (decide (c ∈ pd.columns a2)).
  - rewrite filter_cons_False by (by intros ?). intros ?.
    constructor; [done|by apply IH].
  - by rewrite filter_cons_True.
Qed.

(** C2: in the frame [transform_to_core] returns no two rows have the same
    (NUMERO_FORMULARIO, NUMERO_SERIE) key.  The frame is the empty one only
    when the guard on the key columns fires; otherwise its rows are, in
    order, those rows of the concatenated and parsed frame that are the
    first with their key (with the nulls filled afterwards), and every key
    of that frame is still represented. *)
Theorem transform_deduplicates render parse_number arrow_ok
    (staging_dfs : list (string * pd.DataFrame)) w out w' :
  transform_to_core render parse_number arrow_ok staging_dfs w = (Return out, w') →
  NoDup (map (natural_key out) (pd.rows out))
  ∧ ((keys_missing staging_dfs ∧ out = pd.DataFrame_new)
     ∨ ∃ pre d,
         integrated render parse_number staging_dfs = Return pre
         ∧ out = fill_nulls d
         ∧ pd.columns d = pd.columns pre
         ∧ sublist (pd.rows d) (pd.rows pre)
         ∧ (∀ r, r ∈ pd.rows d →
              ∃ j, pd.rows pre !! j = Some r
                   ∧ ∀ j' r', (j' < j)%nat → pd.rows pre !! j' = Some r' →
                       natural_key pre r' ≠ natural_key pre r)
         ∧ (∀ r, r ∈ pd.rows pre →
              ∃ r', r' ∈ pd.rows d ∧ natural_key pre r' = natural_key pre r)
         ∧ map (natural_key out) (pd.rows out)
           = map (natural_key pre) (pd.rows d)).
Proof.
  intros H.
  destruct (transform_returns_guarded _ _ _ _ _ _ _ H)
    as [[Hmiss ->]|(pre & d & Hpre & Hd & -> & _)].
  { split; [constructor | by left]. }
  apply drop_duplicates_inv in Hd. simpl in Hd.
  assert (map (natural_key (fill_nulls d)) (pd.rows (fill_nulls d))
          = map (natural_key pre) (pd.rows d)) as Hkeys.
  { rewrite fill_nulls_natural_key. by subst d. }
  split.
  - rewrite Hkeys. subst d. simpl. apply (keep_first_NoDup (natural_key pre)).
  - right. exists pre, d. split; [done|]. split; [done|].
    subst d; simpl. split; [done|].
    split; [apply (keep_first_sublist (natural_key pre))|].
    split; [intros r; apply (keep_first_first (natural_key pre))|].
    split; [|done].
    intros r Hr. apply (keep_first_complete (natural_key pre)); [done|].
    apply not_elem_of_nil.
Qed.


Example transform_ex :
  ex_run.1
  = Return
      (pd.mkDataFrame
         ["NUMERO_FORMULARIO"; "NUMERO_SERIE"; FECHA; "VALOR_FOB_USD"; PAIS]
         [(0, [pd.Numz 100; pd.Numz 1; pd.Timestamp 2025 1 15; pd.Numz 10;
               pd.Str "PERU"]);
          (2, [pd.Numz 101; pd.NaN; pd.NaN; pd.Numz 0; pd.Str "Unknown"]);
          (5, [pd.Numz 102; pd.Numz 1; pd.NaN; pd.Numz 0; pd.Str "Unknown"])]).
Proof. reflexivity. Qed.

Lemma transform_deduplicates_witness :
  NoDup (map (natural_key ex_out) (pd.rows ex_out))
  ∧ ((keys_missing ex_staging ∧ ex_out = pd.DataFrame_new)
     ∨ ∃ pre d,
         integrated ex_render ex_parse ex_staging = Return pre
         ∧ ex_out = fill_nulls d
         ∧ pd.columns d = pd.columns pre
         ∧ sublist (pd.rows d) (pd.rows pre)
         ∧ (∀ r, r ∈ pd.rows d →
              ∃ j, pd.rows pre !! j = Some r
                   ∧ ∀ j' r', (j' < j)%nat → pd.rows pre !! j' = Some r' →
                       natural_key pre r' ≠ natural_key pre r)
         ∧ (∀ r, r ∈ pd.rows pre →
              ∃ r', r' ∈ pd.rows d ∧ natural_key pre r' = natural_key pre r)
         ∧ map (natural_key ex_out) (pd.rows ex_out)
           = map (natural_key pre) (pd.rows d)).
Proof.
  apply (transform_deduplicates ex_render ex_parse (λ _, true) ex_staging w0
           ex_out ex_run.2).
  vm_compute. reflexivity.
Defined.


(** What [fill_nulls] does to the cells under each label. *)
Lemma under_fill_nulls_measure c df :
  c ∈ numeric_cols →
  under c (fill_nulls df) = map (map (pd.fillna_cell (pd.Numz 0))) (under c df).
Proof.
  intros Hc. rewrite fill_nulls_unfold. unfold pd.fillna, numeric_cols. simpl.
  rewrite !under_map_column.
  unfold numeric_cols in Hc. rewrite !elem_of_cons, elem_of_nil in Hc.
  repeat destruct Hc as [->|Hc]; try done; repeat case_decide; done.
Qed.

Lemma under_fill_nulls_pais df :
  under PAIS (fill_nulls df)
  = map (map (pd.fillna_cell (pd.Str "Unknown"))) (under PAIS df).
Proof.
  rewrite fill_nulls_unfold. unfold pd.fillna, numeric_cols. simpl.
  rewrite !under_map_column. repeat case_decide; done.
Qed.

Lemma under_fill_nulls_other c df :
  c ∉ numeric_cols → c ≠ PAIS → under c (fill_nulls df) = under c df.
Proof.
  intros Hc Hp. rewrite fill_nulls_unfold. unfold pd.fillna, numeric_cols. simpl.
  rewrite !under_map_column.
  unfold numeric_cols in Hc. rewrite !not_elem_of_cons in Hc.
  destruct Hc as (? & ? & ? & ? & ? & _).
  repeat case_decide; done.
Qed.

Lemma fill_nulls_index df : pd.index (fill_nulls df) = pd.index df.
Proof.
  rewrite fill_nulls_unfold. unfold pd.fillna, numeric_cols, pd.index. simpl.
  rewrite <- !list_fmap_compose. done.
Qed.

Lemma fillna_cell_notna v x : v ≠ pd.NaN → pd.fillna_cell v x ≠ pd.NaN.
Proof. intros Hv. unfold pd.fillna_cell. by destruct x. Qed.

Lemma filled_notna v (l : list (list pd.value)) :
  v ≠ pd.NaN →
  Forall (Forall (λ x, x ≠ pd.NaN)) (map (map (pd.fillna_cell v)) l).
Proof.
  intros Hv. apply list.Forall_forall. intros cs Hcs.
  apply (list_elem_of_fmap (map (pd.fillna_cell v))) in Hcs as (cs0 & -> & _).
  apply list.Forall_forall. intros x Hx.
  apply (list_elem_of_fmap (pd.fillna_cell v)) in Hx as (x0 & -> & _).
  by apply fillna_cell_notna.
Qed.

(** C6: in the frame [transform_to_core] returns no cell under a measure
    label and no cell under PAIS_DESTINO_FINAL is null.  The frame is the
    empty one only when the guard on the key columns fires; otherwise it
    is the deduplicated frame in which the nulls under those labels became
    0, respectively "Unknown", and the other cells under those labels are
    as they were; the cells under every other label, nulls included, are
    unchanged. *)
Theorem transform_fills_nulls render parse_number arrow_ok
    (staging_dfs : list (string * pd.DataFrame)) w out w' :
  transform_to_core render parse_number arrow_ok staging_dfs w = (Return out, w') →
  (∀ c, c ∈ numeric_cols → Forall (Forall (λ x, x ≠ pd.NaN)) (under c out))
  ∧ Forall (Forall (λ x, x ≠ pd.NaN)) (under PAIS out)
  ∧ ((keys_missing staging_dfs ∧ out = pd.DataFrame_new)
     ∨ ∃ d,
         deduplicated render parse_number staging_dfs = Return d
         ∧ pd.columns out = pd.columns d
         ∧ pd.index out = pd.index d
         ∧ (∀ c, c ∈ numeric_cols →
              under c out = map (map (pd.fillna_cell (pd.Numz 0))) (under c d))
         ∧ under PAIS out
           = map (map (pd.fillna_cell (pd.Str "Unknown"))) (under PAIS d)
         ∧ (∀ c, c ∉ numeric_cols → c ≠ PAIS → under c out = under c d)).
Proof.
  intros H.
  destruct (transform_returns_guarded _ _ _ _ _ _ _ H)
    as [[Hmiss ->]|(pre & d & Hpre & Hd & -> & _)].
  { split; [intros; constructor|]. split; [constructor | by left]. }
  split; [|split].
  - intros c Hc. rewrite (under_fill_nulls_measure _ _ Hc).
    by apply filled_notna.
  - rewrite under_fill_nulls_pais. by apply filled_notna.
  - right. exists d. unfold deduplicated. rewrite Hpre. simpl.
    split; [done|]. split; [apply fill_nulls_columns|].
    split; [apply fill_nulls_index|].
    split; [intros c; apply under_fill_nulls_measure|].
    split; [apply under_fill_nulls_pais | intros c; apply under_fill_nulls_other].
Qed.

Lemma transform_fills_nulls_witness :
  (∀ c, c ∈ numeric_cols → Forall (Forall (λ x, x ≠ pd.NaN)) (under c ex_out))
  ∧ Forall (Forall (λ x, x ≠ pd.NaN)) (under PAIS ex_out)
  ∧ ((keys_missing ex_staging ∧ ex_out = pd.DataFrame_new)
     ∨ ∃ d,
         deduplicated ex_render ex_parse ex_staging = Return d
         ∧ pd.columns ex_out = pd.columns d
         ∧ pd.index ex_out = pd.index d
         ∧ (∀ c, c ∈ numeric_cols →
              under c ex_out
              = map (map (pd.fillna_cell (pd.Numz 0))) (under c d))
         ∧ under PAIS ex_out
           = map (map (pd.fillna_cell (pd.Str "Unknown"))) (under PAIS d)
         ∧ (∀ c, c ∉ numeric_cols → c ≠ PAIS → under c ex_out = under c d)).
Proof.
  apply (transform_fills_nulls ex_render ex_parse (λ _, true) ex_staging w0
           ex_out ex_run.2).
  vm_compute. reflexivity.
Defined.

(** ** Stage 3 and the caller's frame *)

Section Keeps.
Variables (r : ref) (core : pd.DataFrame).

Lemma keeps_bind {A B : Type} (m : M A) (f : A → M B) P Q :
  keeps r core m P → (∀ a, P a → keeps r core (f a) Q) →
  keeps r core (m ≫= f) Q.
Proof.
  intros Hm Hf w Hw. rewrite bind_unfold.
  destruct (Hm w Hw) as [Hobj Hpost].
  destruct (m w) as [[a|e] w1]; simpl in *; [|done].
  by apply (Hf a Hpost w1).
Qed.

Lemma keeps_weaken {A : Type} (m : M A) (P Q : A → Prop) :
  keeps r core m P → (∀ a, P a → Q a) → keeps r core m Q.
Proof.
  intros Hm HPQ w Hw. destruct (Hm w Hw) as [Hobj Hpost].
  split; [done|]. destruct (m w).1; [by apply HPQ | done].
Qed.

Lemma keeps_lift {A : Type} (o : outcome A) :
  keeps r core (lift o) (λ _, True).
Proof. intros w Hw. split; [done|]. simpl. by destruct o. Qed.

Lemma keeps_ret {A : Type} (a : A) : keeps r core (mret a) (λ _, True).
Proof. intros w Hw. by split. Qed.

Lemma keeps_logging l msg : keeps r core (logging l msg) (λ _, True).
Proof. intros w Hw. by split. Qed.

Lemma keeps_load r' : keeps r core (load r') (λ _, True).
Proof.
  intros w Hw. unfold load. by destruct (objects w !! r'); split.
Qed.

(** A new object never takes the place of an existing one. *)
Lemma keeps_new df : keeps r core (new df) (λ a, a ≠ r).
Proof.
  intros w Hw. pose proof (lookup_lt_Some _ _ _ Hw) as Hlt.
  unfold new; simpl. split; [|lia].
  by rewrite lookup_app_l.
Qed.

Lemma keeps_store r' df : r' ≠ r → keeps r core (store r' df) (λ _, True).
Proof.
  intros Hne w Hw. unfold store; simpl. split; [|done].
  by rewrite list_lookup_insert_ne.
Qed.

Lemma keeps_replace_table name df :
  keeps r core (replace_table name df) (λ _, True).
Proof. intros w Hw. by split. Qed.

Lemma keeps_read {A : Type} (f : pd.DataFrame → outcome A) r' :
  keeps r core (read f r') (λ _, True).
Proof.
  unfold read. eapply keeps_bind; [apply keeps_load|].
  intros df _. apply keeps_lift.
Qed.

Lemma keeps_call f r' : keeps r core (call f r') (λ a, a ≠ r).
Proof.
  unfold call. eapply keeps_bind; [apply keeps_load|]. intros df _.
  eapply keeps_bind; [apply keeps_lift|]. intros d _. apply keeps_new.
Qed.

Lemma keeps_update f r' : r' ≠ r → keeps r core (update f r') (λ _, True).
Proof.
  intros Hne. unfold update. eapply keeps_bind; [apply keeps_load|].
  intros df _. eapply keeps_bind; [apply keeps_lift|]. intros d _.
  by apply keeps_store.
Qed.

Lemma keeps_to_sql name r' : keeps r core (to_sql name r') (λ _, True).
Proof.
  unfold to_sql. eapply keeps_bind; [apply keeps_load|]. intros df _.
  destruct (decide _); [apply keeps_replace_table | apply keeps_lift].
Qed.

Lemma keeps_distinct_tuples cols r' :
  keeps r core (distinct_tuples cols r') (λ a, a ≠ r).
Proof.
  unfold distinct_tuples.
  eapply keeps_bind; [apply keeps_call|]. intros s _.
  eapply keeps_bind; [apply keeps_call|]. intros u _.
  apply keeps_call.
Qed.

Lemma keeps_assign_id name dim :
  dim ≠ r → keeps r core (assign_id name dim) (λ _, True).
Proof.
  intros Hne. unfold assign_id.
  eapply keeps_bind; [apply keeps_read|]. intros ids _.
  by apply keeps_update.
Qed.

Lemma keeps_assign_dt name field dim :
  dim ≠ r → keeps r core (assign_dt name field dim) (λ _, True).
Proof.
  intros Hne. unfold assign_dt.
  eapply keeps_bind; [apply keeps_read|]. intros part _.
  by apply keeps_update.
Qed.

Lemma keeps_merge on left right :
  keeps r core (merge on left right) (λ a, a ≠ r).
Proof.
  unfold merge. eapply keeps_bind; [apply keeps_load|]. intros d _.
  apply keeps_call.
Qed.

Lemma keeps_build_semantic_layer :
  keeps r core (build_semantic_layer r) (λ _, True).
Proof.
  unfold build_semantic_layer.
  eapply keeps_bind; [apply keeps_read|]. intros [] _;
    [apply keeps_logging|].
  eapply keeps_bind; [apply keeps_logging|]. intros _ _.
  eapply keeps_bind; [apply keeps_distinct_tuples|]. intros dim_time Ht.
  do 4 (eapply keeps_bind;
        [first [by apply keeps_assign_id | by apply keeps_assign_dt]|];
        intros _ _).
  eapply keeps_bind; [apply keeps_to_sql|]. intros _ _.
  eapply keeps_bind; [apply keeps_distinct_tuples|]. intros dim_empresa He.
  eapply keeps_bind; [by apply keeps_assign_id|]. intros _ _.
  eapply keeps_bind; [apply keeps_to_sql|]. intros _ _.
  eapply keeps_bind; [apply keeps_distinct_tuples|]. intros dim_pais Hp.
  eapply keeps_bind; [by apply keeps_assign_id|]. intros _ _.
  eapply keeps_bind; [apply keeps_to_sql|]. intros _ _.
  eapply keeps_bind; [apply keeps_distinct_tuples|]. intros dim_mercancia Hm.
  eapply keeps_bind; [by apply keeps_assign_id|]. intros _ _.
  eapply keeps_bind; [apply keeps_to_sql|]. intros _ _.
  do 4 (eapply keeps_bind; [apply keeps_merge|]; intros ? _).
  eapply keeps_bind; [apply keeps_call|]. intros fact _.
  eapply keeps_bind; [apply keeps_to_sql|]. intros _ _.
  apply keeps_logging.
Qed.
End Keeps.

(** C10: [build_semantic_layer] leaves the caller's frame object exactly
    as it was, on every path: the object stored under [core_df] is the
    same frame (labels, index and cells) before and after the call. *)
Theorem build_semantic_layer_keeps_core (core_df : ref) (w : world) :
  objects (build_semantic_layer core_df w).2 !! core_df = objects w !! core_df.
Proof.
  destruct (objects w !! core_df) as [core|] eqn:Hw.
  - by apply (keeps_build_semantic_layer core_df core w).
  - unfold build_semantic_layer, read. rewrite !bind_unfold.
    unfold load. by rewrite Hw.
Qed.

(** ** Stage 3 against its tables *)

Lemma lookup_app_add {A : Type} (l1 l2 : list A) k :
  (l1 ++ l2) !! (length l1 + k)%nat = l2 !! k.
Proof. rewrite lookup_app_r by lia. f_equal. lia. Qed.

Section Run.
Variables (L : list (level * list fragment)) (P : option pd.DataFrame)
          (O l : list pd.DataFrame) (D : gmap string pd.DataFrame).

Lemma run_read {A : Type} (f : pd.DataFrame → outcome A) r df a :
  (O ++ l) !! r = Some df → f df = Return a →
  read f r (mkWorld L P (O ++ l) D) = (Return a, mkWorld L P (O ++ l) D).
Proof.
  intros Hr Hf. unfold read, load. rewrite bind_unfold. simpl.
  by rewrite Hr, run_lift, Hf.
Qed.

Lemma run_load r df :
  (O ++ l) !! r = Some df →
  load r (mkWorld L P (O ++ l) D) = (Return df, mkWorld L P (O ++ l) D).
Proof. intros Hr. unfold load. simpl. by rewrite Hr. Qed.

Lemma run_call f r df d :
  (O ++ l) !! r = Some df → f df = Return d →
  call f r (mkWorld L P (O ++ l) D)
  = (Return (length O + length l)%nat, mkWorld L P (O ++ (l ++ [d])) D).
Proof.
  intros Hr Hf. unfold call, load. rewrite bind_unfold. simpl.
  rewrite Hr, bind_unfold, run_lift, Hf. unfold new. simpl.
  by rewrite length_app, app_assoc.
Qed.

Lemma run_update f k df d :
  l !! k = Some df → f df = Return d →
  update f (length O + k)%nat (mkWorld L P (O ++ l) D)
  = (Return (), mkWorld L P (O ++ <[k := d]> l) D).
Proof.
  intros Hr Hf. unfold update, load. rewrite bind_unfold. simpl.
  rewrite lookup_app_add, Hr, bind_unfold, run_lift, Hf. unfold store. simpl.
  by rewrite insert_app_r.
Qed.

Lemma run_to_sql name r df :
  (O ++ l) !! r = Some df → sql_ok df = Return df →
  to_sql name r (mkWorld L P (O ++ l) D)
  = (Return (), mkWorld L P (O ++ l) (<[name := df]> D)).
Proof.
  intros Hr Hok. unfold to_sql, load. rewrite bind_unfold. simpl.
  rewrite Hr. unfold sql_ok in Hok. by destruct (decide _).
Qed.

Lemma run_logging lv msg :
  logging lv msg (mkWorld L P (O ++ l) D)
  = (Return (), mkWorld (L ++ [(lv, msg)]) P (O ++ l) D).
Proof. done. Qed.

Lemma run_merge on left right dl dr d :
  (O ++ l) !! left = Some dl → (O ++ l) !! right = Some dr →
  pd.merge dl dr on = Return d →
  merge on left right (mkWorld L P (O ++ l) D)
  = (Return (length O + length l)%nat, mkWorld L P (O ++ (l ++ [d])) D).
Proof.
  intros Hl Hr Hm. unfold merge. rewrite bind_unfold, (run_load _ _ Hr).
  by apply (run_call _ _ dl).
Qed.
End Run.

Lemma sql_ok_inv df d : sql_ok df = Return d → d = df ∧ sql_ok df = Return df.
Proof. unfold sql_ok. destruct (decide _); [|done]. by intros [= <-]. Qed.

Section RunBlocks.
Variables (L : list (level * list fragment)) (P : option pd.DataFrame)
          (O l : list pd.DataFrame) (D : gmap string pd.DataFrame).

Lemma run_distinct_tuples cols r core s u :
  (O ++ l) !! r = Some core →
  pd.getitem_list cols core = Return s →
  pd.drop_duplicates None s = Return u →
  distinct_tuples cols r (mkWorld L P (O ++ l) D)
  = (Return (length O + (length l + 2))%nat,
     mkWorld L P (O ++ (l ++ [s; u; pd.reset_index u])) D).
Proof.
  intros Hr Hs Hu. unfold distinct_tuples.
  erewrite run_bind by (by eapply run_call).
  erewrite run_bind.
  2:{ eapply run_call; [|exact Hu].
      rewrite lookup_app_add. by apply list_lookup_middle. }
  erewrite run_call.
  - f_equal; [f_equal; rewrite !length_app; simpl; lia|].
    by rewrite <- !app_assoc.
  - rewrite lookup_app_add. by apply list_lookup_middle.
  - done.
Qed.

Lemma run_assign_id name k d d' :
  l !! k = Some d →
  pd.setitem name (pd.index_plus 1 d) d = Return d' →
  assign_id name (length O + k)%nat (mkWorld L P (O ++ l) D)
  = (Return (), mkWorld L P (O ++ <[k := d']> l) D).
Proof.
  intros Hk Hd. unfold assign_id.
  erewrite run_bind.
  2:{ eapply run_read; [by rewrite lookup_app_add | done]. }
  by eapply run_update.
Qed.

Lemma run_assign_dt name field k d s part d' :
  l !! k = Some d →
  pd.getitem FECHA d = Return s →
  pd.dt field s = Return part →
  pd.setitem name part d = Return d' →
  assign_dt name field (length O + k)%nat (mkWorld L P (O ++ l) D)
  = (Return (), mkWorld L P (O ++ <[k := d']> l) D).
Proof.
  intros Hk Hs Hp Hd. unfold assign_dt.
  erewrite run_bind.
  2:{ eapply run_read; [by rewrite lookup_app_add|]. by rewrite Hs. }
  by eapply run_update.
Qed.
End RunBlocks.

Ltac head_comp o :=
  lazymatch o with
  | @mbind _ _ _ _ _ ?o' => head_comp o'
  | _ => constr:(o)
  end.

(** Take the next step of a computation in [outcome] that is known to
    return. *)
Ltac take H :=
  lazymatch type of H with
  | ?lhs = Return _ =>
      let h := head_comp lhs in
      destruct h eqn:?; [cbn [mbind outcome_bind] in H | discriminate H]
  end.

Ltac obj := first [ by apply lookup_app_l_Some
                  | rewrite lookup_app_add; reflexivity ].

Ltac run_with lem :=
  erewrite run_bind;
  [| eapply lem; first [ obj | reflexivity | eassumption ] ];
  cbv beta; cbn [length app Nat.add insert list_insert].

(** [build_semantic_layer] writes the five tables [semantic_tables]
    describes, logs its two messages and only adds objects to the store. *)
Lemma build_semantic_layer_tables core_df w core T :
  objects w !! core_df = Some core →
  pd.empty core = false →
  semantic_tables core = Return T →
  ∃ objs,
    build_semantic_layer core_df w
    = (Return (),
       mkWorld
         (log w ++ [(INFO, [Lit "Conectado a SQLite para Semantic Layer"]);
                    (INFO, [Lit "Semantic Layer construida en SQLite"])])
         (core_parquet w) (objects w ++ objs)
         (<["FACT_EXPORTACIONES" := FACT_EXPORTACIONES T]>
            (<["DIM_MERCANCIA" := DIM_MERCANCIA T]>
               (<["DIM_PAIS" := DIM_PAIS T]>
                  (<["DIM_EMPRESA" := DIM_EMPRESA T]>
                     (<["DIM_TIME" := DIM_TIME T]> (dw w))))))).
Proof.
  destruct w as [L P O D]. simpl. intros Hcore Hne HT.
  unfold semantic_tables, dimension, with_dt in HT.
  do 3 take HT.
  do 3 (do 3 take HT).
  take HT.
  do 3 (do 4 take HT).
  do 6 take HT.
  injection HT as <-. simpl.
  repeat match goal with
         | H : sql_ok _ = Return _ |- _ => apply sql_ok_inv in H as [-> H]
         end.
  eexists. unfold build_semantic_layer.
  rewrite <- (app_nil_r O) at 1.
  run_with run_read. rewrite Hne.
  run_with run_logging.
  run_with run_distinct_tuples. run_with run_assign_id.
  do 3 run_with run_assign_dt. run_with run_to_sql.
  do 3 (run_with run_distinct_tuples; run_with run_assign_id;
        run_with run_to_sql).
  do 4 run_with run_merge.
  run_with run_call. run_with run_to_sql.
  unfold logging_info, logging. simpl. by rewrite <- app_assoc.
Qed.

(** ** Cells by label in rectangular rows *)

Lemma cells_in_absent k cols cs : k ∉ cols → pd.cells_in [k] cols cs = [].
Proof.
  unfold pd.cells_in. revert cs.
  induction cols as [|n cols IH]; intros [|v cs] Hk; try done.
  apply not_elem_of_cons in Hk as [? ?]. simpl.
  rewrite bool_decide_eq_false_2 by (rewrite list_elem_of_singleton; congruence).
  by apply IH.
Qed.

Lemma cells_in_cons_eq k cols v cs :
  pd.cells_in [k] (k :: cols) (v :: cs) = v :: pd.cells_in [k] cols cs.
Proof.
  unfold pd.cells_in. simpl.
  by rewrite bool_decide_eq_true_2 by (by apply list_elem_of_singleton).
Qed.

Lemma cells_in_cons_ne k n cols v cs :
  n ≠ k → pd.cells_in [k] (n :: cols) (v :: cs) = pd.cells_in [k] cols cs.
Proof.
  intros Hn. unfold pd.cells_in. simpl.
  by rewrite bool_decide_eq_false_2 by (by rewrite list_elem_of_singleton).
Qed.

Lemma cell_cons_eq k cols v cs : pd.cell k (k :: cols) (v :: cs) = v.
Proof. unfold pd.cell. by rewrite cells_in_cons_eq. Qed.

Lemma cell_cons_ne k n cols v cs :
  n ≠ k → pd.cell k (n :: cols) (v :: cs) = pd.cell k cols cs.
Proof. intros Hn. unfold pd.cell. by rewrite cells_in_cons_ne. Qed.

Lemma cells_in_single k cols cs :
  NoDup cols → k ∈ cols → length cs = length cols →
  pd.cells_in [k] cols cs = [pd.cell k cols cs].
Proof.
  revert cs. induction cols as [|n cols IH]; intros [|v cs] Hnd Hk Hlen;
    try done.
  { by apply elem_of_nil in Hk. }
  apply list.NoDup_cons in Hnd as [Hn Hnd]. simpl in Hlen.
  destruct (decide (n = k)) as [->|Hne].
  - rewrite cell_cons_eq, cells_in_cons_eq. by rewrite cells_in_absent.
  - rewrite cell_cons_ne, cells_in_cons_ne by done.
    apply elem_of_cons in Hk as [?|Hk]; [congruence|].
    apply IH; [done | done | lia].
Qed.

Lemma cell_app_l k cols E cs x :
  k ∈ cols → length cs = length cols →
  pd.cell k (cols ++ E) (cs ++ x) = pd.cell k cols cs.
Proof.
  revert cs. induction cols as [|n cols IH]; intros [|v cs] Hk Hlen; try done.
  { by apply elem_of_nil in Hk. }
  simpl in Hlen. simpl.
  destruct (decide (n = k)) as [->|Hne].
  - by rewrite !cell_cons_eq.
  - rewrite !cell_cons_ne by done.
    apply elem_of_cons in Hk as [?|Hk]; [congruence|].
    apply IH; [done | lia].
Qed.

Lemma cell_app_r k cols E cs x :
  k ∉ cols → length cs = length cols →
  pd.cell k (cols ++ E) (cs ++ x) = pd.cell k E x.
Proof.
  revert cs. induction cols as [|n cols IH]; intros [|v cs] Hk Hlen; try done.
  apply not_elem_of_cons in Hk as [? ?]. simpl in Hlen. simpl.
  rewrite cell_cons_ne by done. apply IH; [done | lia].
Qed.

Lemma key_cells_self cols t :
  NoDup cols → length t = length cols → pd.key_cells cols cols t = t.
Proof.
  unfold pd.key_cells. revert t.
  induction cols as [|k cols IH]; intros [|v t] Hnd Hlen; try done.
  apply list.NoDup_cons in Hnd as [Hk Hnd]. simpl in Hlen. simpl.
  rewrite cell_cons_eq. f_equal.
  transitivity (map (λ k0, pd.cell k0 cols t) cols); [|apply IH; done || lia].
  apply map_ext_in. intros k' Hk'. apply cell_cons_ne.
  intros ->. apply Hk. by apply list_elem_of_In.
Qed.

Lemma key_cells_app on cols E cs x :
  Forall (λ k, k ∈ cols) on → length cs = length cols →
  pd.key_cells on (cols ++ E) (cs ++ x) = pd.key_cells on cols cs.
Proof.
  intros Hon Hlen. unfold pd.key_cells. apply map_ext_in. intros k Hk.
  apply cell_app_l; [|done].
  rewrite list.Forall_forall in Hon. apply Hon. by apply list_elem_of_In.
Qed.

Lemma filter_eq_once (k : string) cols :
  NoDup cols → k ∈ cols → filter (λ c, c = k) cols = [k].
Proof.
  induction cols as [|n cols IH]; intros Hnd Hk.
  { by apply elem_of_nil in Hk. }
  apply list.NoDup_cons in Hnd as [Hn Hnd].
  destruct (decide (n = k)) as [->|Hne].
  - rewrite filter_cons_True by done. by rewrite filter_eq_nil.
  - rewrite filter_cons_False by done.
    apply elem_of_cons in Hk as [?|Hk]; [congruence|]. by apply IH.
Qed.

Lemma cells_in_all cols t :
  length t = length cols → pd.cells_in cols cols t = t.
Proof.
  intros Hlen. unfold pd.cells_in.
  assert (∀ sub : list string, (∀ c, c ∈ cols → c ∈ sub) →
            pd.cells_where (λ c, bool_decide (c ∈ sub)) cols t = t) as Hgen.
  { revert t Hlen. induction cols as [|n cols IH]; intros [|v t] Hlen sub Hsub;
      try done.
    simpl in Hlen. simpl.
    rewrite bool_decide_eq_true_2 by (apply Hsub; by left).
    f_equal. apply IH; [lia|]. intros c Hc. apply Hsub. by right. }
  by apply Hgen.
Qed.

(** [df[keys]] of a rectangular frame with distinct labels. *)
Lemma getitem_list_present keys df :
  NoDup (pd.columns df) → rectangular df →
  Forall (λ c, c ∈ pd.columns df) keys →
  pd.getitem_list keys df
  = Return (pd.mkDataFrame keys
              (map (λ r, (r.1, pd.key_cells keys (pd.columns df) r.2))
                 (pd.rows df))).
Proof.
  intros Hnd Hrect Hkeys. unfold pd.getitem_list.
  rewrite (filter_absent_nil _ _ Hkeys). f_equal. f_equal.
  - induction Hkeys as [|k keys Hk _ IH]; [done|]. simpl.
    by rewrite (filter_eq_once _ _ Hnd Hk), IH.
  - unfold rectangular, pd.cells in Hrect.
    rewrite list.Forall_forall in Hrect.
    apply map_ext_in. intros [i cs] Hin. simpl. f_equal.
    assert (length cs = length (pd.columns df)) as Hlen.
    { apply Hrect. apply list_elem_of_In in Hin.
      by apply (list_elem_of_fmap_2 snd) in Hin. }
    unfold pd.key_cells. clear Hin.
    induction Hkeys as [|k keys Hk _ IH]; [done|]. simpl.
    by rewrite (cells_in_single _ _ _ Hnd Hk Hlen), IH.
Qed.

(** ** Dimensions *)

Lemma keep_first_ext {A K : Type} `{EqDecision K} (key key' : A → K) seen l :
  (∀ a, a ∈ l → key a = key' a) →
  keep_first key seen l = keep_first key' seen l.
Proof.
  revert seen. induction l as [|a l IH]; intros seen Hext; [done|]. simpl.
  rewrite <- (Hext a) by (by left).
  rewrite !IH by (intros; apply Hext; by right). done.
Qed.

Lemma numbered_of_setitem id cols ts s :
  id ∉ cols →
  zip_with (λ r v, (r.1, pd.set_cell id v cols r.2))
    (zip (seqZ s (Z.of_nat (length ts))) ts)
    (map (λ i, pd.Numz (i + 1)) (seqZ s (Z.of_nat (length ts))))
  = numbered s ts.
Proof.
  intros Hid. revert s. induction ts as [|t ts IH]; intros s; [done|].
  simpl length. rewrite seqZ_cons by lia.
  replace (Z.pred (Z.of_nat (S (length ts)))) with (Z.of_nat (length ts)) by lia.
  simpl. unfold pd.set_cell at 1. rewrite decide_False by done.
  f_equal. rewrite <- IH. by replace (Z.succ s) with (s + 1) by lia.
Qed.

Lemma numbered_length s ts : length (numbered s ts) = length ts.
Proof. revert s. induction ts as [|t ts IH]; intros s; simpl; [done|]. by rewrite IH. Qed.

Lemma numbered_cells s ts :
  Forall2 (λ t cs, ∃ x, cs = t ++ x) ts (numbered s ts).*2.
Proof.
  revert s. induction ts as [|t ts IH]; intros s; simpl; constructor; eauto.
Qed.

Lemma numbered_ids id cols s ts :
  id ∉ cols → Forall (λ t, length t = length cols) ts →
  map (pd.cell id (cols ++ [id])) (numbered s ts).*2
  = map pd.Numz (seqZ (s + 1) (Z.of_nat (length ts))).
Proof.
  intros Hid Hlen. revert s. induction Hlen as [|t ts Ht _ IH]; intros s; [done|].
  simpl length. rewrite seqZ_cons by lia.
  replace (Z.pred (Z.of_nat (S (length ts)))) with (Z.of_nat (length ts)) by lia.
  simpl. rewrite cell_app_r by done. rewrite cell_cons_eq. f_equal.
  rewrite IH. by replace (Z.succ (s + 1)) with (s + 1 + 1) by lia.
Qed.

Lemma numbered_tuples id cols s ts :
  NoDup cols → Forall (λ t, length t = length cols) ts →
  map (pd.key_cells cols (cols ++ [id])) (numbered s ts).*2 = ts.
Proof.
  intros Hnd Hlen. revert s. induction Hlen as [|t ts Ht _ IH]; intros s; [done|].
  simpl. rewrite IH. f_equal.
  rewrite key_cells_app; [by apply key_cells_self | | done].
  by apply list.Forall_forall.
Qed.

Lemma numbered_rectangular id cols s ts :
  Forall (λ t, length t = length cols) ts →
  rectangular (pd.mkDataFrame (cols ++ [id]) (numbered s ts)).
Proof.
  intros Hlen. unfold rectangular, pd.cells. simpl. revert s.
  induction Hlen as [|t ts Ht _ IH]; intros s; simpl; constructor; [|apply IH].
  rewrite !length_app. simpl. lia.
Qed.

Lemma distinct_tuples_of_spec cols core :
  NoDup (distinct_tuples_of cols core)
  ∧ (∀ x, x ∈ distinct_tuples_of cols core ↔ x ∈ tuples cols core)
  ∧ Forall (λ t, length t = length cols) (distinct_tuples_of cols core).
Proof.
  unfold distinct_tuples_of, tuples, pd.cells.
  set (rs := map _ (pd.rows core)).
  assert (rs.*2 = map (pd.key_cells cols (pd.columns core)) (pd.rows core).*2)
    as Hrs.
  { unfold rs. rewrite !map_map. done. }
  split; [apply (keep_first_NoDup snd)|]. split.
  - intros x. rewrite <- Hrs. split.
    + intros Hx. apply list_elem_of_fmap in Hx as (a & -> & Ha).
      apply keep_first_elem in Ha as [Ha _]. by apply list_elem_of_fmap_2.
    + intros Hx. apply list_elem_of_fmap in Hx as (a & -> & Ha).
      destruct (keep_first_complete snd [] rs a Ha) as (a' & Ha' & <-).
      { apply not_elem_of_nil. }
      by apply list_elem_of_fmap_2.
  - apply list.Forall_forall. intros t Ht.
    apply list_elem_of_fmap in Ht as (a & -> & Ha).
    apply keep_first_elem in Ha as [Ha _]. unfold rs in Ha.
    apply list_elem_of_fmap in Ha as (r & -> & _). simpl.
    unfold pd.key_cells. by rewrite length_map.
Qed.

(** The dimension of [cols]: the distinct tuples, numbered. *)
Lemma dimension_spec cols id core :
  NoDup (pd.columns core) → rectangular core →
  Forall (λ c, c ∈ pd.columns core) cols → id ∉ cols →
  dimension cols id core
  = Return (pd.mkDataFrame (cols ++ [id])
              (numbered 0 (distinct_tuples_of cols core))).
Proof.
  intros Hnd Hrect Hcols Hid. unfold dimension.
  rewrite (getitem_list_present _ _ Hnd Hrect Hcols). simpl.
  rewrite drop_duplicates_present by (simpl; by apply list.Forall_forall).
  simpl. unfold pd.setitem, pd.index_plus, pd.reset_index, pd.index, pd.cells.
  simpl.
  set (rs := map _ (pd.rows core)).
  assert (keep_first (λ r : Z * list pd.value, pd.cells_in cols cols r.2) [] rs
          = keep_first snd [] rs) as ->.
  { apply keep_first_ext. intros a Ha. unfold rs in Ha.
    apply list_elem_of_fmap in Ha as (r & -> & _). simpl.
    apply cells_in_all. unfold pd.key_cells. by rewrite length_map. }
  fold (distinct_tuples_of cols core).
  set (ts := distinct_tuples_of cols core).
  unfold pd.with_range_index.
  rewrite fst_zip by (rewrite length_seqZ; lia).
  rewrite decide_True by (rewrite length_map, length_zip, length_seqZ; lia).
  rewrite decide_False by done.
  by rewrite numbered_of_setitem.
Qed.

(** ** Frames that extend a frame *)

Lemma extends_refl d : extends d d.
Proof.
  split; [exists []; by rewrite app_nil_r|].
  apply Forall2_same_length_lookup_2; [done|]. intros i cs cs' H1 H2.
  exists []. rewrite app_nil_r. congruence.
Qed.

Lemma extends_trans d1 d2 d3 : extends d1 d2 → extends d2 d3 → extends d1 d3.
Proof.
  intros [[E1 HE1] H12] [[E2 HE2] H23]. split.
  - exists (E1 ++ E2). by rewrite HE2, HE1, <- app_assoc.
  - eapply list.Forall2_trans; [|exact H12|exact H23].
    intros cs1 cs2 cs3 [x ->] [y ->]. exists (x ++ y). by rewrite <- app_assoc.
Qed.

Lemma extends_length d d' :
  extends d d' → length (pd.rows d') = length (pd.rows d).
Proof.
  intros [_ H]. apply list.Forall2_length in H. unfold pd.cells in H.
  rewrite !length_fmap in H. done.
Qed.

(** The cells under the labels of [d] are the same in [d']. *)
Lemma extends_tuples on d d' :
  rectangular d → extends d d' → Forall (λ k, k ∈ pd.columns d) on →
  tuples on d' = tuples on d.
Proof.
  intros Hrect [[E HE] H] Hon. unfold tuples. rewrite HE.
  unfold rectangular in Hrect. revert Hrect.
  induction H as [|cs cs' l l' [x ->] _ IH]; intros Hrect; [done|].
  apply list.Forall_cons in Hrect as [Hlen Hrect]. simpl.
  rewrite IH by done. f_equal. by apply key_cells_app.
Qed.

Lemma extends_column k d d' :
  rectangular d → extends d d' → k ∈ pd.columns d →
  pd.column k d' = pd.column k d.
Proof.
  intros Hrect Hext Hk.
  assert (tuples [k] d' = tuples [k] d) as Ht.
  { apply extends_tuples; [done..|]. by constructor. }
  unfold tuples, pd.key_cells in Ht. simpl in Ht.
  unfold pd.column.
  apply (f_equal (map (λ l, default pd.NaN (head l)))) in Ht.
  by rewrite !map_map in Ht.
Qed.

(** Assigning under a new label extends the frame. *)
Lemma setitem_new key vals df :
  key ∉ pd.columns df → length vals = length (pd.rows df) →
  ∃ d', pd.setitem key vals df = Return d'
        ∧ pd.columns d' = pd.columns df ++ [key]
        ∧ extends df d'
        ∧ (rectangular df → rectangular d').
Proof.
  intros Hkey Hlen. unfold pd.setitem.
  rewrite decide_True by done. rewrite decide_False by done.
  eexists. split; [done|]. split; [done|].
  assert (Forall2 (λ cs cs', ∃ v, cs' = cs ++ [v]) (pd.cells df)
            (zip_with (λ r v, (r.1, pd.set_cell key v (pd.columns df) r.2))
               (pd.rows df) vals).*2) as HF.
  { unfold pd.cells. revert vals Hlen.
    induction (pd.rows df) as [|r rs IH]; intros [|v vals] Hlen; try done.
    simpl. constructor; [|apply IH; simpl in Hlen; lia].
    exists v. unfold pd.set_cell. by rewrite decide_False. }
  split.
  - split; [by exists [key]|]. unfold pd.cells at 2. simpl.
    eapply list.Forall2_impl; [exact HF|]. intros ? ? [v ->]. by eexists.
  - intros Hrect. unfold rectangular, pd.cells at 1. simpl.
    unfold rectangular in Hrect. revert HF Hrect.
    generalize (zip_with (λ r v, (r.1, pd.set_cell key v (pd.columns df) r.2))
                  (pd.rows df) vals).*2.
    generalize (pd.cells df).
    induction 1 as [|cs cs' l l' [v ->] _ IH]; intros Hrect; constructor.
    + apply list.Forall_cons in Hrect as [Hl _]. rewrite !length_app. simpl. lia.
    + apply list.Forall_cons in Hrect as [_ Hr]. by apply IH.
Qed.

Lemma forallb_of_Forall {A : Type} (f : A → bool) l :
  Forall (λ x, f x = true) l → forallb f l = true.
Proof. induction 1 as [|x l Hx _ IH]; simpl; [done|]. by rewrite Hx, IH. Qed.

Lemma column_length c df : length (pd.column c df) = length (pd.rows df).
Proof. unfold pd.column, pd.cells. by rewrite length_map, length_fmap. Qed.

(** A date part assigned under a new label. *)
Lemma with_dt_spec name field dim :
  NoDup (pd.columns dim) → FECHA ∈ pd.columns dim → name ∉ pd.columns dim →
  Forall (λ v, pd.is_datetimelike v = true) (pd.column FECHA dim) →
  ∃ d', with_dt name field dim = Return d'
        ∧ pd.columns d' = pd.columns dim ++ [name]
        ∧ extends dim d'
        ∧ (rectangular dim → rectangular d').
Proof.
  intros Hnd Hf Hname Hdt. unfold with_dt.
  rewrite getitem_once by (by rewrite filter_eq_once). simpl.
  rewrite (forallb_of_Forall _ _ Hdt). simpl.
  apply setitem_new; [done|]. by rewrite length_map, column_length.
Qed.

(** ** Joining against a table with distinct keys *)

Lemma filter_key_unique {A K : Type} `{EqDecision K} (key : A → K) k l :
  NoDup (map key l) → k ∈ map key l →
  ∃ a, filter (λ x, key x = k) l = [a].
Proof.
  induction l as [|a l IH]; simpl; intros Hnd Hk.
  { by apply elem_of_nil in Hk. }
  apply list.NoDup_cons in Hnd as [Ha Hnd].
  destruct (decide (key a = k)) as [<-|Hne].
  - exists a. rewrite filter_cons_True by done. f_equal.
    clear IH Hk Hnd. induction l as [|b l IH]; [done|].
    simpl in Ha. apply not_elem_of_cons in Ha as [? ?].
    rewrite filter_cons_False by done. by apply IH.
  - rewrite filter_cons_False by done. apply IH; [done|].
    apply elem_of_cons in Hk as [?|?]; [congruence | done].
Qed.

Lemma filter_none {A : Type} (P : A → Prop) `{∀ x, Decision (P x)} l :
  Forall (λ x, ¬ P x) l → filter P l = [].
Proof.
  induction 1 as [|x l Hx _ IH]; [done|]. by rewrite filter_cons_False.
Qed.

Lemma merge_spec left right on :
  NoDup (pd.columns left) → NoDup (pd.columns right) →
  Forall (λ k, k ∈ pd.columns left ∧ k ∈ pd.columns right) on →
  (∀ c, c ∈ pd.columns left → c ∈ pd.columns right → c ∈ on) →
  NoDup (tuples on right) →
  (∀ x, x ∈ tuples on left → x ∈ tuples on right) →
  ∃ m, pd.merge left right on = Return m
       ∧ pd.columns m
         = pd.columns left ++ filter (λ c, c ∉ on) (pd.columns right)
       ∧ extends left m.
Proof.
  intros Hl Hr Hon Hover Hkeys Hin. unfold pd.merge.
  rewrite (filter_none (λ k, k ∉ pd.columns left ∨ k ∉ pd.columns right)).
  2:{ eapply list.Forall_impl; [exact Hon|]. intros k [? ?] [?|?]; done. }
  rewrite filter_none.
  2:{ eapply list.Forall_impl; [exact Hon|]. intros k [? ?].
      rewrite !filter_eq_once by done. simpl. intros [?|?]; done. }
  assert (filter (λ c, (c ∉ on) ∧ (c ∈ pd.columns right)) (pd.columns left) = [])
    as ->.
  { apply filter_none. apply list.Forall_forall. intros c Hc [Hn Hcr].
    apply Hn. by apply Hover. }
  eexists. split; [done|]. simpl.
  assert (∀ cols : list string,
            map (λ c, if decide (c ∈ []) then c +:+ "_x" else c) cols = cols)
    as ->.
  { intros cols. rewrite <- (map_id cols) at 2. apply map_ext. intros c.
    by rewrite decide_False by apply not_elem_of_nil. }
  assert (∀ cols : list string,
            map (λ c, if decide (c ∈ []) then c +:+ "_y" else c) cols = cols)
    as ->.
  { intros cols. rewrite <- (map_id cols) at 2. apply map_ext. intros c.
    by rewrite decide_False by apply not_elem_of_nil. }
  split; [done|]. split; [by eexists|].
  unfold pd.cells at 2. simpl. rewrite with_range_index_snd.
  unfold tuples in Hin, Hkeys.
  induction (pd.cells left) as [|cs css IH]; simpl; [constructor|].
  destruct (filter_key_unique (pd.key_cells on (pd.columns right))
              (pd.key_cells on (pd.columns left) cs) (pd.cells right))
    as [r0 ->]; [done | apply Hin; by left |].
  simpl. constructor; [by eexists|].
  apply IH. intros x Hx. apply Hin. by right.
Qed.

Lemma filter_key_at_most_one {A K : Type} `{EqDecision K} (key : A → K) k l :
  NoDup (map key l) → (length (filter (λ x, key x = k) l) ≤ 1)%nat.
Proof.
  intros Hnd. destruct (decide (k ∈ map key l)) as [Hk|Hk].
  - by destruct (filter_key_unique key k l Hnd Hk) as [a ->].
  - rewrite filter_none; [simpl; lia|].
    apply list.Forall_forall. intros x Hx He. apply Hk. rewrite <- He.
    by apply (list_elem_of_fmap_2 key).
Qed.

(** An inner join against a table whose keys are distinct never adds
    rows, whatever the labels of the two sides. *)
Lemma merge_rows_at_most left right on m :
  pd.merge left right on = Return m →
  NoDup (tuples on right) →
  (length (pd.rows m) ≤ length (pd.rows left))%nat.
Proof.
  unfold pd.merge, tuples. intros Hm Hnd.
  destruct (filter _ on); [|done]. destruct (filter _ on); [|done].
  injection Hm as <-. simpl. rewrite length_with_range_index.
  replace (length (pd.rows left)) with (length (pd.cells left))
    by (unfold pd.cells; apply length_fmap).
  induction (pd.cells left) as [|cs css IH]; simpl; [lia|].
  rewrite length_app, length_map.
  pose proof (filter_key_at_most_one (pd.key_cells on (pd.columns right))
                (pd.key_cells on (pd.columns left) cs) (pd.cells right) Hnd).
  lia.
Qed.

Lemma filter_not_in_app (cols X : list string) :
  NoDup (cols ++ X) → filter (λ c, c ∉ cols) (cols ++ X) = X.
Proof.
  intros Hnd. apply list.NoDup_app in Hnd as (_ & Hdis & _).
  rewrite list.filter_app. rewrite filter_none.
  2:{ apply list.Forall_forall. intros c Hc Hn. done. }
  simpl. clear -Hdis.
  induction X as [|x X IH]; [done|].
  rewrite filter_cons_True.
  - f_equal. apply IH. intros c Hc Hx. apply (Hdis c Hc). by right.
  - intros Hx. apply (Hdis x Hx). by left.
Qed.

(** ** The tables of a ready frame *)

Ltac decide_closed := apply (bool_decide_unpack _); vm_compute; exact I.


Lemma keyed_rectangular cols id core : rectangular (keyed cols id core).
Proof.
  apply numbered_rectangular. apply (distinct_tuples_of_spec cols core).
Qed.

Lemma keyed_tuples cols id core t :
  NoDup cols → extends (keyed cols id core) t →
  tuples cols t = distinct_tuples_of cols core.
Proof.
  intros Hnd Hext.
  rewrite (extends_tuples cols _ _ (keyed_rectangular cols id core) Hext).
  - unfold tuples, keyed, pd.cells. simpl.
    apply numbered_tuples; [done|]. apply (distinct_tuples_of_spec cols core).
  - simpl. apply list.Forall_forall. intros k Hk. apply elem_of_app. by left.
Qed.

(** A table that extends the keyed distinct tuples is a dimension. *)
Lemma keyed_is_dimension cols id core t :
  NoDup cols → id ∉ cols → extends (keyed cols id core) t →
  is_dimension cols id core t.
Proof.
  intros Hnd Hid Hext.
  destruct (distinct_tuples_of_spec cols core) as (Hts & Hiff & Hlen).
  pose proof (keyed_tuples _ _ _ _ Hnd Hext) as Htup.
  assert (length (pd.rows t) = length (distinct_tuples_of cols core)) as Hn.
  { rewrite (extends_length _ _ Hext). simpl. apply numbered_length. }
  split; [|split; [|split]].
  - rewrite (extends_column id _ _ (keyed_rectangular cols id core) Hext).
    + unfold pd.column, keyed, pd.cells. simpl.
      rewrite (numbered_ids id cols 0 _ Hid Hlen). by rewrite Hn.
    + simpl. apply elem_of_app. right. by left.
  - by rewrite Htup.
  - intros x. by rewrite Htup.
  - rewrite Hn. apply Permutation_length. apply NoDup_Permutation; [done| |].
    + apply NoDup_remove_dups.
    + intros x. by rewrite elem_of_remove_dups.
Qed.

Lemma merge_dimension core m G cols id E t :
  NoDup (pd.columns core) → rectangular core →
  Forall (λ c, c ∉ pd.columns core) made_cols →
  Forall (λ c, c ∈ pd.columns core) cols →
  pd.columns m = pd.columns core ++ G → extends core m →
  pd.columns t = cols ++ id :: E → extends (keyed cols id core) t →
  NoDup G → Forall (λ c, c ∈ made_cols) G →
  NoDup (cols ++ id :: E) → Forall (λ c, c ∈ made_cols) (id :: E) →
  Forall (λ c, c ∉ id :: E) G →
  ∃ m', pd.merge m t cols = Return m'
        ∧ pd.columns m' = pd.columns core ++ (G ++ id :: E)
        ∧ extends core m'.
Proof.
  intros Hnd Hrect Hmade Hcols Hm Hext Ht Hkeyed HG HGm HtN HEm Hdis.
  rewrite list.Forall_forall in Hmade, Hcols, HGm, HEm, Hdis.
  pose proof HtN as (Hc & _ & _)%list.NoDup_app.
  destruct (merge_spec m t cols) as (m' & Hm' & Hcm' & Hext').
  - rewrite Hm. apply list.NoDup_app. split; [done|]. split; [|done].
    intros c Hc1 Hc2. by apply (Hmade c (HGm c Hc2)).
  - by rewrite Ht.
  - apply list.Forall_forall. intros k Hk. rewrite Hm, Ht. split.
    + apply elem_of_app. left. by apply Hcols.
    + apply elem_of_app. by left.
  - rewrite Hm, Ht. intros c Hc1 Hc2.
    apply elem_of_app in Hc2 as [?|Hc2]; [done|]. exfalso.
    apply elem_of_app in Hc1 as [Hc1|Hc1].
    + by apply (Hmade c (HEm c Hc2)).
    + by apply (Hdis c Hc1).
  - rewrite (keyed_tuples _ _ _ _ Hc Hkeyed).
    apply (distinct_tuples_of_spec cols core).
  - intros x. rewrite (keyed_tuples _ _ _ _ Hc Hkeyed).
    rewrite (extends_tuples cols _ _ Hrect Hext) by (by apply list.Forall_forall).
    apply (distinct_tuples_of_spec cols core).
  - exists m'. split; [done|]. split; [|by eapply extends_trans].
    rewrite Hcm', Hm, Ht, filter_not_in_app by done. by rewrite <- app_assoc.
Qed.

Lemma getitem_list_rows keys df :
  NoDup (pd.columns df) → Forall (λ c, c ∈ pd.columns df) keys →
  ∃ d, pd.getitem_list keys df = Return d
       ∧ pd.columns d = keys
       ∧ length (pd.rows d) = length (pd.rows df).
Proof.
  intros Hnd Hkeys. unfold pd.getitem_list.
  rewrite (filter_absent_nil _ _ Hkeys). eexists. split; [done|]. simpl.
  split; [|by rewrite length_map].
  induction Hkeys as [|k keys Hk _ IH]; [done|]. simpl.
  by rewrite (filter_eq_once _ _ Hnd Hk), IH.
Qed.

Lemma sql_ok_NoDup df : NoDup (pd.columns df) → sql_ok df = Return df.
Proof. intros H. unfold sql_ok. by rewrite decide_True. Qed.

Lemma keyed_time_dates core :
  NoDup (pd.columns core) → rectangular core → FECHA ∈ pd.columns core →
  Forall (λ v, pd.is_datetimelike v = true) (pd.column FECHA core) →
  Forall (λ v, pd.is_datetimelike v = true)
    (pd.column FECHA (keyed dim_time_cols "TIME_ID" core)).
Proof.
  intros Hnd Hrect Hf Hdt.
  destruct (distinct_tuples_of_spec dim_time_cols core) as (_ & Hiff & Hlen).
  assert (tuples dim_time_cols (keyed dim_time_cols "TIME_ID" core)
          = distinct_tuples_of dim_time_cols core) as Ht.
  { apply (keyed_tuples _ "TIME_ID"); [decide_closed | apply extends_refl]. }
  unfold tuples, pd.key_cells, dim_time_cols in Ht. simpl in Ht.
  unfold pd.column. apply list.Forall_forall. intros v Hv.
  apply list_elem_of_fmap in Hv as (cs & -> & Hcs).
  assert ([pd.cell FECHA (pd.columns (keyed [FECHA] "TIME_ID" core)) cs]
          ∈ distinct_tuples_of [FECHA] core) as Hin.
  { rewrite <- Ht.
    by apply (list_elem_of_fmap_2
                (λ cs, [pd.cell FECHA (pd.columns (keyed [FECHA] "TIME_ID" core)) cs])). }
  apply Hiff in Hin. unfold tuples, pd.key_cells in Hin. simpl in Hin.
  apply list_elem_of_fmap in Hin as (cs0 & [= Heq] & Hcs0).
  change (pd.columns (keyed dim_time_cols "TIME_ID" core))
    with [FECHA; "TIME_ID"].
  rewrite Heq.
  rewrite list.Forall_forall in Hdt. apply Hdt. unfold pd.column.
  by apply list_elem_of_fmap_2.
Qed.

(** A ready frame yields its five tables: the time dimension extends the
    keyed distinct dates, the other dimensions are the keyed distinct
    tuples, and the fact table has the fact columns and one row per row of
    the integrated frame. *)
Lemma semantic_tables_spec core :
  core_ready core →
  ∃ T, semantic_tables core = Return T
       ∧ extends (keyed dim_time_cols "TIME_ID" core) (DIM_TIME T)
       ∧ DIM_EMPRESA T = keyed dim_empresa_cols "EMPRESA_ID" core
       ∧ DIM_PAIS T = keyed dim_pais_cols "PAIS_ID" core
       ∧ DIM_MERCANCIA T = keyed dim_mercancia_cols "MERCANCIA_ID" core
       ∧ pd.columns (FACT_EXPORTACIONES T) = fact_cols
       ∧ length (pd.rows (FACT_EXPORTACIONES T)) = length (pd.rows core).
Proof.
  intros (Hne & Hnd & Hrect & Hread & Hmade & Hdt).
  assert (∀ l, Forall (λ c, c ∈ read_cols) l →
               Forall (λ c, c ∈ pd.columns core) l) as Hsub.
  { intros l Hl. rewrite list.Forall_forall in Hread.
    eapply list.Forall_impl; [exact Hl|]. intros c Hc. by apply Hread. }
  unfold semantic_tables.
  rewrite !dimension_spec by (done || decide_closed || (apply Hsub; decide_closed)).
  fold (keyed dim_time_cols "TIME_ID" core)
       (keyed dim_empresa_cols "EMPRESA_ID" core)
       (keyed dim_pais_cols "PAIS_ID" core)
       (keyed dim_mercancia_cols "MERCANCIA_ID" core).
  cbn [mbind outcome_bind].
  set (t0 := keyed dim_time_cols "TIME_ID" core).
  assert (Forall (λ v, pd.is_datetimelike v = true) (pd.column FECHA t0)) as Hd0.
  { apply keyed_time_dates; try done.
    rewrite list.Forall_forall in Hread. apply Hread. decide_closed. }
  pose proof (keyed_rectangular dim_time_cols "TIME_ID" core) as Hr0.
  fold t0 in Hr0.
  destruct (with_dt_spec "YEAR" (λ y _ _, y) t0)
    as (t1 & -> & Hc1 & He1 & Hr1); [decide_closed..|done|].
  cbn [mbind outcome_bind]. simpl in Hc1. specialize (Hr1 Hr0).
  assert (Forall (λ v, pd.is_datetimelike v = true) (pd.column FECHA t1)) as Hd1.
  { rewrite (extends_column FECHA _ _ Hr0 He1); [done | decide_closed]. }
  destruct (with_dt_spec "MONTH" (λ _ m _, m) t1)
    as (t2 & -> & Hc2 & He2 & Hr2); [rewrite Hc1; decide_closed..|done|].
  cbn [mbind outcome_bind]. rewrite Hc1 in Hc2. simpl in Hc2.
  specialize (Hr2 Hr1).
  assert (Forall (λ v, pd.is_datetimelike v = true) (pd.column FECHA t2)) as Hd2.
  { rewrite (extends_column FECHA _ _ Hr1 He2);
      [done | rewrite Hc1; decide_closed]. }
  destruct (with_dt_spec "DAY" (λ _ _ d, d) t2)
    as (t3 & -> & Hc3 & He3 & Hr3); [rewrite Hc2; decide_closed..|done|].
  cbn [mbind outcome_bind]. rewrite Hc2 in Hc3. simpl in Hc3.
  assert (extends t0 t3) as He03.
  { eapply extends_trans; [exact He1|]. eapply extends_trans; eauto. }
  rewrite (sql_ok_NoDup t3) by (rewrite Hc3; decide_closed).
  cbn [mbind outcome_bind].
  rewrite !sql_ok_NoDup by decide_closed.
  cbn [mbind outcome_bind].
  destruct (merge_dimension core core [] dim_time_cols "TIME_ID"
              ["YEAR"; "MONTH"; "DAY"] t3)
    as (m1 & -> & Hm1 & Hx1);
    [done | done | done | apply Hsub; decide_closed | by rewrite app_nil_r
    | apply extends_refl | done | done | decide_closed..|].
  cbn [mbind outcome_bind]. simpl in Hm1.
  destruct (merge_dimension core m1 ["TIME_ID"; "YEAR"; "MONTH"; "DAY"]
              dim_empresa_cols "EMPRESA_ID" []
              (keyed dim_empresa_cols "EMPRESA_ID" core))
    as (m2 & -> & Hm2 & Hx2);
    [done | done | done | apply Hsub; decide_closed | done | done | done
    | apply extends_refl | decide_closed..|].
  cbn [mbind outcome_bind]. simpl in Hm2.
  destruct (merge_dimension core m2
              ["TIME_ID"; "YEAR"; "MONTH"; "DAY"; "EMPRESA_ID"]
              dim_pais_cols "PAIS_ID" []
              (keyed dim_pais_cols "PAIS_ID" core))
    as (m3 & -> & Hm3 & Hx3);
    [done | done | done | apply Hsub; decide_closed | done | done | done
    | apply extends_refl | decide_closed..|].
  cbn [mbind outcome_bind]. simpl in Hm3.
  destruct (merge_dimension core m3
              ["TIME_ID"; "YEAR"; "MONTH"; "DAY"; "EMPRESA_ID"; "PAIS_ID"]
              dim_mercancia_cols "MERCANCIA_ID" []
              (keyed dim_mercancia_cols "MERCANCIA_ID" core))
    as (m4 & -> & Hm4 & Hx4);
    [done | done | done | apply Hsub; decide_closed | done | done | done
    | apply extends_refl | decide_closed..|].
  cbn [mbind outcome_bind]. simpl in Hm4.
  destruct (getitem_list_rows fact_cols m4) as (f & -> & Hcf & Hlf).
  { rewrite Hm4. apply list.NoDup_app. split; [done|]. split; [|decide_closed].
    rewrite list.Forall_forall in Hmade. intros c Ha Hb. by apply (Hmade c). }
  { rewrite Hm4. apply list.Forall_forall. intros c Hc.
    apply elem_of_app.
    unfold fact_cols in Hc. rewrite !elem_of_cons, elem_of_nil in Hc.
    rewrite list.Forall_forall in Hread.
    destruct Hc as [->|[->|[->|[->|Hc]]]];
      [right; decide_closed..|].
    left. apply Hread.
    destruct Hc as [->|[->|[->|[->|[]]]]]; decide_closed. }
  cbn [mbind outcome_bind].
  rewrite (sql_ok_NoDup f) by (rewrite Hcf; decide_closed).
  cbn [mbind outcome_bind].
  eexists. split; [done|]. simpl.
  split; [done|]. repeat (split; [done|]).
  by rewrite Hlf, (extends_length _ _ Hx4).
Qed.

(** [build_semantic_layer] on a ready frame: it returns, and the store
    holds the five tables of [semantic_tables]. *)
Lemma build_semantic_layer_ready core_df w core :
  objects w !! core_df = Some core → core_ready core →
  ∃ w' T,
    build_semantic_layer core_df w = (Return (), w')
    ∧ semantic_tables core = Return T
    ∧ dw w' !! "DIM_TIME" = Some (DIM_TIME T)
    ∧ dw w' !! "DIM_EMPRESA" = Some (DIM_EMPRESA T)
    ∧ dw w' !! "DIM_PAIS" = Some (DIM_PAIS T)
    ∧ dw w' !! "DIM_MERCANCIA" = Some (DIM_MERCANCIA T)
    ∧ dw w' !! "FACT_EXPORTACIONES" = Some (FACT_EXPORTACIONES T).
Proof.
  intros Hw Hready.
  destruct (semantic_tables_spec core Hready) as (T & HT & _).
  destruct (build_semantic_layer_tables core_df w core T Hw) as (objs & Hrun);
    [apply Hready | done |].
  eexists _, T. split; [exact Hrun|]. split; [done|]. simpl.
  repeat split;
    repeat (rewrite lookup_insert_ne by done); by rewrite lookup_insert_eq.
Qed.

(** C4: built from a ready (hence non-empty) integrated frame, each of the
    four dimension tables has the surrogate keys 1, 2, ..., n in row order,
    n being its number of rows, and that number is the number of distinct
    tuples of the integrated frame under the dimension's labels. *)
Theorem dimensions_keys_sequential core_df w core :
  objects w !! core_df = Some core → core_ready core →
  ∃ w', build_semantic_layer core_df w = (Return (), w')
    ∧ (∃ t, dw w' !! "DIM_TIME" = Some t
            ∧ is_dimension dim_time_cols "TIME_ID" core t)
    ∧ (∃ t, dw w' !! "DIM_EMPRESA" = Some t
            ∧ is_dimension dim_empresa_cols "EMPRESA_ID" core t)
    ∧ (∃ t, dw w' !! "DIM_PAIS" = Some t
            ∧ is_dimension dim_pais_cols "PAIS_ID" core t)
    ∧ (∃ t, dw w' !! "DIM_MERCANCIA" = Some t
            ∧ is_dimension dim_mercancia_cols "MERCANCIA_ID" core t).
Proof.
  intros Hw Hready.
  destruct (build_semantic_layer_ready _ _ _ Hw Hready)
    as (w' & T & Hrun & HT & Ht & He & Hp & Hm & _).
  destruct (semantic_tables_spec core Hready)
    as (T' & HT' & Hxt & Hxe & Hxp & Hxm & _).
  assert (T' = T) as -> by congruence.
  exists w'. split; [done|].
  split; [|split; [|split]]; eexists; (split; [eassumption|]).
  - apply keyed_is_dimension; [decide_closed | decide_closed | done].
  - rewrite Hxe. apply keyed_is_dimension;
      [decide_closed | decide_closed | apply extends_refl].
  - rewrite Hxp. apply keyed_is_dimension;
      [decide_closed | decide_closed | apply extends_refl].
  - rewrite Hxm. apply keyed_is_dimension;
      [decide_closed | decide_closed | apply extends_refl].
Qed.

Lemma getitem_list_inv keys df d :
  pd.getitem_list keys df = Return d →
  Forall (λ c, c ∈ pd.columns df) keys
  ∧ length (pd.rows d) = length (pd.rows df).
Proof.
  unfold pd.getitem_list. intros H.
  destruct (filter _ keys) eqn:E; [|done]. injection H as <-. simpl.
  split; [|by rewrite length_map].
  apply list.Forall_forall. intros c Hc.
  destruct (decide (c ∈ pd.columns df)) as [|Hn]; [done|].
  assert (c ∈ filter (λ k, k ∉ pd.columns df) keys) as Hin
    by by apply list_elem_of_filter.
  rewrite E in Hin. by apply elem_of_nil in Hin.
Qed.

Lemma dimension_inv cols id core d :
  NoDup (pd.columns core) → rectangular core → id ∉ cols →
  dimension cols id core = Return d → d = keyed cols id core.
Proof.
  intros Hnd Hrect Hid Hd.
  assert (Forall (λ c, c ∈ pd.columns core) cols) as Hcols.
  { unfold dimension in Hd.
    destruct (pd.getitem_list cols core) as [sel|] eqn:E; [|done].
    by apply getitem_list_inv in E as [? _]. }
  rewrite dimension_spec in Hd by done. by injection Hd as <-.
Qed.

Lemma with_dt_inv name field d d' :
  name ∉ pd.columns d → with_dt name field d = Return d' →
  extends d d' ∧ pd.columns d' = pd.columns d ++ [name].
Proof.
  intros Hname H. unfold with_dt in H.
  destruct (pd.getitem FECHA d) as [sel|]; [|done]. simpl in H.
  destruct (pd.dt field sel) as [part|]; [|done]. simpl in H.
  destruct (decide (length part = length (pd.rows d))) as [Hlen|Hlen].
  - destruct (setitem_new name part d Hname Hlen) as (d'' & Hd'' & Hc & He & _).
    rewrite Hd'' in H. by injection H as <-.
  - unfold pd.setitem in H. by rewrite decide_False in H.
Qed.

(** C5: whenever the five tables can be computed from an integrated frame
    (distinct labels, one cell per label), [build_semantic_layer] returns
    and the fact table it writes has at most as many rows as the
    integrated frame: each of the four inner joins is against a dimension
    whose tuples are distinct, so none adds a row. *)
Theorem fact_rows_at_most core_df w core T :
  objects w !! core_df = Some core →
  pd.empty core = false →
  NoDup (pd.columns core) → rectangular core →
  semantic_tables core = Return T →
  ∃ w', build_semantic_layer core_df w = (Return (), w')
        ∧ dw w' !! "FACT_EXPORTACIONES" = Some (FACT_EXPORTACIONES T)
        ∧ (length (pd.rows (FACT_EXPORTACIONES T)) ≤ length (pd.rows core))%nat.
Proof.
  intros Hw Hne Hnd Hrect HT.
  destruct (build_semantic_layer_tables core_df w core T Hw Hne HT)
    as (objs & Hrun).
  eexists. split; [exact Hrun|]. simpl.
  split; [by rewrite lookup_insert_eq|]. clear Hrun objs Hw.
  unfold semantic_tables in HT. do 17 take HT. injection HT as <-. simpl.
  repeat match goal with
         | H : sql_ok _ = Return _ |- _ => apply sql_ok_inv in H as [-> _]
         end.
  repeat match goal with
         | H : dimension _ _ _ = Return _ |- _ =>
             apply dimension_inv in H; [subst | done | done | decide_closed]
         end.
  match goal with
  | H : with_dt "YEAR" _ _ = Return _ |- _ =>
      apply with_dt_inv in H as [He1 Hc1]; [|decide_closed]
  end.
  match goal with
  | H : with_dt "MONTH" _ _ = Return _ |- _ =>
      apply with_dt_inv in H as [He2 Hc2]; [|rewrite Hc1; decide_closed]
  end.
  match goal with
  | H : with_dt "DAY" _ _ = Return _ |- _ =>
      apply with_dt_inv in H as [He3 Hc3]; [|rewrite Hc2, Hc1; decide_closed]
  end.
  do 3 match goal with
       | H : pd.merge _ (keyed ?cols ?id core) _ = Return _ |- _ =>
           apply merge_rows_at_most in H;
           [| rewrite (keyed_tuples cols id core);
              [apply (distinct_tuples_of_spec cols core)
              | decide_closed | apply extends_refl]]
       end.
  match goal with
  | H : pd.merge core _ _ = Return _ |- _ => apply merge_rows_at_most in H
  end.
  - match goal with
    | H : pd.getitem_list _ _ = Return _ |- _ =>
        apply getitem_list_inv in H as [_ ->]
    end.
    lia.
  - rewrite (keyed_tuples dim_time_cols "TIME_ID" core);
      [apply (distinct_tuples_of_spec dim_time_cols core) | decide_closed |].
    eapply extends_trans; [exact He1|].
    eapply extends_trans; [exact He2 | exact He3].
Qed.

(** C8: built from a ready integrated frame, the fact table has exactly as
    many rows as the integrated frame: every record, also one with a null
    date or null attributes, finds its tuple in each dimension. *)
Theorem fact_rows_exact core_df w core :
  objects w !! core_df = Some core → core_ready core →
  ∃ w' fact,
    build_semantic_layer core_df w = (Return (), w')
    ∧ dw w' !! "FACT_EXPORTACIONES" = Some fact
    ∧ pd.columns fact = fact_cols
    ∧ length (pd.rows fact) = length (pd.rows core).
Proof.
  intros Hw Hready.
  destruct (build_semantic_layer_ready _ _ _ Hw Hready)
    as (w' & T & Hrun & HT & _ & _ & _ & _ & Hf).
  destruct (semantic_tables_spec core Hready) as (T' & HT' & Hspec).
  assert (T' = T) as -> by congruence.
  exists w', (FACT_EXPORTACIONES T). split; [done|]. split; [done|].
  by destruct Hspec as (_ & _ & _ & _ & -> & ->).
Qed.

Lemma dimensions_keys_sequential_witness :
  ∃ w', build_semantic_layer 0%nat ex_world = (Return (), w')
    ∧ (∃ t, dw w' !! "DIM_TIME" = Some t
            ∧ is_dimension dim_time_cols "TIME_ID" ex_core t)
    ∧ (∃ t, dw w' !! "DIM_EMPRESA" = Some t
            ∧ is_dimension dim_empresa_cols "EMPRESA_ID" ex_core t)
    ∧ (∃ t, dw w' !! "DIM_PAIS" = Some t
            ∧ is_dimension dim_pais_cols "PAIS_ID" ex_core t)
    ∧ (∃ t, dw w' !! "DIM_MERCANCIA" = Some t
            ∧ is_dimension dim_mercancia_cols "MERCANCIA_ID" ex_core t).
Proof.
  apply (dimensions_keys_sequential 0%nat ex_world ex_core).
  - reflexivity.
  - unfold core_ready, rectangular. decide_closed.
Defined.

Lemma fact_rows_at_most_witness :
  ∃ w', build_semantic_layer 0%nat ex_world = (Return (), w')
        ∧ dw w' !! "FACT_EXPORTACIONES" = Some (FACT_EXPORTACIONES ex_tables)
        ∧ (length (pd.rows (FACT_EXPORTACIONES ex_tables))
           ≤ length (pd.rows ex_core))%nat.
Proof.
  apply (fact_rows_at_most 0%nat ex_world ex_core ex_tables).
  - reflexivity.
  - reflexivity.
  - decide_closed.
  - unfold rectangular. decide_closed.
  - vm_compute. reflexivity.
Defined.

Lemma fact_rows_exact_witness :
  ∃ w' fact,
    build_semantic_layer 0%nat ex_world = (Return (), w')
    ∧ dw w' !! "FACT_EXPORTACIONES" = Some fact
    ∧ pd.columns fact = fact_cols
    ∧ length (pd.rows fact) = length (pd.rows ex_core).
Proof.
  apply (fact_rows_exact 0%nat ex_world ex_core).
  - reflexivity.
  - unfold core_ready, rectangular. decide_closed.
Defined.

Example build_semantic_layer_ex :
  (λ t, (pd.columns t, pd.rows t))
    <$> dw (build_semantic_layer 0%nat ex_world).2 !! "FACT_EXPORTACIONES"
  = Some (fact_cols,
          [(0, [pd.Numz 1; pd.Numz 1; pd.Numz 1; pd.Numz 1;
                pd.Numz 10; pd.Numz 3; pd.Numz 1; pd.Numz 100]);
           (1, [pd.Numz 2; pd.Numz 1; pd.Numz 2; pd.Numz 1;
                pd.Numz 0; pd.Numz 4; pd.Numz 2; pd.Numz 101]);
           (2, [pd.Numz 2; pd.Numz 2; pd.Numz 1; pd.Numz 2;
                pd.Numz 5; pd.Numz 4; pd.Numz 2; pd.Numz 102])]).
Proof. vm_compute. reflexivity. Qed.

(** * Further properties *)

(** ** Stage 1 *)

Lemma io_bind_unfold {A B : Type} (m : IO A) (f : A → IO B) s :
  (m ≫= f) s
  = match m s with
    | (Return a, s') => f a s'
    | (Raise e, s') => (Raise e, s')
    end.
Proof. done. Qed.

Lemma in_run_logging lv msg s :
  in_run (logging lv msg) s
  = (Return (),
     mkSite (raw s) (staging s)
       (mkWorld (log (run s) ++ [(lv, msg)]) (core_parquet (run s))
          (objects (run s)) (dw (run s)))).
Proof. done. Qed.

Lemma read_excel_to_staging_skip month file_name s :
  raw s !! (month, file_name) = None →
  read_excel_to_staging month file_name s
  = (Return pd.DataFrame_new,
     mkSite (raw s) (staging s)
       (mkWorld
          (log (run s) ++
           [(INFO, [Lit "Leyendo archivo raw: "; Lit (raw_path month file_name)]);
            (WARNING, [Lit "Archivo no encontrado para "; Lit month; Lit ": ";
                       Lit (raw_path month file_name); Lit ". Saltando."])])
          (core_parquet (run s)) (objects (run s)) (dw (run s)))).
Proof.
  intros Hraw. unfold read_excel_to_staging.
  rewrite io_bind_unfold. unfold logging_info. rewrite in_run_logging.
  rewrite io_bind_unfold. unfold read_excel. simpl. rewrite Hraw.
  rewrite io_bind_unfold. unfold logging_warning. rewrite in_run_logging.
  simpl. unfold mret, IO_ret. by rewrite <- app_assoc.
Qed.

(** X1: a spreadsheet that is not on disk is skipped: the call returns the
    empty frame, logs the reading and the warning, and leaves the raw
    files, the staging snapshots and the rest of the state as they are. *)
Theorem read_excel_to_staging_missing month file_name s :
  raw s !! (month, file_name) = None →
  read_excel_to_staging month file_name s
  = (Return pd.DataFrame_new,
     mkSite (raw s) (staging s)
       (mkWorld
          (log (run s) ++
           [(INFO, [Lit "Leyendo archivo raw: "; Lit (raw_path month file_name)]);
            (WARNING, [Lit "Archivo no encontrado para "; Lit month; Lit ": ";
                       Lit (raw_path month file_name); Lit ". Saltando."])])
          (core_parquet (run s)) (objects (run s)) (dw (run s)))).
Proof.
  intros Hraw. unfold read_excel_to_staging.
  rewrite io_bind_unfold. unfold logging_info. rewrite in_run_logging.
  rewrite io_bind_unfold. unfold read_excel. simpl. rewrite Hraw.
  rewrite io_bind_unfold. unfold logging_warning. rewrite in_run_logging.
  simpl. unfold mret, IO_ret. by rewrite <- app_assoc.
Qed.

Lemma read_excel_to_staging_missing_witness :
  read_excel_to_staging "2025-02" "02_Exportaciones_2025_Febrero.xlsx" ex_site
  = (Return pd.DataFrame_new,
     mkSite (raw ex_site) (staging ex_site)
       (mkWorld
          (log (run ex_site) ++
           [(INFO, [Lit "Leyendo archivo raw: ";
                    Lit (raw_path "2025-02" "02_Exportaciones_2025_Febrero.xlsx")]);
            (WARNING, [Lit "Archivo no encontrado para "; Lit "2025-02"; Lit ": ";
                       Lit (raw_path "2025-02" "02_Exportaciones_2025_Febrero.xlsx");
                       Lit ". Saltando."])])
          (core_parquet (run ex_site)) (objects (run ex_site))
          (dw (run ex_site)))).
Proof.
  apply (read_excel_to_staging_missing "2025-02"
           "02_Exportaciones_2025_Febrero.xlsx" ex_site).
  vm_compute. reflexivity.
Defined.

(** A spreadsheet that cannot be read ends the call with its exception,
    after the first log line. *)
Lemma read_excel_to_staging_unreadable month file_name s e :
  raw s !! (month, file_name) = Some (Raise e) →
  (read_excel_to_staging month file_name s).1 = Raise e.
Proof.
  intros Hraw. unfold read_excel_to_staging.
  rewrite io_bind_unfold. unfold logging_info. rewrite in_run_logging.
  rewrite io_bind_unfold. unfold read_excel. simpl. by rewrite Hraw.
Qed.

Lemma str_strip_upper_labels labels :
  labels ≠ [] →
  pd.str_strip_upper labels = Return (map (λ c, upper (strip c)) labels).
Proof. by destruct labels. Qed.

(** A sheet without a column: the normalisation of the labels raises,
    after the first log line and before anything is written. *)
Lemma read_excel_to_staging_no_labels month file_name s df :
  raw s !! (month, file_name) = Some (Return df) →
  pd.columns df = [] →
  read_excel_to_staging month file_name s
  = (Raise no_text_labels,
     mkSite (raw s) (staging s)
       (mkWorld
          (log (run s) ++
           [(INFO, [Lit "Leyendo archivo raw: "; Lit (raw_path month file_name)])])
          (core_parquet (run s)) (objects (run s)) (dw (run s)))).
Proof.
  intros Hraw Hcols. unfold read_excel_to_staging.
  rewrite io_bind_unfold. unfold logging_info. rewrite in_run_logging.
  rewrite io_bind_unfold. unfold read_excel. simpl. rewrite Hraw.
  rewrite io_bind_unfold. unfold io_lift. by rewrite Hcols.
Qed.

Lemma read_excel_to_staging_run month file_name s df :
  raw s !! (month, file_name) = Some (Return df) →
  pd.columns df ≠ [] →
  read_excel_to_staging month file_name s
  = (Return (staged df),
     mkSite (raw s)
       (<[staging_path month := (pd.columns (staged df), (pd.rows (staged df)).*2)]>
          (staging s))
       (mkWorld
          (log (run s) ++
           [(INFO, [Lit "Leyendo archivo raw: "; Lit (raw_path month file_name)]);
            (INFO, [Lit "Datos leídos para "; Lit month; Lit ": ";
                    Count (pd.shape0 (staged df)); Lit " filas"]);
            (INFO, [Lit "Guardado en staging: "; Lit (staging_path month)])])
          (core_parquet (run s)) (objects (run s)) (dw (run s)))).
Proof.
  intros Hraw Hcols. unfold read_excel_to_staging.
  rewrite io_bind_unfold. unfold logging_info. rewrite in_run_logging.
  rewrite io_bind_unfold. unfold read_excel. simpl. rewrite Hraw.
  rewrite io_bind_unfold. unfold io_lift.
  rewrite str_strip_upper_labels by done.
  rewrite io_bind_unfold, in_run_logging.
  rewrite io_bind_unfold. unfold to_csv. simpl.
  rewrite io_bind_unfold, in_run_logging. simpl.
  unfold mret, IO_ret, staged. by rewrite <- !app_assoc.
Qed.

(** X2: a spreadsheet on disk.  When the sheet has a column, the call
    returns the rows that have some value, in their order and with their
    index labels, under the trimmed upper-case labels; the staging
    snapshot of the month holds the labels and the cells of that frame,
    and no other snapshot and no raw file is touched.  When the sheet has
    no column (it has no cell), the normalisation of the labels raises
    [AttributeError] after the first log line, and nothing is written. *)
Theorem read_excel_to_staging_present month file_name s df :
  raw s !! (month, file_name) = Some (Return df) →
  (pd.columns df ≠ [] →
   ∃ out s',
     read_excel_to_staging month file_name s = (Return out, s')
     ∧ pd.columns out = map (λ c, upper (strip c)) (pd.columns df)
     ∧ sublist (pd.rows out) (pd.rows df)
     ∧ (∀ r, r ∈ pd.rows out ↔ r ∈ pd.rows df ∧ ∃ v, v ∈ r.2 ∧ v ≠ pd.NaN)
     ∧ staging s' !! staging_path month = Some (pd.columns out, (pd.rows out).*2)
     ∧ (∀ p, p ≠ staging_path month → staging s' !! p = staging s !! p)
     ∧ raw s' = raw s)
  ∧ (pd.columns df = [] →
     read_excel_to_staging month file_name s
     = (Raise no_text_labels,
        mkSite (raw s) (staging s)
          (mkWorld
             (log (run s) ++
              [(INFO, [Lit "Leyendo archivo raw: ";
                       Lit (raw_path month file_name)])])
             (core_parquet (run s)) (objects (run s)) (dw (run s))))).
Proof.
  intros Hraw. split; [|by apply read_excel_to_staging_no_labels].
  intros Hcols. eexists _, _. split; [by apply read_excel_to_staging_run|].
  simpl. split; [done|]. split; [apply sublist_filter|]. split.
  - intros r. rewrite list_elem_of_filter, list.Exists_exists. split.
    + intros [(v & Hv & Hna) Hr]. split; [done|]. exists v. split; [done|].
      by destruct v.
    + intros [Hr (v & Hv & Hna)]. split; [|done]. exists v. split; [done|].
      by destruct v.
  - split; [by rewrite lookup_insert_eq|]. split; [|done].
    intros p Hp. by rewrite lookup_insert_ne.
Qed.

Lemma read_excel_to_staging_present_witness :
  (pd.columns ex_sheet ≠ [] →
   ∃ out s',
     read_excel_to_staging "2025-01" "01_Exportaciones_2025_Enero.xlsx" ex_site
     = (Return out, s')
     ∧ pd.columns out = map (λ c, upper (strip c)) (pd.columns ex_sheet)
     ∧ sublist (pd.rows out) (pd.rows ex_sheet)
     ∧ (∀ r, r ∈ pd.rows out ↔ r ∈ pd.rows ex_sheet ∧ ∃ v, v ∈ r.2 ∧ v ≠ pd.NaN)
     ∧ staging s' !! staging_path "2025-01"
       = Some (pd.columns out, (pd.rows out).*2)
     ∧ (∀ p, p ≠ staging_path "2025-01" → staging s' !! p = staging ex_site !! p)
     ∧ raw s' = raw ex_site)
  ∧ (pd.columns ex_sheet = [] →
     read_excel_to_staging "2025-01" "01_Exportaciones_2025_Enero.xlsx" ex_site
     = (Raise no_text_labels,
        mkSite (raw ex_site) (staging ex_site)
          (mkWorld
             (log (run ex_site) ++
              [(INFO, [Lit "Leyendo archivo raw: ";
                       Lit (raw_path "2025-01" "01_Exportaciones_2025_Enero.xlsx")])])
             (core_parquet (run ex_site)) (objects (run ex_site))
             (dw (run ex_site))))).
Proof.
  apply (read_excel_to_staging_present "2025-01"
           "01_Exportaciones_2025_Enero.xlsx" ex_site ex_sheet).
  vm_compute. reflexivity.
Defined.

(** A sheet without a cell. *)
Example read_excel_to_staging_empty_sheet_ex :
  (read_excel_to_staging "2025-01" "01_Exportaciones_2025_Enero.xlsx"
     (mkSite {[ ("2025-01", "01_Exportaciones_2025_Enero.xlsx")
                := Return pd.DataFrame_new ]} ∅ w0)).1
  = Raise no_text_labels.
Proof. vm_compute. reflexivity. Qed.

Example read_excel_to_staging_ex :
  (read_excel_to_staging "2025-01" "01_Exportaciones_2025_Enero.xlsx" ex_site).1
  = Return (pd.mkDataFrame
              ["NUMERO_FORMULARIO"; "NUM_SERIE"; FECHA]
              [(0, [pd.Numz 100; pd.Numz 1; pd.Str "20250115"]);
               (2, [pd.Numz 101; pd.NaN; pd.Str "20250116"])]).
Proof. vm_compute. reflexivity. Qed.

(** *** Label normalisation *)

Lemma is_space_upper a : is_space (upper_ascii a) = is_space a.
Proof. destruct a as [[] [] [] [] [] [] [] []]; reflexivity. Qed.

Lemma upper_ascii_idem a : upper_ascii (upper_ascii a) = upper_ascii a.
Proof. destruct a as [[] [] [] [] [] [] [] []]; reflexivity. Qed.

Lemma upper_idem s : upper (upper s) = upper s.
Proof. induction s as [|a s IH]; simpl; [done|]. by rewrite upper_ascii_idem, IH. Qed.

Lemma rstrip_cons a s :
  rstrip (String a s)
  = match rstrip s with
    | EmptyString => if is_space a then EmptyString else String a EmptyString
    | t => String a t
    end.
Proof. done. Qed.

Lemma lstrip_upper s : lstrip (upper s) = upper (lstrip s).
Proof.
  induction s as [|a s IH]; simpl; [done|].
  rewrite is_space_upper. by destruct (is_space a).
Qed.

Lemma rstrip_upper s : rstrip (upper s) = upper (rstrip s).
Proof.
  induction s as [|a s IH]; [done|].
  change (upper (String a s)) with (String (upper_ascii a) (upper s)).
  rewrite !rstrip_cons, IH, is_space_upper.
  destruct (rstrip s); simpl; [by destruct (is_space a)|done].
Qed.

Lemma strip_upper s : strip (upper s) = upper (strip s).
Proof. unfold strip. by rewrite lstrip_upper, rstrip_upper. Qed.

Lemma rstrip_idem s : rstrip (rstrip s) = rstrip s.
Proof.
  induction s as [|a s IH]; [done|].
  rewrite rstrip_cons. destruct (rstrip s) as [|b t] eqn:E.
  - destruct (is_space a) eqn:Ea; [done|]. simpl. by rewrite Ea.
  - rewrite rstrip_cons, IH. done.
Qed.

Lemma lstrip_begins s : begins (lstrip s).
Proof.
  induction s as [|a s IH]; simpl; [done|].
  by destruct (is_space a) eqn:Ea.
Qed.

Lemma rstrip_begins s : begins s → begins (rstrip s).
Proof.
  destruct s as [|a s]; [done|]. simpl. intros Ha.
  destruct (rstrip s); [by rewrite Ha|done].
Qed.

Lemma lstrip_of_begins s : begins s → lstrip s = s.
Proof. destruct s as [|a s]; [done|]. simpl. by intros ->. Qed.

Lemma strip_idem s : strip (strip s) = strip s.
Proof.
  unfold strip.
  rewrite (lstrip_of_begins (rstrip (lstrip s)))
    by (apply rstrip_begins, lstrip_begins).
  apply rstrip_idem.
Qed.

Lemma normalise_idem c : upper (strip (upper (strip c))) = upper (strip c).
Proof. by rewrite strip_upper, upper_idem, strip_idem. Qed.

Lemma staged_normalised df :
  map (λ c, upper (strip c)) (pd.columns (staged df)) = pd.columns (staged df).
Proof.
  simpl. rewrite map_map. apply map_ext. intros c. apply normalise_idem.
Qed.

(** *** The loop over the months *)

(** What a call does, by the state of the raw file. *)
Lemma read_excel_to_staging_cases month file_name s :
  ∃ o s',
    read_excel_to_staging month file_name s = (o, s')
    ∧ raw s' = raw s
    ∧ match raw s !! (month, file_name) with
      | None => o = Return pd.DataFrame_new ∧ staging s' = staging s
      | Some (Return df) =>
          if decide (pd.columns df = []) then
            o = Raise no_text_labels ∧ staging s' = staging s
          else o = Return (staged df)
      | Some (Raise e) => o = Raise e ∧ staging s' = staging s
      end.
Proof.
  destruct (raw s !! (month, file_name)) as [[df|e]|] eqn:Hraw.
  - destruct (decide (pd.columns df = [])) as [Hcols|Hcols].
    + eexists _, _.
      split; [by apply (read_excel_to_staging_no_labels _ _ _ df)|]. done.
    + eexists _, _.
      split; [by apply (read_excel_to_staging_run _ _ _ df)|]. done.
  - unfold read_excel_to_staging.
    rewrite io_bind_unfold. unfold logging_info. rewrite in_run_logging.
    rewrite io_bind_unfold. unfold read_excel. simpl. rewrite Hraw.
    eexists _, _. split; [done|]. done.
  - eexists _, _. split; [by apply read_excel_to_staging_skip|]. done.
Qed.

Lemma ingest_month month file_name months staging_dfs s :
  dict_get month EXCEL_FILES = Some file_name →
  file_name ≠ EmptyString →
  ingest_months (month :: months) staging_dfs s
  = match read_excel_to_staging month file_name s with
    | (Return df, s') => ingest_months months (dict_set month df staging_dfs) s'
    | (Raise e, s') => (Raise e, s')
    end.
Proof.
  intros Hget Hne. cbn [ingest_months]. rewrite Hget.
  destruct file_name as [|a t]; [done|]. by rewrite io_bind_unfold.
Qed.

(** What an outcome of a call says about the raw file. *)
Lemma read_excel_to_staging_outcome month file_name s o s' :
  read_excel_to_staging month file_name s = (o, s') →
  raw s' = raw s
  ∧ match o with
    | Return d =>
        match raw s !! (month, file_name) with
        | None => d = pd.DataFrame_new
        | Some (Return df) => d = staged df
        | Some (Raise _) => False
        end
    | Raise e =>
        match raw s !! (month, file_name) with
        | None => False
        | Some (Return df) => pd.columns df = []
        | Some (Raise e') => e' = e
        end
    end.
Proof.
  intros H.
  destruct (read_excel_to_staging_cases month file_name s)
    as (o1 & s1 & E & R & C).
  rewrite E in H. injection H as <- <-. split; [done|].
  destruct (raw s !! (month, file_name)) as [[df|e]|].
  - destruct (decide (pd.columns df = [])); [by destruct C as [-> _]|by subst o1].
  - by destruct C as [-> _].
  - by destruct C as [-> _].
Qed.

Lemma ingest_to_staging_steps s o s' :
  ingest_to_staging s = (o, s') →
  raw s' = raw s
  ∧ (∀ dfs, o = Return dfs → dfs.*1 = MONTHS ∧ Forall (ingested s) dfs)
  ∧ (∀ e, o = Raise e →
       ∃ file, file ∈ EXCEL_FILES
               ∧ match raw s !! file with
                 | None => False
                 | Some (Return df) => pd.columns df = []
                 | Some (Raise e') => e' = e
                 end).
Proof.
  unfold ingest_to_staging, MONTHS. intros H.
  rewrite (ingest_month _ "01_Exportaciones_2025_Enero.xlsx") in H by done.
  destruct (read_excel_to_staging "2025-01" "01_Exportaciones_2025_Enero.xlsx" s)
    as [o1 s1] eqn:E1.
  apply read_excel_to_staging_outcome in E1 as [R1 C1].
  destruct o1 as [d1|e1].
  2:{ injection H as <- <-. split; [done|]. split; [done|].
      intros e [= <-]. eexists. split; [apply list_elem_of_here|]. exact C1. }
  rewrite (ingest_month _ "02_Exportaciones_2025_Febrero.xlsx") in H by done.
  destruct (read_excel_to_staging "2025-02" "02_Exportaciones_2025_Febrero.xlsx" s1)
    as [o2 s2] eqn:E2.
  apply read_excel_to_staging_outcome in E2 as [R2 C2]. rewrite R1 in C2.
  destruct o2 as [d2|e2].
  2:{ injection H as <- <-. split; [by rewrite R2|]. split; [done|].
      intros e [= <-]. eexists.
      split; [apply list_elem_of_further, list_elem_of_here|]. exact C2. }
  rewrite (ingest_month _ "03_Exportaciones_2025_Marzo.xlsx") in H by done.
  destruct (read_excel_to_staging "2025-03" "03_Exportaciones_2025_Marzo.xlsx" s2)
    as [o3 s3] eqn:E3.
  apply read_excel_to_staging_outcome in E3 as [R3 C3]. rewrite R2, R1 in C3.
  destruct o3 as [d3|e3].
  2:{ injection H as <- <-. split; [by rewrite R3, R2|]. split; [done|].
      intros e [= <-]. eexists.
      split; [do 2 apply list_elem_of_further; apply list_elem_of_here|].
      exact C3. }
  assert (dict_set "2025-03" d3 (dict_set "2025-02" d2 (dict_set "2025-01" d1 []))
          = [("2025-01", d1); ("2025-02", d2); ("2025-03", d3)]) as Hset
    by (vm_compute; reflexivity).
  rewrite Hset in H. clear Hset.
  injection H as <- <-. split; [by rewrite R3, R2, R1|]. split; [|done].
  intros dfs Hdfs. injection Hdfs as <-. split; [reflexivity|].
  apply list.Forall_cons. split; [|apply list.Forall_cons; split;
    [|apply list.Forall_cons; split; [|apply Forall_nil_2]]].
  - exists "01_Exportaciones_2025_Enero.xlsx". split; [reflexivity|]. exact C1.
  - exists "02_Exportaciones_2025_Febrero.xlsx". split; [reflexivity|]. exact C2.
  - exists "03_Exportaciones_2025_Marzo.xlsx". split; [reflexivity|]. exact C3.
Qed.

Lemma read_excel_to_staging_dw month file_name s :
  dw (run (read_excel_to_staging month file_name s).2) = dw (run s).
Proof.
  destruct (raw s !! (month, file_name)) as [[df|e]|] eqn:Hraw.
  - destruct (decide (pd.columns df = [])) as [Hcols|Hcols].
    + by rewrite (read_excel_to_staging_no_labels _ _ _ df).
    + by rewrite (read_excel_to_staging_run _ _ _ df).
  - unfold read_excel_to_staging.
    rewrite io_bind_unfold. unfold logging_info. rewrite in_run_logging.
    rewrite io_bind_unfold. unfold read_excel. simpl. by rewrite Hraw.
  - by rewrite read_excel_to_staging_skip.
Qed.

(** Ingestion does not touch the database. *)
Lemma ingest_to_staging_dw s :
  dw (run (ingest_to_staging s).2) = dw (run s).
Proof.
  unfold ingest_to_staging, MONTHS.
  rewrite (ingest_month _ "01_Exportaciones_2025_Enero.xlsx") by done.
  pose proof (read_excel_to_staging_dw "2025-01"
                "01_Exportaciones_2025_Enero.xlsx" s) as H1.
  destruct (read_excel_to_staging "2025-01" _ s) as [[d1|e1] s1]; [|done].
  rewrite (ingest_month _ "02_Exportaciones_2025_Febrero.xlsx") by done.
  pose proof (read_excel_to_staging_dw "2025-02"
                "02_Exportaciones_2025_Febrero.xlsx" s1) as H2.
  destruct (read_excel_to_staging "2025-02" _ s1) as [[d2|e2] s2];
    [|simpl in *; congruence].
  rewrite (ingest_month _ "03_Exportaciones_2025_Marzo.xlsx") by done.
  pose proof (read_excel_to_staging_dw "2025-03"
                "03_Exportaciones_2025_Marzo.xlsx" s2) as H3.
  destruct (read_excel_to_staging "2025-03" _ s2) as [[d3|e3] s3];
    simpl in *; congruence.
Qed.

Lemma run_bind_unfold {A B : Type} (m : Run A) (f : A → Run B) p :
  (m ≫= f) p
  = match m p with
    | (Return a, p') => f a p'
    | (Raise e, p') => (Raise e, p')
    end.
Proof. done. Qed.

(** X4: the dictionary [ingest_to_staging] returns has one entry per month
    of the period, in the order of the months; the entry of a month whose
    spreadsheet is missing is the empty frame, that of a month whose
    spreadsheet was read is its cleaned sheet; the raw files are as
    before. *)
Theorem ingest_to_staging_returns s dfs s' :
  ingest_to_staging s = (Return dfs, s') →
  dfs.*1 = MONTHS ∧ Forall (ingested s) dfs ∧ raw s' = raw s.
Proof.
  intros H. destruct (ingest_to_staging_steps _ _ _ H) as (Hraw & Hdfs & _).
  destruct (Hdfs dfs eq_refl) as [? ?]. done.
Qed.

Lemma ingest_to_staging_returns_witness :
  ex_ingested.*1 = MONTHS
  ∧ Forall (ingested ex_site) ex_ingested
  ∧ raw (ingest_to_staging ex_site).2 = raw ex_site.
Proof.
  apply (ingest_to_staging_returns ex_site ex_ingested
           (ingest_to_staging ex_site).2).
  vm_compute. reflexivity.
Defined.

(** X5: when every spreadsheet of the period that is on disk can be read
    and has a column, [ingest_to_staging] returns; a missing spreadsheet
    does not stop it.  (A sheet without a column does: the normalisation of
    its labels raises.) *)
Theorem ingest_to_staging_total s :
  readable s → ∃ dfs s', ingest_to_staging s = (Return dfs, s').
Proof.
  intros Hs. destruct (ingest_to_staging s) as [[dfs|e] s'] eqn:E; [by eauto|].
  destruct (ingest_to_staging_steps _ _ _ E) as (_ & _ & He).
  destruct (He e eq_refl) as (file & Hin & Hraw).
  unfold readable in Hs. rewrite list.Forall_forall in Hs.
  specialize (Hs file Hin). by destruct (raw s !! file) as [[df|e']|].
Qed.

Lemma ingest_to_staging_total_witness :
  ∃ dfs s', ingest_to_staging ex_site = (Return dfs, s').
Proof.
  apply (ingest_to_staging_total ex_site).
  unfold readable, EXCEL_FILES.
  repeat constructor; vm_compute; first [exact I | discriminate].
Defined.

(** *** Stage 1 into Stage 2 *)

Lemma union_columns_elem objs c :
  c ∈ pd.union_columns objs → ∃ o, o ∈ objs ∧ c ∈ pd.columns o.
Proof.
  unfold pd.union_columns.
  assert (∀ acc, c ∈ foldl (λ acc d, acc ++ filter (λ c, c ∉ acc) (pd.columns d))
                       acc objs →
                 c ∈ acc ∨ ∃ o, o ∈ objs ∧ c ∈ pd.columns o) as Hgen.
  { induction objs as [|o objs IH]; intros acc Hc; simpl in Hc; [by left|].
    destruct (IH _ Hc) as [Hacc|(o' & Ho' & Hc')].
    - apply elem_of_app in Hacc as [?|Hf]; [by left|]. right. exists o.
      split; [apply list_elem_of_here|].
      by apply list_elem_of_filter in Hf as [_ ?].
    - right. exists o'. split; [by apply list_elem_of_further|done]. }
  intros Hc. destruct (Hgen [] Hc) as [Hnil|?]; [|done].
  by apply elem_of_nil in Hnil.
Qed.

Lemma concat_columns_elem objs d c :
  pd.concat objs = Return d → c ∈ pd.columns d →
  ∃ o, o ∈ objs ∧ c ∈ pd.columns o.
Proof.
  unfold pd.concat. destruct objs as [|o rest]; [done|].
  destruct (forallb _ rest).
  - intros [= <-] Hc. exists o. split; [apply list_elem_of_here|done].
  - destruct (forallb _ (o :: rest)); [|done].
    intros [= <-] Hc. by apply union_columns_elem.
Qed.

(** X3: on what Stage 1 hands over, the label normalisation at the head of
    the column-name correction of Stage 2 changes nothing: the labels of
    the concatenated frame are already trimmed and in upper case. *)
Theorem ingested_labels_normalised s dfs s' all_data :
  ingest_to_staging s = (Return dfs, s') →
  pd.concat (filter (λ df, pd.empty df = false) dfs.*2) = Return all_data →
  pd.set_columns (map (λ c, upper (strip c)) (pd.columns all_data)) all_data
  = all_data.
Proof.
  intros Hin Hcat.
  destruct (ingest_to_staging_steps _ _ _ Hin) as (_ & Hdfs & _).
  destruct (Hdfs dfs eq_refl) as [_ Hall].
  assert (∀ c, c ∈ pd.columns all_data → upper (strip c) = c) as Hnorm.
  { intros c Hc.
    destruct (concat_columns_elem _ _ _ Hcat Hc) as (o & Ho & Hco).
    apply list_elem_of_filter in Ho as [_ Ho].
    apply list_elem_of_fmap in Ho as ([m o'] & -> & Hentry).
    rewrite list.Forall_forall in Hall.
    destruct (Hall _ Hentry) as (file & _ & Hcase). simpl in Hcase, Hco.
    destruct (raw s !! (m, file)) as [[df|?]|]; [|done|].
    - subst o'. rewrite <- staged_normalised in Hco.
      apply list_elem_of_fmap in Hco as (c' & -> & _).
      simpl. apply normalise_idem.
    - subst o'. by apply elem_of_nil in Hco. }
  destruct all_data as [cols rws]. unfold pd.set_columns. simpl in *.
  f_equal. rewrite <- (map_id cols) at 2. apply map_ext_in.
  intros c Hc. apply Hnorm. by apply list_elem_of_In.
Qed.

Lemma ingested_labels_normalised_witness :
  pd.set_columns
    (map (λ c, upper (strip c))
       (pd.columns (pd.mkDataFrame ["NUMERO_FORMULARIO"; "NUM_SERIE"; FECHA]
                      [(0, [pd.Numz 100; pd.Numz 1; pd.Str "20250115"]);
                       (1, [pd.Numz 101; pd.NaN; pd.Str "20250116"])])))
    (pd.mkDataFrame ["NUMERO_FORMULARIO"; "NUM_SERIE"; FECHA]
       [(0, [pd.Numz 100; pd.Numz 1; pd.Str "20250115"]);
        (1, [pd.Numz 101; pd.NaN; pd.Str "20250116"])])
  = pd.mkDataFrame ["NUMERO_FORMULARIO"; "NUM_SERIE"; FECHA]
      [(0, [pd.Numz 100; pd.Numz 1; pd.Str "20250115"]);
       (1, [pd.Numz 101; pd.NaN; pd.Str "20250116"])].
Proof.
  apply (ingested_labels_normalised ex_site ex_ingested
           (ingest_to_staging ex_site).2).
  - vm_compute. reflexivity.
  - vm_compute. reflexivity.
Defined.

(** *** The main flow *)

Section MainFlow.

Variable render : list pd.value → pd.value → string.
Variable parse_number : string → option Qc.
Variable arrow_ok : pd.DataFrame → bool.

Lemma in_run_unfold {A : Type} (m : M A) s :
  in_run m s = ((m (run s)).1, mkSite (raw s) (staging s) (m (run s)).2).
Proof. unfold in_run. by destruct (m (run s)). Qed.

(** X6: with none of the three spreadsheets on disk the main flow does not
    reach the guards of the later stages: after the start line and a
    reading line and a warning per month it ends in the [ValueError] of
    [pd.concat]; no snapshot, no Parquet file and no table is written. *)
Theorem main_without_raw_files s :
  no_raw_files s →
  ∃ s',
    main_stages render parse_number arrow_ok s
    = (Raise (ValueError "No objects to concatenate"), s')
    ∧ raw s' = raw s
    ∧ staging s' = staging s
    ∧ core_parquet (run s') = core_parquet (run s)
    ∧ dw (run s') = dw (run s)
    ∧ objects (run s') = objects (run s)
    ∧ log (run s')
      = log (run s)
        ++ (INFO, [Lit "Iniciando prototipo de Data Warehouse"])
        :: flat_map
             (λ file,
                [(INFO, [Lit "Leyendo archivo raw: "; Lit (raw_path file.1 file.2)]);
                 (WARNING, [Lit "Archivo no encontrado para "; Lit file.1;
                            Lit ": "; Lit (raw_path file.1 file.2);
                            Lit ". Saltando."])])
             EXCEL_FILES.
Proof.
  intros Hno. unfold no_raw_files, EXCEL_FILES in Hno.
  apply Forall_cons_1 in Hno as [H1 Hno].
  apply Forall_cons_1 in Hno as [H2 Hno].
  apply Forall_cons_1 in Hno as [H3 _].
  unfold main_stages.
  rewrite io_bind_unfold. unfold logging_info at 1. rewrite in_run_logging.
  rewrite io_bind_unfold.
  unfold ingest_to_staging, MONTHS.
  rewrite (ingest_month _ "01_Exportaciones_2025_Enero.xlsx") by done.
  rewrite read_excel_to_staging_skip by done.
  rewrite (ingest_month _ "02_Exportaciones_2025_Febrero.xlsx") by done.
  rewrite read_excel_to_staging_skip by done.
  rewrite (ingest_month _ "03_Exportaciones_2025_Marzo.xlsx") by done.
  rewrite read_excel_to_staging_skip by done.
  cbn [ingest_months mret IO_ret].
  rewrite io_bind_unfold, in_run_unfold.
  rewrite transform_nothing_to_concat.
  2:{ assert (dict_set "2025-03" pd.DataFrame_new
                (dict_set "2025-02" pd.DataFrame_new
                   (dict_set "2025-01" pd.DataFrame_new []))
              = [("2025-01", pd.DataFrame_new); ("2025-02", pd.DataFrame_new);
                 ("2025-03", pd.DataFrame_new)]) as -> by (vm_compute; reflexivity).
      repeat constructor. }
  eexists. split; [reflexivity|]. cbn [raw staging run core_parquet dw objects log fst snd].
  repeat (split; [reflexivity|]).
  cbn [flat_map app fst snd]. by rewrite <- !app_assoc.
Qed.

End MainFlow.

Lemma main_without_raw_files_witness :
  ∃ s',
    main_stages ex_render ex_parse (λ _, true) ex_site_empty
    = (Raise (ValueError "No objects to concatenate"), s')
    ∧ raw s' = raw ex_site_empty
    ∧ staging s' = staging ex_site_empty
    ∧ core_parquet (run s') = core_parquet (run ex_site_empty)
    ∧ dw (run s') = dw (run ex_site_empty)
    ∧ objects (run s') = objects (run ex_site_empty)
    ∧ log (run s')
      = log (run ex_site_empty)
        ++ (INFO, [Lit "Iniciando prototipo de Data Warehouse"])
        :: flat_map
             (λ file,
                [(INFO, [Lit "Leyendo archivo raw: "; Lit (raw_path file.1 file.2)]);
                 (WARNING, [Lit "Archivo no encontrado para "; Lit file.1;
                            Lit ": "; Lit (raw_path file.1 file.2);
                            Lit ". Saltando."])])
             EXCEL_FILES.
Proof.
  apply (main_without_raw_files ex_render ex_parse (λ _, true) ex_site_empty).
  vm_compute. repeat constructor.
Defined.

(** ** Stage 2, every path *)

Section TransformPaths.

Variable render : list pd.value → pd.value → string.
Variable parse_number : string → option Qc.
Variable arrow_ok : pd.DataFrame → bool.

(** The run of [transform_to_core] once the concatenation has returned:
    the first guard never fires, and the rest is decided by the key
    labels, the pure steps and the Parquet engine. *)
Lemma transform_run (staging_dfs : list (string * pd.DataFrame)) w all_data :
  pd.concat (filter (λ df, pd.empty df = false) staging_dfs.*2)
    = Return all_data →
  transform_to_core render parse_number arrow_ok staging_dfs w
  = let w1 := logged w [log_integrated all_data] in
    let rc := reconcile all_data in
    let missing := filter (λ col, col ∉ pd.columns rc) required_cols in
    if bool_decide (missing ≠ []) then
      (Return pd.DataFrame_new,
       logged w [log_integrated all_data;
                 (ERROR, [Lit "Columnas faltantes para deduplicación: ";
                          Labels missing])])
    else
      match (a1 ← parse_dates render rc;
             a2 ← for_each numeric_cols (parse_numeric parse_number) a1;
             pd.drop_duplicates (Some required_cols) a2) with
      | Raise e => (Raise e, w1)
      | Return d =>
          if decide (NoDup (pd.columns (fill_nulls d))) then
            if arrow_ok (fill_nulls d) then
              (Return (fill_nulls d),
               mkWorld (log w ++ [log_integrated all_data; log_saved])
                 (Some (fill_nulls d)) (objects w) (dw w))
            else (Raise (ArrowInvalid "Could not convert column"), w1)
          else (Raise (ValueError "Duplicate column names found"), w1)
      end.
Proof.
  intros Hc. unfold transform_to_core. rewrite Hc.
  erewrite run_bind by apply run_lift.
  rewrite (concat_nonempty _ _ (filter_nonempty_Forall _) Hc).
  erewrite run_bind by reflexivity.
  cbv zeta. destruct (bool_decide _).
  { erewrite run_bind by reflexivity.
    unfold mret, M_ret, logged; simpl. by rewrite <- app_assoc. }
  destruct (parse_dates render (reconcile all_data)) as [a1|e]; [|done].
  erewrite run_bind by apply run_lift. cbn [mbind outcome_bind].
  destruct (for_each numeric_cols (parse_numeric parse_number) a1) as [a2|e];
    [|done].
  erewrite run_bind by apply run_lift. cbn [mbind outcome_bind].
  destruct (pd.drop_duplicates (Some required_cols) a2) as [d|e]; [|done].
  erewrite run_bind by apply run_lift.
  unfold to_parquet.
  destruct (decide (NoDup (pd.columns (fill_nulls d)))); [|done].
  destruct (arrow_ok (fill_nulls d)); [|done].
  erewrite run_bind by reflexivity. erewrite run_bind by reflexivity.
  unfold mret, M_ret, logged; simpl. by rewrite <- app_assoc.
Qed.

Lemma transform_concat_raises (staging_dfs : list (string * pd.DataFrame)) w e :
  pd.concat (filter (λ df, pd.empty df = false) staging_dfs.*2) = Raise e →
  transform_to_core render parse_number arrow_ok staging_dfs w = (Raise e, w).
Proof. intros Hc. unfold transform_to_core. by rewrite Hc. Qed.

(** X7: the guard on an empty concatenation is never taken: whatever the
    staging data, [transform_to_core] does not log that there is no data
    in staging.  (Frames without data are filtered out before the
    concatenation, which raises when none is left and otherwise returns a
    frame with rows and labels.) *)
Theorem transform_never_reports_no_data
    (staging_dfs : list (string * pd.DataFrame)) w :
  ∃ lines,
    log (transform_to_core render parse_number arrow_ok staging_dfs w).2
    = log w ++ lines
    ∧ log_no_data ∉ lines.
Proof.
  destruct (pd.concat (filter (λ df, pd.empty df = false) staging_dfs.*2))
    as [all_data|e] eqn:Hc.
  2:{ rewrite (transform_concat_raises _ _ _ Hc). exists []. simpl.
      split; [by rewrite app_nil_r|apply not_elem_of_nil]. }
  rewrite (transform_run _ _ _ Hc). cbv zeta.
  assert (∀ a b : level * list fragment,
            a ≠ log_no_data → b ≠ log_no_data → log_no_data ∉ [a; b]) as H2.
  { intros a b Ha Hb Hin.
    apply elem_of_cons in Hin as [?|Hin]; [done|].
    apply elem_of_cons in Hin as [?|Hin]; [done|]. by apply elem_of_nil in Hin. }
  assert (∀ a : level * list fragment, a ≠ log_no_data → log_no_data ∉ [a])
    as H1.
  { intros a Ha Hin.
    apply elem_of_cons in Hin as [?|Hin]; [done|]. by apply elem_of_nil in Hin. }
  destruct (bool_decide _).
  { eexists. split; [reflexivity|]. by apply H2. }
  destruct (_ ≫= _) as [d|e].
  2:{ eexists. split; [reflexivity|]. by apply H1. }
  destruct (decide _); [|eexists; split; [reflexivity|by apply H1]].
  destruct (arrow_ok _); [|eexists; split; [reflexivity|by apply H1]].
  eexists. split; [reflexivity|]. by apply H2.
Qed.

(** X8: with the two key labels present and the declaration date absent,
    [transform_to_core] ends in the [KeyError] of the date selection; the
    row count is logged and nothing is written. *)
Theorem transform_missing_date_column
    (staging_dfs : list (string * pd.DataFrame)) w all_data :
  pd.concat (filter (λ df, pd.empty df = false) staging_dfs.*2)
    = Return all_data →
  Forall (λ c, c ∈ pd.columns (reconcile all_data)) required_cols →
  FECHA ∉ pd.columns (reconcile all_data) →
  transform_to_core render parse_number arrow_ok staging_dfs w
  = (Raise (KeyError [FECHA]), logged w [log_integrated all_data]).
Proof.
  intros Hc Hreq Hdate. rewrite (transform_run _ _ _ Hc). cbv zeta.
  rewrite (filter_absent_nil _ _ Hreq).
  rewrite bool_decide_eq_false_2 by (by intros ?).
  by rewrite (parse_dates_column_absent _ _ Hdate).
Qed.

End TransformPaths.

Lemma transform_missing_date_column_witness :
  transform_to_core ex_render ex_parse (λ _, true) [("2025-01", ex_no_date)] w0
  = (Raise (KeyError [FECHA]), logged w0 [log_integrated ex_no_date]).
Proof.
  apply (transform_missing_date_column ex_render ex_parse (λ _, true)
           [("2025-01", ex_no_date)] w0 ex_no_date).
  - reflexivity.
  - vm_compute. repeat constructor.
  - vm_compute. intros H. by repeat (apply elem_of_cons in H as [H|H]; [discriminate H|]; try apply elem_of_nil in H).
Defined.

(** ** The column-name correction *)

Lemma rename_columns old new df :
  pd.columns (pd.rename old new df)
  = map (λ c, if decide (c = old) then new else c) (pd.columns df).
Proof. done. Qed.

(** X9: the column-name correction leaves the rows alone and never leaves
    a label NUM_SERIE; a label that reads NUM_SERIE or NUMERO SERIE once
    trimmed and upper-cased yields a label NUMERO_SERIE; the first
    spelling has precedence, so that with both present the label
    NUMERO SERIE stays; every other label is only trimmed and
    upper-cased. *)
Theorem reconcile_labels df :
  let labels := map (λ c, upper (strip c)) (pd.columns df) in
  pd.rows (reconcile df) = pd.rows df
  ∧ length (pd.columns (reconcile df)) = length (pd.columns df)
  ∧ ("NUM_SERIE" ∉ pd.columns (reconcile df))
  ∧ ((("NUM_SERIE" ∈ labels) ∨ ("NUMERO SERIE" ∈ labels)) →
     "NUMERO_SERIE" ∈ pd.columns (reconcile df))
  ∧ ("NUM_SERIE" ∈ labels → "NUMERO SERIE" ∈ labels →
     "NUMERO SERIE" ∈ pd.columns (reconcile df))
  ∧ (∀ c, c ≠ "NUM_SERIE" → c ≠ "NUMERO SERIE" →
       c ∈ labels → c ∈ pd.columns (reconcile df))
  ∧ (∀ c, c ∈ pd.columns (reconcile df) → c = "NUMERO_SERIE" ∨ c ∈ labels).
Proof.
  intros labels. unfold reconcile. cbv zeta.
  cbn [pd.columns pd.set_columns]. fold labels.
  assert (∀ old new : string, old ≠ new →
            old ∉ map (λ c, if decide (c = old) then new else c) labels)
    as Hgone.
  { intros old new Hne Hin. apply list_elem_of_fmap in Hin as (c & Hc & _).
    destruct (decide (c = old)); congruence. }
  assert (∀ old new c : string, c ≠ old → c ∈ labels →
            c ∈ map (λ c, if decide (c = old) then new else c) labels)
    as Hstay.
  { intros old new c Hne Hin.
    apply list_elem_of_fmap. exists c. by rewrite decide_False. }
  assert (∀ old new : string, old ∈ labels →
            new ∈ map (λ c, if decide (c = old) then new else c) labels)
    as Hnew.
  { intros old new Hin.
    apply list_elem_of_fmap. exists old. by rewrite decide_True. }
  assert (∀ old new c : string,
            c ∈ map (λ c, if decide (c = old) then new else c) labels →
            c = new ∨ c ∈ labels) as Hfrom.
  { intros old new c Hin. apply list_elem_of_fmap in Hin as (c' & -> & Hc').
    destruct (decide (c' = old)); [by left|by right]. }
  destruct (decide ("NUM_SERIE" ∈ labels)) as [H1|H1];
    [|destruct (decide ("NUMERO SERIE" ∈ labels)) as [H2|H2]];
    rewrite ?rename_columns; cbn [pd.columns pd.set_columns]; fold labels;
    (split; [done|]); (split; [unfold labels; by rewrite ?length_map|]).
  - split; [by apply Hgone|]. split; [intros _; by apply Hnew|].
    split; [intros _ ?; by apply Hstay|].
    split; [intros c ? ? ?; by apply Hstay|]. intros c. apply Hfrom.
  - split.
    { intros Hin. apply Hfrom in Hin as [?|?]; done. }
    split; [intros _; by apply Hnew|]. split; [done|].
    split; [intros c ? ? ?; by apply Hstay|]. intros c. apply Hfrom.
  - split; [done|]. split; [by intros [?|?]|]. split; [done|].
    split; [done|]. intros c ?. by right.
Qed.

Lemma rename_collides (old new : string) labels :
  old ≠ new → old ∈ labels → new ∈ labels →
  ¬ NoDup (map (λ c, if decide (c = old) then new else c) labels).
Proof.
  intros Hne Hold Hnew Hnd.
  apply list_elem_of_lookup in Hold as [i Hi].
  apply list_elem_of_lookup in Hnew as [j Hj].
  assert (i ≠ j) by (intros ->; congruence).
  apply (NoDup_lookup _ i j new) in Hnd; [done| |].
  - by rewrite list_lookup_fmap, Hi; simpl; rewrite decide_True.
  - by rewrite list_lookup_fmap, Hj; simpl; rewrite decide_False.
Qed.

(** ** The pure steps keep the labels and the number of rows *)

Lemma setitem_present_shape key vals df d :
  key ∈ pd.columns df → pd.setitem key vals df = Return d →
  pd.columns d = pd.columns df ∧ length (pd.rows d) = length (pd.rows df).
Proof.
  intros Hkey. unfold pd.setitem.
  destruct (decide (length vals = length (pd.rows df))) as [Hl|]; [|done].
  intros [= <-]. simpl. rewrite decide_True by done. split; [done|].
  rewrite length_zip_with. lia.
Qed.

Lemma getitem_returns key df s :
  pd.getitem key df = Return s → key ∈ pd.columns df.
Proof.
  unfold pd.getitem. intros H.
  destruct (decide (key ∈ pd.columns df)) as [|Hn]; [done|].
  by rewrite (filter_eq_nil _ _ Hn) in H.
Qed.

Section PureSteps.

Variable render : list pd.value → pd.value → string.
Variable parse_number : string → option Qc.

Lemma parse_dates_shape df d :
  parse_dates render df = Return d →
  pd.columns d = pd.columns df ∧ length (pd.rows d) = length (pd.rows df).
Proof.
  unfold parse_dates. intros H.
  destruct (pd.getitem FECHA df) as [s|e] eqn:Hg; [|done].
  apply getitem_returns in Hg. cbn [mbind outcome_bind] in H.
  destruct (pd.to_datetime _) as [vals|e]; [|done].
  cbn [mbind outcome_bind] in H. by apply (setitem_present_shape FECHA vals).
Qed.

Lemma parse_numeric_shape col df d :
  parse_numeric parse_number col df = Return d →
  pd.columns d = pd.columns df ∧ length (pd.rows d) = length (pd.rows df).
Proof.
  unfold parse_numeric. intros H.
  destruct (decide (col ∈ pd.columns df)) as [Hcol|]; [|by injection H as <-].
  destruct (pd.getitem col df) as [s|e]; [|done].
  cbn [mbind outcome_bind] in H.
  destruct (pd.to_numeric _ _) as [vals|e]; [|done].
  cbn [mbind outcome_bind] in H. by apply (setitem_present_shape col vals).
Qed.

Lemma for_each_numeric_shape cols df d :
  for_each cols (parse_numeric parse_number) df = Return d →
  pd.columns d = pd.columns df ∧ length (pd.rows d) = length (pd.rows df).
Proof.
  revert df. induction cols as [|col cols IH]; intros df H.
  { by injection H as <-. }
  unfold for_each in H; fold (@for_each string pd.DataFrame) in H.
  destruct (parse_numeric parse_number col df) as [d1|e] eqn:E1; [|done].
  cbn [mbind outcome_bind] in H.
  destruct (parse_numeric_shape _ _ _ E1) as [Hc Hr].
  destruct (IH _ H) as [-> ->]. done.
Qed.

Lemma keep_first_head_length {A K : Type} `{EqDecision K} (key : A → K) l :
  (0 < length l)%nat → (0 < length (keep_first key [] l) ≤ length l)%nat.
Proof.
  intros Hl. split.
  - destruct l as [|a l]; [simpl in Hl; lia|]. cbn [keep_first].
    rewrite decide_False by apply not_elem_of_nil. simpl. lia.
  - apply sublist_length, keep_first_sublist.
Qed.

(** The frame that reaches the snapshot has the labels of the reconciled
    frame, and at least one and at most all of its rows. *)
Lemma pure_steps_shape rc d :
  (a1 ← parse_dates render rc;
   a2 ← for_each numeric_cols (parse_numeric parse_number) a1;
   pd.drop_duplicates (Some required_cols) a2) = Return d →
  pd.columns (fill_nulls d) = pd.columns rc
  ∧ ((0 < length (pd.rows rc))%nat →
     (0 < length (pd.rows (fill_nulls d)) ≤ length (pd.rows rc))%nat)
  ∧ FECHA ∈ pd.columns rc.
Proof.
  intros H.
  destruct (parse_dates render rc) as [a1|e] eqn:E1; [|done].
  cbn [mbind outcome_bind] in H.
  destruct (for_each numeric_cols (parse_numeric parse_number) a1) as [a2|e] eqn:E2;
    [|done].
  cbn [mbind outcome_bind] in H.
  apply drop_duplicates_inv in H.
  destruct (parse_dates_shape _ _ E1) as [Hc1 Hr1].
  destruct (for_each_numeric_shape _ _ _ E2) as [Hc2 Hr2].
  assert (length (pd.rows (fill_nulls d)) = length (pd.rows d)) as Hf.
  { pose proof (fill_nulls_index d) as Hi. unfold pd.index in Hi.
    apply (f_equal length) in Hi. by rewrite !length_fmap in Hi. }
  split; [|split].
  - rewrite fill_nulls_columns. subst d. simpl. congruence.
  - intros Hpos. rewrite Hf. subst d. simpl. rewrite <- Hr1, <- Hr2.
    apply keep_first_head_length. lia.
  - unfold parse_dates in E1.
    destruct (pd.getitem FECHA rc) as [s|e] eqn:Hg; [|done].
    by apply getitem_returns in Hg.
Qed.

End PureSteps.

Lemma reconcile_rows df : pd.rows (reconcile df) = pd.rows df.
Proof. unfold reconcile. cbv zeta. by repeat destruct (decide _). Qed.

Lemma filter_absent_inv (subset cols : list string) :
  filter (λ c, c ∉ cols) subset = [] → Forall (λ c, c ∈ cols) subset.
Proof.
  induction subset as [|c subset IH]; [constructor|].
  destruct (decide (c ∈ cols)) as [Hc|Hc].
  - rewrite filter_cons_False by (by intros ?). intros H.
    constructor; [done|by apply IH].
  - by rewrite filter_cons_True.
Qed.

(** ** Stage 2, its result *)

Section TransformResults.

Variable render : list pd.value → pd.value → string.
Variable parse_number : string → option Qc.
Variable arrow_ok : pd.DataFrame → bool.

(** X10: when the periods spell the serial number both as NUM_SERIE and
    as NUMERO_SERIE (and the form number is present), the correction makes
    two columns NUMERO_SERIE, and [transform_to_core] cannot return: it
    ends in an exception, at the latest in that of the Parquet engine on
    repeated labels, and writes nothing. *)
Theorem transform_mixed_serial_labels
    (staging_dfs : list (string * pd.DataFrame)) w all_data :
  pd.concat (filter (λ df, pd.empty df = false) staging_dfs.*2)
    = Return all_data →
  let labels := map (λ c, upper (strip c)) (pd.columns all_data) in
  "NUM_SERIE" ∈ labels → "NUMERO_SERIE" ∈ labels →
  "NUMERO_FORMULARIO" ∈ labels →
  ∃ e,
    transform_to_core render parse_number arrow_ok staging_dfs w
    = (Raise e, logged w [log_integrated all_data]).
Proof.
  intros Hc labels H1 H2 H3. rewrite (transform_run _ _ _ _ _ _ Hc). cbv zeta.
  assert (pd.columns (reconcile all_data)
          = map (λ c, if decide (c = "NUM_SERIE") then "NUMERO_SERIE" else c)
              labels) as Hcols.
  { unfold reconcile. cbv zeta. cbn [pd.columns pd.set_columns]. fold labels.
    by rewrite decide_True by done. }
  rewrite filter_absent_nil.
  2:{ rewrite Hcols. constructor; [|constructor; [|constructor]];
        apply list_elem_of_fmap.
      - exists "NUMERO_FORMULARIO". by split.
      - exists "NUMERO_SERIE". by split. }
  rewrite bool_decide_eq_false_2 by (by intros ?).
  destruct (_ ≫= _) as [d|e] eqn:E; [|by eexists].
  destruct (pure_steps_shape _ _ _ _ E) as (Hd & _ & _).
  rewrite decide_False; [by eexists|].
  rewrite Hd, Hcols. by apply rename_collides.
Qed.

(** X11: a non-empty frame returned by [transform_to_core] has the labels
    of the reconciled concatenation, which are pairwise distinct and
    include the date and the two key labels; it has at least one row and
    at most the rows of the concatenation; it is the Parquet snapshot, the
    log has the row count and the confirmation, and nothing else of the
    state has changed. *)
Theorem transform_result
    (staging_dfs : list (string * pd.DataFrame)) w out w' :
  transform_to_core render parse_number arrow_ok staging_dfs w = (Return out, w') →
  out ≠ pd.DataFrame_new →
  ∃ all_data,
    pd.concat (filter (λ df, pd.empty df = false) staging_dfs.*2)
      = Return all_data
    ∧ pd.columns out = pd.columns (reconcile all_data)
    ∧ NoDup (pd.columns out)
    ∧ Forall (λ c, c ∈ pd.columns out) (FECHA :: required_cols)
    ∧ pd.empty out = false
    ∧ (length (pd.rows out) ≤ length (pd.rows all_data))%nat
    ∧ w' = mkWorld (log w ++ [log_integrated all_data; log_saved])
             (Some out) (objects w) (dw w).
Proof.
  intros H Hout.
  destruct (pd.concat (filter (λ df, pd.empty df = false) staging_dfs.*2))
    as [all_data|e] eqn:Hc.
  2:{ by rewrite (transform_concat_raises _ _ _ _ _ _ Hc) in H. }
  rewrite (transform_run _ _ _ _ _ _ Hc) in H. cbv zeta in H.
  destruct (bool_decide _) eqn:Hb; [by injection H as <- _|].
  apply bool_decide_eq_false_1 in Hb.
  assert (Forall (λ c, c ∈ pd.columns (reconcile all_data)) required_cols)
    as Hreq.
  { apply filter_absent_inv. by destruct (filter _ required_cols); [|destruct Hb]. }
  destruct (_ ≫= _) as [d|e] eqn:E; [|done].
  destruct (decide (NoDup _)) as [Hnd|]; [|done].
  destruct (arrow_ok _); [|done]. injection H as <- <-.
  destruct (pure_steps_shape _ _ _ _ E) as (Hd & Hrows & Hdate).
  rewrite reconcile_rows in Hrows.
  pose proof (concat_nonempty _ _ (filter_nonempty_Forall _) Hc) as Hne.
  assert (0 < length (pd.rows all_data))%nat as Hpos.
  { unfold pd.empty in Hne. apply orb_false_iff in Hne as [_ Hr].
    apply bool_decide_eq_false_1 in Hr.
    destruct (pd.rows all_data); [done|simpl; lia]. }
  specialize (Hrows Hpos).
  exists all_data. split; [done|]. split; [done|]. split; [done|].
  split; [rewrite Hd; by constructor|]. split; [|split; [lia|done]].
  unfold pd.empty. apply orb_false_iff. split; apply bool_decide_eq_false_2.
  - rewrite Hd. intros Hnil. rewrite Hnil in Hdate. by apply elem_of_nil in Hdate.
  - intros Hnil. rewrite Hnil in Hrows. simpl in Hrows. lia.
Qed.

Lemma parse_dates_typed rc :
  NoDup (pd.columns rc) → FECHA ∈ pd.columns rc →
  parse_dates render rc
  = Return (pd.map_column FECHA (parsed_date render (pd.column FECHA rc)) rc).
Proof.
  intros Hnd Hin. unfold parse_dates.
  rewrite getitem_once by (by rewrite filter_eq_once). simpl.
  rewrite map_map. apply (setitem_of_column FECHA).
  by rewrite filter_eq_once.
Qed.

Lemma parse_numeric_typed col df :
  NoDup (pd.columns df) →
  parse_numeric parse_number col df
  = Return (pd.map_column col (pd.to_numeric_cell parse_number) df).
Proof.
  intros Hnd. unfold parse_numeric.
  destruct (decide (col ∈ pd.columns df)) as [Hin|Hn].
  - rewrite getitem_once by (by rewrite filter_eq_once). simpl.
    apply setitem_of_column. by rewrite filter_eq_once.
  - by rewrite map_column_absent.
Qed.

Lemma for_each_numeric_typed cols df :
  NoDup (pd.columns df) →
  for_each cols (parse_numeric parse_number) df
  = Return (foldl (λ d col, pd.map_column col (pd.to_numeric_cell parse_number) d)
              df cols).
Proof.
  revert df. induction cols as [|col cols IH]; intros df Hnd; [done|].
  unfold for_each; fold (@for_each string pd.DataFrame).
  rewrite parse_numeric_typed by done. cbn [mbind outcome_bind foldl].
  apply IH. by rewrite map_column_columns.
Qed.

Lemma typed_columns rc :
  pd.columns (typed render parse_number rc) = pd.columns rc.
Proof.
  unfold typed.
  assert (∀ cols df,
            pd.columns (foldl (λ d col, pd.map_column col
                                          (pd.to_numeric_cell parse_number) d)
                          df cols) = pd.columns df) as H.
  { induction cols as [|c cols IH]; intros df; [done|]. simpl.
    by rewrite IH, map_column_columns. }
  by rewrite H, map_column_columns.
Qed.

Lemma pure_steps_cleaned rc :
  NoDup (pd.columns rc) →
  Forall (λ c, c ∈ pd.columns rc) (FECHA :: required_cols) →
  (a1 ← parse_dates render rc;
   a2 ← for_each numeric_cols (parse_numeric parse_number) a1;
   d ← pd.drop_duplicates (Some required_cols) a2;
   Return (fill_nulls d))
  = Return (cleaned render parse_number rc).
Proof.
  intros Hnd Hall. apply Forall_cons_1 in Hall as [Hdate Hreq].
  rewrite parse_dates_typed by done. cbn [mbind outcome_bind].
  rewrite for_each_numeric_typed by (by rewrite map_column_columns).
  cbn [mbind outcome_bind]. fold (typed render parse_number rc).
  rewrite drop_duplicates_present
    by (unfold default; by rewrite typed_columns).
  cbn [mbind outcome_bind default]. unfold cleaned, natural_key. cbv zeta.
  generalize (typed render parse_number rc). intros t. reflexivity.
Qed.

(** The run of Stage 2 on labels that are in order. *)
Lemma transform_cleaned
    (staging_dfs : list (string * pd.DataFrame)) w all_data :
  pd.concat (filter (λ df, pd.empty df = false) staging_dfs.*2)
    = Return all_data →
  NoDup (pd.columns (reconcile all_data)) →
  Forall (λ c, c ∈ pd.columns (reconcile all_data)) (FECHA :: required_cols) →
  arrow_ok (cleaned render parse_number (reconcile all_data)) = true →
  transform_to_core render parse_number arrow_ok staging_dfs w
  = (Return (cleaned render parse_number (reconcile all_data)),
     mkWorld (log w ++ [log_integrated all_data; log_saved])
       (Some (cleaned render parse_number (reconcile all_data)))
       (objects w) (dw w)).
Proof.
  intros Hc Hnd Hall Hok. rewrite (transform_run _ _ _ _ _ _ Hc). cbv zeta.
  pose proof (pure_steps_cleaned _ Hnd Hall) as Hpure.
  apply Forall_cons_1 in Hall as [Hdate Hreq].
  rewrite (filter_absent_nil _ _ Hreq).
  rewrite bool_decide_eq_false_2 by (by intros ?).
  destruct (parse_dates render (reconcile all_data)) as [a1|e]; [|done].
  cbn [mbind outcome_bind] in *.
  destruct (for_each numeric_cols (parse_numeric parse_number) a1) as [a2|e];
    [|done].
  cbn [mbind outcome_bind] in *.
  destruct (pd.drop_duplicates (Some required_cols) a2) as [d|e]; [|done].
  cbn [mbind outcome_bind] in Hpure. injection Hpure as Hd. rewrite Hd.
  rewrite decide_True.
  2:{ unfold cleaned. cbv zeta. rewrite fill_nulls_columns.
      cbn [pd.columns]. by rewrite typed_columns. }
  by rewrite Hok.
Qed.

(** X12: with the labels of the reconciled concatenation pairwise distinct
    and including the date and the two key labels, no step of
    [transform_to_core] raises provided the Parquet engine accepts the
    frame: the call returns the typed frame reduced to the first row of
    each key with its nulls filled, and that frame is the snapshot. *)
Theorem transform_total
    (staging_dfs : list (string * pd.DataFrame)) w all_data :
  pd.concat (filter (λ df, pd.empty df = false) staging_dfs.*2)
    = Return all_data →
  NoDup (pd.columns (reconcile all_data)) →
  Forall (λ c, c ∈ pd.columns (reconcile all_data)) (FECHA :: required_cols) →
  arrow_ok (cleaned render parse_number (reconcile all_data)) = true →
  transform_to_core render parse_number arrow_ok staging_dfs w
  = (Return (cleaned render parse_number (reconcile all_data)),
     mkWorld (log w ++ [log_integrated all_data; log_saved])
       (Some (cleaned render parse_number (reconcile all_data)))
       (objects w) (dw w)).
Proof.
  intros Hc Hnd Hall Hok. rewrite (transform_run _ _ _ _ _ _ Hc). cbv zeta.
  pose proof (pure_steps_cleaned _ Hnd Hall) as Hpure.
  apply Forall_cons_1 in Hall as [Hdate Hreq].
  rewrite (filter_absent_nil _ _ Hreq).
  rewrite bool_decide_eq_false_2 by (by intros ?).
  destruct (parse_dates render (reconcile all_data)) as [a1|e]; [|done].
  cbn [mbind outcome_bind] in *.
  destruct (for_each numeric_cols (parse_numeric parse_number) a1) as [a2|e];
    [|done].
  cbn [mbind outcome_bind] in *.
  destruct (pd.drop_duplicates (Some required_cols) a2) as [d|e]; [|done].
  cbn [mbind outcome_bind] in Hpure. injection Hpure as Hd. rewrite Hd.
  rewrite decide_True.
  2:{ unfold cleaned. cbv zeta. rewrite fill_nulls_columns.
      cbn [pd.columns]. by rewrite typed_columns. }
  by rewrite Hok.
Qed.

End TransformResults.

Lemma transform_mixed_serial_labels_witness :
  ∃ e,
    transform_to_core ex_render ex_parse (λ _, true) ex_mixed w0
    = (Raise e, logged w0 [log_integrated ex_mixed_all]).
Proof.
  apply (transform_mixed_serial_labels ex_render ex_parse (λ _, true)
           ex_mixed w0 ex_mixed_all).
  - vm_compute. reflexivity.
  - decide_closed.
  - decide_closed.
  - decide_closed.
Defined.

Lemma transform_result_witness :
  ∃ all_data,
    pd.concat (filter (λ df, pd.empty df = false) ex_staging.*2)
      = Return all_data
    ∧ pd.columns ex_out = pd.columns (reconcile all_data)
    ∧ NoDup (pd.columns ex_out)
    ∧ Forall (λ c, c ∈ pd.columns ex_out) (FECHA :: required_cols)
    ∧ pd.empty ex_out = false
    ∧ (length (pd.rows ex_out) ≤ length (pd.rows all_data))%nat
    ∧ ex_run.2 = mkWorld (log w0 ++ [log_integrated all_data; log_saved])
                   (Some ex_out) (objects w0) (dw w0).
Proof.
  apply (transform_result ex_render ex_parse (λ _, true) ex_staging w0
           ex_out ex_run.2).
  - vm_compute. reflexivity.
  - vm_compute. discriminate.
Defined.

Lemma transform_total_witness :
  transform_to_core ex_render ex_parse (λ _, true) ex_staging w0
  = (Return (cleaned ex_render ex_parse (reconcile ex_all)),
     mkWorld (log w0 ++ [log_integrated ex_all; log_saved])
       (Some (cleaned ex_render ex_parse (reconcile ex_all)))
       (objects w0) (dw w0)).
Proof.
  apply (transform_total ex_render ex_parse (λ _, true) ex_staging w0 ex_all).
  - vm_compute. reflexivity.
  - decide_closed.
  - vm_compute. repeat constructor.
  - reflexivity.
Defined.

(** ** Stage 3, what it touches *)

Lemma build_semantic_layer_skip core_df w core :
  objects w !! core_df = Some core → pd.empty core = true →
  build_semantic_layer core_df w = (Return (), logged w [log_core_empty]).
Proof.
  intros Hw He. unfold build_semantic_layer, read.
  rewrite !bind_unfold. unfold load. rewrite Hw, run_lift, He. done.
Qed.

(** X13: on an empty frame [build_semantic_layer] only logs that the core
    frame is empty: it returns without opening the database, creating a
    frame object or writing a table. *)
Theorem build_semantic_layer_empty_core core_df w core :
  objects w !! core_df = Some core → pd.empty core = true →
  build_semantic_layer core_df w = (Return (), logged w [log_core_empty]).
Proof.
  intros Hw He. unfold build_semantic_layer, read.
  rewrite !bind_unfold. unfold load. rewrite Hw, run_lift, He. done.
Qed.

Lemma build_semantic_layer_empty_core_witness :
  build_semantic_layer 0%nat (mkWorld [] None [pd.DataFrame_new] ∅)
  = (Return (), logged (mkWorld [] None [pd.DataFrame_new] ∅) [log_core_empty]).
Proof.
  apply (build_semantic_layer_empty_core 0%nat
           (mkWorld [] None [pd.DataFrame_new] ∅) pd.DataFrame_new);
    reflexivity.
Defined.

Lemma confined_bind {A B : Type} (m : M A) (f : A → M B) :
  confined m → (∀ a, confined (f a)) → confined (m ≫= f).
Proof.
  intros Hm Hf w. rewrite bind_unfold.
  destruct (Hm w) as (Hp & Hd & lines & Hl).
  destruct (m w) as [[a|e] w1]; simpl in *; [|by eauto].
  destruct (Hf a w1) as (Hp' & Hd' & lines' & Hl').
  split; [congruence|]. split.
  - intros name Hn. by rewrite Hd', Hd.
  - exists (lines ++ lines'). by rewrite Hl', Hl, <- app_assoc.
Qed.

Lemma confined_same {A : Type} (m : M A) :
  (∀ w, log (m w).2 = log w ∧ core_parquet (m w).2 = core_parquet w
        ∧ dw (m w).2 = dw w) →
  confined m.
Proof.
  intros H w. destruct (H w) as (Hl & Hp & Hd).
  split; [done|]. split; [by rewrite Hd|]. exists []. by rewrite app_nil_r.
Qed.

Lemma confined_lift {A : Type} (o : outcome A) : confined (lift o).
Proof. by apply confined_same. Qed.

Lemma confined_logging l msg : confined (logging l msg).
Proof. intros w. split; [done|]. split; [done|]. by eexists. Qed.

Lemma confined_load r : confined (load r).
Proof. apply confined_same. intros w. unfold load. by destruct (objects w !! r). Qed.

Lemma confined_new df : confined (new df).
Proof. by apply confined_same. Qed.

Lemma confined_store r df : confined (store r df).
Proof. by apply confined_same. Qed.

Lemma confined_read {A : Type} (f : pd.DataFrame → outcome A) r :
  confined (read f r).
Proof.
  unfold read. apply confined_bind; [apply confined_load|].
  intros df. apply confined_lift.
Qed.

Lemma confined_call f r : confined (call f r).
Proof.
  unfold call. apply confined_bind; [apply confined_load|]. intros df.
  apply confined_bind; [apply confined_lift|]. intros d. apply confined_new.
Qed.

Lemma confined_update f r : confined (update f r).
Proof.
  unfold update. apply confined_bind; [apply confined_load|]. intros df.
  apply confined_bind; [apply confined_lift|]. intros d. apply confined_store.
Qed.

Lemma confined_to_sql name r : name ∈ own_tables → confined (to_sql name r).
Proof.
  intros Hown. unfold to_sql. apply confined_bind; [apply confined_load|].
  intros df. destruct (decide _); [|apply confined_lift].
  intros w. simpl. split; [done|]. split.
  - intros nm Hnm. rewrite lookup_insert_ne; [done|]. by intros ->.
  - exists []. by rewrite app_nil_r.
Qed.

Lemma confined_distinct_tuples cols r : confined (distinct_tuples cols r).
Proof.
  unfold distinct_tuples.
  apply confined_bind; [apply confined_call|]. intros s.
  apply confined_bind; [apply confined_call|]. intros u. apply confined_call.
Qed.

Lemma confined_assign_id name dim : confined (assign_id name dim).
Proof.
  unfold assign_id. apply confined_bind; [apply confined_read|].
  intros ids. apply confined_update.
Qed.

Lemma confined_assign_dt name field dim : confined (assign_dt name field dim).
Proof.
  unfold assign_dt. apply confined_bind; [apply confined_read|].
  intros part. apply confined_update.
Qed.

Lemma confined_merge on left right : confined (merge on left right).
Proof.
  unfold merge. apply confined_bind; [apply confined_load|]. intros d.
  apply confined_call.
Qed.

Lemma confined_build_semantic_layer core_df :
  confined (build_semantic_layer core_df).
Proof.
  unfold build_semantic_layer.
  apply confined_bind; [apply confined_read|]. intros [];
    [apply confined_logging|].
  apply confined_bind; [apply confined_logging|]. intros _.
  apply confined_bind; [apply confined_distinct_tuples|]. intros dim_time.
  apply confined_bind; [apply confined_assign_id|]. intros _.
  do 3 (apply confined_bind; [apply confined_assign_dt|]; intros _).
  apply confined_bind; [apply confined_to_sql; decide_closed|]. intros _.
  do 3 (apply confined_bind; [apply confined_distinct_tuples|]; intros ?;
        apply confined_bind; [apply confined_assign_id|]; intros _;
        apply confined_bind; [apply confined_to_sql; decide_closed|]; intros _).
  do 4 (apply confined_bind; [apply confined_merge|]; intros ?).
  apply confined_bind; [apply confined_call|]. intros fact.
  apply confined_bind; [apply confined_to_sql; decide_closed|]. intros _.
  apply confined_logging.
Qed.

(** Any object of the store, not only the one the call is given. *)
Lemma keeps_build_semantic_layer_any r core core_df :
  keeps r core (build_semantic_layer core_df) (λ _, True).
Proof.
  unfold build_semantic_layer.
  eapply keeps_bind; [apply keeps_read|]. intros [] _;
    [apply keeps_logging|].
  eapply keeps_bind; [apply keeps_logging|]. intros _ _.
  eapply keeps_bind; [apply keeps_distinct_tuples|]. intros dim_time Ht.
  do 4 (eapply keeps_bind;
        [first [by apply keeps_assign_id | by apply keeps_assign_dt]|];
        intros _ _).
  eapply keeps_bind; [apply keeps_to_sql|]. intros _ _.
  do 3 (eapply keeps_bind; [apply keeps_distinct_tuples|]; intros ? ?;
        eapply keeps_bind; [by apply keeps_assign_id|]; intros _ _;
        eapply keeps_bind; [apply keeps_to_sql|]; intros _ _).
  do 4 (eapply keeps_bind; [apply keeps_merge|]; intros ? _).
  eapply keeps_bind; [apply keeps_call|]. intros fact _.
  eapply keeps_bind; [apply keeps_to_sql|]. intros _ _.
  apply keeps_logging.
Qed.

(** X14: whatever its outcome, [build_semantic_layer] leaves the Parquet
    snapshot and every table other than its five as they are, only adds
    lines to the log, and changes no frame object that existed before the
    call: the in-place assignments only reach the dimension objects the
    call itself created. *)
Theorem build_semantic_layer_confined core_df w :
  core_parquet (build_semantic_layer core_df w).2 = core_parquet w
  ∧ (∀ name, name ∉ own_tables →
       dw (build_semantic_layer core_df w).2 !! name = dw w !! name)
  ∧ (∃ lines, log (build_semantic_layer core_df w).2 = log w ++ lines)
  ∧ (∀ r df, objects w !! r = Some df →
       objects (build_semantic_layer core_df w).2 !! r = Some df).
Proof.
  destruct (confined_build_semantic_layer core_df w) as (Hp & Hd & Hl).
  split; [done|]. split; [done|]. split; [done|].
  intros r df Hr. by apply (keeps_build_semantic_layer_any r df core_df w).
Qed.

(** ** Stage 3, a failure after the first table *)

Lemma run_call_raise L P O D f r df e :
  O !! r = Some df → f df = Raise e →
  call f r (mkWorld L P O D) = (Raise e, mkWorld L P O D).
Proof.
  intros Hr Hf. unfold call, load. rewrite bind_unfold. simpl.
  by rewrite Hr, bind_unfold, run_lift, Hf.
Qed.

Lemma getitem_list_missing keys df :
  filter (λ k, k ∉ pd.columns df) keys ≠ [] →
  pd.getitem_list keys df
  = Raise (KeyError (filter (λ k, k ∉ pd.columns df) keys)).
Proof. intros H. unfold pd.getitem_list. by destruct (filter _ keys). Qed.

(** X15: the tables are written one by one, with nothing to undo them:
    when the time dimension can be built and a column of the exporter
    dimension is absent, [build_semantic_layer] ends in the [KeyError] of
    that selection with the table DIM_TIME already replaced, the other
    tables as they were, and the closing line not logged. *)
Theorem build_semantic_layer_partial core_df w core t :
  objects w !! core_df = Some core →
  pd.empty core = false →
  time_table core = Return t →
  filter (λ k, k ∉ pd.columns core) dim_empresa_cols ≠ [] →
  ∃ objs,
    build_semantic_layer core_df w
    = (Raise (KeyError (filter (λ k, k ∉ pd.columns core) dim_empresa_cols)),
       mkWorld (log w ++ [log_connected]) (core_parquet w) (objects w ++ objs)
         (<["DIM_TIME" := t]> (dw w))).
Proof.
  destruct w as [L P O D]. simpl. intros Hcore Hne Ht Hmiss.
  unfold time_table, dimension, with_dt in Ht.
  do 3 take Ht.
  do 3 (do 3 take Ht).
  apply sql_ok_inv in Ht as [-> Ht].
  eexists. unfold build_semantic_layer.
  rewrite <- (app_nil_r O) at 1.
  run_with run_read. rewrite Hne.
  run_with run_logging.
  run_with run_distinct_tuples. run_with run_assign_id.
  do 3 run_with run_assign_dt. run_with run_to_sql.
  erewrite run_bind_raise; [reflexivity|].
  unfold distinct_tuples.
  erewrite run_bind_raise; [reflexivity|].
  eapply run_call_raise; [by apply lookup_app_l_Some|].
  by apply getitem_list_missing.
Qed.

Lemma build_semantic_layer_partial_witness :
  ∃ objs,
    build_semantic_layer 0%nat (mkWorld [] None [ex_dates_only] ∅)
    = (Raise (KeyError (filter (λ k, k ∉ pd.columns ex_dates_only)
                          dim_empresa_cols)),
       mkWorld ([] ++ [log_connected]) None ([ex_dates_only] ++ objs)
         (<["DIM_TIME" := ex_time_table]> ∅)).
Proof.
  apply (build_semantic_layer_partial 0%nat
           (mkWorld [] None [ex_dates_only] ∅) ex_dates_only ex_time_table).
  - reflexivity.
  - reflexivity.
  - vm_compute. reflexivity.
  - vm_compute. discriminate.
Defined.

(** ** The contents of the tables *)

Lemma setitem_new_column key vals df d' :
  key ∉ pd.columns df → rectangular df →
  pd.setitem key vals df = Return d' →
  pd.column key d' = vals.
Proof.
  intros Hkey Hrect. unfold pd.setitem.
  destruct (decide (length vals = length (pd.rows df))) as [Hlen|]; [|done].
  rewrite decide_False by done. intros [= <-].
  unfold pd.column, pd.cells. simpl.
  unfold rectangular, pd.cells in Hrect. revert vals Hlen Hrect.
  induction (pd.rows df) as [|r rs IH]; intros [|v vals] Hlen Hrect; try done.
  apply Forall_cons_1 in Hrect as [Hr Hrect]. simpl. f_equal.
  - unfold pd.set_cell. rewrite decide_False by done.
    rewrite cell_app_r by done. apply cell_cons_eq.
  - apply IH; [simpl in Hlen; lia | done].
Qed.

(** A date part assigned under a new label, with its cells. *)
Lemma with_dt_full name field dim :
  NoDup (pd.columns dim) → FECHA ∈ pd.columns dim → name ∉ pd.columns dim →
  Forall (λ v, pd.is_datetimelike v = true) (pd.column FECHA dim) →
  rectangular dim →
  ∃ d', with_dt name field dim = Return d'
        ∧ pd.columns d' = pd.columns dim ++ [name]
        ∧ extends dim d'
        ∧ rectangular d'
        ∧ pd.column name d' = map (date_part field) (pd.column FECHA dim).
Proof.
  intros Hnd Hf Hname Hdt Hrect.
  destruct (with_dt_spec name field dim Hnd Hf Hname Hdt)
    as (d' & Hd' & Hc & He & Hr).
  exists d'. split; [done|]. split; [done|]. split; [done|].
  split; [by apply Hr|].
  unfold with_dt in Hd'.
  rewrite getitem_once in Hd' by (by rewrite filter_eq_once).
  simpl in Hd'. rewrite (forallb_of_Forall _ _ Hdt) in Hd'. simpl in Hd'.
  by apply setitem_new_column in Hd'.
Qed.

Lemma time_table_parts core t :
  NoDup (pd.columns core) → rectangular core →
  Forall (λ v, pd.is_datetimelike v = true) (pd.column FECHA core) →
  time_table core = Return t →
  pd.columns t = [FECHA; "TIME_ID"; "YEAR"; "MONTH"; "DAY"]
  ∧ extends (keyed dim_time_cols "TIME_ID" core) t
  ∧ rectangular t
  ∧ pd.column "YEAR" t = map (date_part (λ y _ _, y)) (pd.column FECHA t)
  ∧ pd.column "MONTH" t = map (date_part (λ _ m _, m)) (pd.column FECHA t)
  ∧ pd.column "DAY" t = map (date_part (λ _ _ d, d)) (pd.column FECHA t)
  ∧ Forall (λ v, pd.is_datetimelike v = true) (pd.column FECHA t).
Proof.
  intros Hnd Hrect Hdt Ht. unfold time_table in Ht.
  destruct (dimension dim_time_cols "TIME_ID" core) as [t0|e] eqn:E0; [|done].
  cbn [mbind outcome_bind] in Ht.
  assert (FECHA ∈ pd.columns core) as Hf.
  { unfold dimension in E0.
    destruct (pd.getitem_list dim_time_cols core) as [sel|e] eqn:Es; [|done].
    apply getitem_list_inv in Es as [Hall _].
    by apply Forall_cons_1 in Hall as [? _]. }
  apply dimension_inv in E0; [|done|done|decide_closed]. subst t0.
  set (t0 := keyed dim_time_cols "TIME_ID" core) in *.
  assert (Forall (λ v, pd.is_datetimelike v = true) (pd.column FECHA t0)) as Hd0
    by (by apply keyed_time_dates).
  pose proof (keyed_rectangular dim_time_cols "TIME_ID" core) as Hr0.
  fold t0 in Hr0.
  destruct (with_dt_full "YEAR" (λ y _ _, y) t0)
    as (t1 & E1 & Hc1 & He1 & Hr1 & Hy); [decide_closed..|done|done|].
  rewrite E1 in Ht. cbn [mbind outcome_bind] in Ht. simpl in Hc1.
  assert (pd.column FECHA t1 = pd.column FECHA t0) as Hf1.
  { apply extends_column; [done|done|decide_closed]. }
  destruct (with_dt_full "MONTH" (λ _ m _, m) t1)
    as (t2 & E2 & Hc2 & He2 & Hr2 & Hm);
    [rewrite Hc1; decide_closed..|by rewrite Hf1|done|].
  rewrite E2 in Ht. cbn [mbind outcome_bind] in Ht.
  rewrite Hc1 in Hc2. simpl in Hc2.
  assert (pd.column FECHA t2 = pd.column FECHA t1) as Hf2.
  { apply extends_column; [done|done|rewrite Hc1; decide_closed]. }
  destruct (with_dt_full "DAY" (λ _ _ d, d) t2)
    as (t3 & E3 & Hc3 & He3 & Hr3 & Hd);
    [rewrite Hc2; decide_closed..|by rewrite Hf2, Hf1|done|].
  rewrite E3 in Ht. cbn [mbind outcome_bind] in Ht.
  rewrite Hc2 in Hc3. simpl in Hc3.
  apply sql_ok_inv in Ht as [-> _].
  assert (pd.column FECHA t3 = pd.column FECHA t2) as Hf3.
  { apply extends_column; [done|done|rewrite Hc2; decide_closed]. }
  split; [done|]. split.
  { eapply extends_trans; [exact He1|]. eapply extends_trans; eauto. }
  split; [done|].
  split; [|split; [|split]].
  - rewrite (extends_column "YEAR" t2 t3), (extends_column "YEAR" t1 t2);
      [|done|done|rewrite Hc1; decide_closed|done|done|rewrite Hc2; decide_closed].
    by rewrite Hy, Hf3, Hf2, Hf1.
  - rewrite (extends_column "MONTH" t2 t3);
      [|done|done|rewrite Hc2; decide_closed].
    by rewrite Hm, Hf3, Hf2.
  - by rewrite Hd, Hf3.
  - by rewrite Hf3, Hf2, Hf1.
Qed.

Lemma semantic_tables_time core T :
  semantic_tables core = Return T → time_table core = Return (DIM_TIME T).
Proof.
  unfold semantic_tables, time_table. intros HT.
  do 5 take HT. do 12 take HT.
  injection HT as <-. cbn [DIM_TIME].
  repeat (cbn [mbind outcome_bind];
          match goal with
          | H : ?x = Return _ |- context [?x] => rewrite H
          end).
  done.
Qed.

(** X16: in the time dimension that is written, the labels are the date,
    the surrogate key and the three parts; YEAR, MONTH and DAY are, row by
    row, the year, the month and the day of the date of the row, and they
    are null where the date is null. *)
Theorem time_dimension_parts core T :
  NoDup (pd.columns core) → rectangular core →
  Forall (λ v, pd.is_datetimelike v = true) (pd.column FECHA core) →
  semantic_tables core = Return T →
  pd.columns (DIM_TIME T) = [FECHA; "TIME_ID"; "YEAR"; "MONTH"; "DAY"]
  ∧ pd.column "YEAR" (DIM_TIME T)
    = map (date_part (λ y _ _, y)) (pd.column FECHA (DIM_TIME T))
  ∧ pd.column "MONTH" (DIM_TIME T)
    = map (date_part (λ _ m _, m)) (pd.column FECHA (DIM_TIME T))
  ∧ pd.column "DAY" (DIM_TIME T)
    = map (date_part (λ _ _ d, d)) (pd.column FECHA (DIM_TIME T))
  ∧ Forall (λ v, pd.is_datetimelike v = true) (pd.column FECHA (DIM_TIME T)).
Proof.
  intros Hnd Hrect Hdt HT. apply semantic_tables_time in HT.
  destruct (time_table_parts _ _ Hnd Hrect Hdt HT)
    as (Hc & _ & _ & Hy & Hm & Hd & Hf).
  done.
Qed.

Lemma time_dimension_parts_witness :
  pd.columns (DIM_TIME ex_tables) = [FECHA; "TIME_ID"; "YEAR"; "MONTH"; "DAY"]
  ∧ pd.column "YEAR" (DIM_TIME ex_tables)
    = map (date_part (λ y _ _, y)) (pd.column FECHA (DIM_TIME ex_tables))
  ∧ pd.column "MONTH" (DIM_TIME ex_tables)
    = map (date_part (λ _ m _, m)) (pd.column FECHA (DIM_TIME ex_tables))
  ∧ pd.column "DAY" (DIM_TIME ex_tables)
    = map (date_part (λ _ _ d, d)) (pd.column FECHA (DIM_TIME ex_tables))
  ∧ Forall (λ v, pd.is_datetimelike v = true)
      (pd.column FECHA (DIM_TIME ex_tables)).
Proof.
  apply (time_dimension_parts ex_core ex_tables).
  - decide_closed.
  - vm_compute. repeat constructor.
  - vm_compute. repeat constructor.
  - vm_compute. reflexivity.
Defined.

(** ** The fact table row by row *)

Lemma cells_where_not_on_length (on cols : list string) (cs : list pd.value) :
  length cs = length cols →
  length (pd.cells_where (λ c, bool_decide (c ∉ on)) cols cs)
  = length (filter (λ c, c ∉ on) cols).
Proof.
  revert cs. induction cols as [|n cols IH]; intros [|v cs] Hlen; try done.
  simpl in Hlen. cbn [pd.cells_where].
  destruct (decide (n ∉ on)) as [Hn|Hn].
  - rewrite bool_decide_eq_true_2, filter_cons_True by done. simpl.
    f_equal. apply IH. lia.
  - rewrite bool_decide_eq_false_2, filter_cons_False by done.
    apply IH. lia.
Qed.

Lemma cell_cells_where_not_on (on cols : list string) c (cs : list pd.value) :
  c ∉ on → length cs = length cols →
  pd.cell c (filter (λ c, c ∉ on) cols)
    (pd.cells_where (λ c, bool_decide (c ∉ on)) cols cs)
  = pd.cell c cols cs.
Proof.
  intros Hc. revert cs.
  induction cols as [|n cols IH]; intros [|v cs] Hlen; try done.
  simpl in Hlen. cbn [pd.cells_where].
  destruct (decide (n ∉ on)) as [Hn|Hn].
  - rewrite bool_decide_eq_true_2, filter_cons_True by done.
    destruct (decide (n = c)) as [->|Hne].
    + by rewrite !cell_cons_eq.
    + rewrite !cell_cons_ne by done. apply IH. lia.
  - rewrite bool_decide_eq_false_2, filter_cons_False by done.
    rewrite (cell_cons_ne c n) by (intros ->; done). apply IH. lia.
Qed.

Lemma cell_key_cells c keys cols cs :
  c ∈ keys → pd.cell c keys (pd.key_cells keys cols cs) = pd.cell c cols cs.
Proof.
  unfold pd.key_cells. induction keys as [|k keys IH]; intros Hc.
  { by apply elem_of_nil in Hc. }
  simpl. destruct (decide (k = c)) as [->|Hne].
  - by rewrite cell_cons_eq.
  - rewrite cell_cons_ne by done. apply IH.
    apply elem_of_cons in Hc as [?|?]; [congruence|done].
Qed.

(** The join against a table with distinct keys, with its cells: every
    left row is kept and gets, under each label of the right table that is
    not a key, the cell of the right row with its key. *)
Lemma merge_full left right on :
  NoDup (pd.columns left) → NoDup (pd.columns right) →
  Forall (λ k, k ∈ pd.columns left ∧ k ∈ pd.columns right) on →
  (∀ c, c ∈ pd.columns left → c ∈ pd.columns right → c ∈ on) →
  NoDup (tuples on right) →
  (∀ x, x ∈ tuples on left → x ∈ tuples on right) →
  rectangular left → rectangular right →
  ∃ m, pd.merge left right on = Return m
       ∧ pd.columns m
         = pd.columns left ++ filter (λ c, c ∉ on) (pd.columns right)
       ∧ extends left m
       ∧ rectangular m
       ∧ ∀ c, c ∈ pd.columns right → c ∉ on →
           pd.column c m = map (vlookup on c right) (tuples on left).
Proof.
  intros Hl Hr Hon Hover Hkeys Hin Hrl Hrr.
  destruct (merge_spec left right on Hl Hr Hon Hover Hkeys Hin)
    as (m & Hm & Hcm & Hext).
  exists m. split; [done|]. split; [done|]. split; [done|].
  unfold pd.merge in Hm.
  rewrite (filter_none (λ k, k ∉ pd.columns left ∨ k ∉ pd.columns right)) in Hm.
  2:{ eapply list.Forall_impl; [exact Hon|]. intros k [? ?] [?|?]; done. }
  rewrite filter_none in Hm.
  2:{ eapply list.Forall_impl; [exact Hon|]. intros k [? ?].
      rewrite !filter_eq_once by done. simpl. intros [?|?]; done. }
  injection Hm as Hm.
  assert (pd.cells m
          = flat_map (λ l,
              map (λ r, l ++ pd.cells_where (λ c, bool_decide (c ∉ on))
                                 (pd.columns right) r)
                (filter (λ r, pd.key_cells on (pd.columns right) r
                              = pd.key_cells on (pd.columns left) l)
                   (pd.cells right)))
              (pd.cells left)) as Hcells.
  { rewrite <- Hm. unfold pd.cells at 1. simpl. apply with_range_index_snd. }
  clear Hm.
  unfold rectangular, pd.column. rewrite Hcm, Hcells.
  unfold tuples in Hin, Hkeys. unfold tuples. unfold rectangular in Hrl.
  clear Hcells Hext.
  induction (pd.cells left) as [|cs css IH]; simpl; [by split|].
  apply Forall_cons_1 in Hrl as [Hlen Hrl].
  destruct (filter_key_unique (pd.key_cells on (pd.columns right))
              (pd.key_cells on (pd.columns left) cs) (pd.cells right))
    as [r0 Hr0]; [done | apply Hin; by left |].
  assert (length r0 = length (pd.columns right)) as Hlr.
  { assert (r0 ∈ filter (λ r, pd.key_cells on (pd.columns right) r
                              = pd.key_cells on (pd.columns left) cs)
                    (pd.cells right)) as Hmem
      by (rewrite Hr0; apply list_elem_of_here).
    apply list_elem_of_filter in Hmem as [_ Hmem].
    unfold rectangular in Hrr. rewrite list.Forall_forall in Hrr.
    by apply Hrr. }
  destruct IH as [IHr IHc]; [intros x Hx; apply Hin; by right | done |].
  rewrite Hr0. simpl. split.
  - constructor; [|done]. rewrite !length_app.
    by rewrite cells_where_not_on_length, Hlen.
  - intros c Hc Hn. f_equal; [|by apply IHc].
    unfold vlookup. rewrite Hr0.
    rewrite cell_app_r; [by apply cell_cells_where_not_on| |done].
    intros Hcl. apply Hn. by apply Hover.
Qed.

Lemma merge_dimension_full core m G cols id E t :
  NoDup (pd.columns core) → rectangular core →
  Forall (λ c, c ∉ pd.columns core) made_cols →
  Forall (λ c, c ∈ pd.columns core) cols →
  pd.columns m = pd.columns core ++ G → extends core m →
  pd.columns t = cols ++ id :: E → extends (keyed cols id core) t →
  NoDup G → Forall (λ c, c ∈ made_cols) G →
  NoDup (cols ++ id :: E) → Forall (λ c, c ∈ made_cols) (id :: E) →
  Forall (λ c, c ∉ id :: E) G →
  rectangular m → rectangular t →
  ∃ m', pd.merge m t cols = Return m'
        ∧ pd.columns m' = pd.columns core ++ (G ++ id :: E)
        ∧ extends core m'
        ∧ extends m m'
        ∧ rectangular m'
        ∧ ∀ c, c ∈ id :: E →
            pd.column c m' = map (vlookup cols c t) (tuples cols core).
Proof.
  intros Hnd Hrect Hmade Hcols Hm Hext Ht Hkeyed HG HGm HtN HEm Hdis Hrm Hrt.
  rewrite list.Forall_forall in Hmade, Hcols, HGm, HEm, Hdis.
  pose proof HtN as (Hc & Hdisj & _)%list.NoDup_app.
  destruct (merge_full m t cols) as (m' & Hm' & Hcm' & Hext' & Hr' & Hcol).
  - rewrite Hm. apply list.NoDup_app. split; [done|]. split; [|done].
    intros c Hc1 Hc2. by apply (Hmade c (HGm c Hc2)).
  - by rewrite Ht.
  - apply list.Forall_forall. intros k Hk. rewrite Hm, Ht. split.
    + apply elem_of_app. left. by apply Hcols.
    + apply elem_of_app. by left.
  - rewrite Hm, Ht. intros c Hc1 Hc2.
    apply elem_of_app in Hc2 as [?|Hc2]; [done|]. exfalso.
    apply elem_of_app in Hc1 as [Hc1|Hc1].
    + by apply (Hmade c (HEm c Hc2)).
    + by apply (Hdis c Hc1).
  - rewrite (keyed_tuples _ _ _ _ Hc Hkeyed).
    apply (distinct_tuples_of_spec cols core).
  - intros x. rewrite (keyed_tuples _ _ _ _ Hc Hkeyed).
    rewrite (extends_tuples cols _ _ Hrect Hext) by (by apply list.Forall_forall).
    apply (distinct_tuples_of_spec cols core).
  - done.
  - done.
  - exists m'. split; [done|]. split.
    { rewrite Hcm', Hm, Ht, filter_not_in_app by done. by rewrite <- app_assoc. }
    split; [by eapply extends_trans|]. split; [done|]. split; [done|].
    intros c Hcin. rewrite Hcol.
    + by rewrite (extends_tuples cols _ _ Hrect Hext)
        by (by apply list.Forall_forall).
    + rewrite Ht. apply elem_of_app. by right.
    + intros Hcc. by apply (Hdisj c).
Qed.

Lemma column_selected c keys df :
  c ∈ keys →
  pd.column c
    (pd.mkDataFrame keys
       (map (λ r, (r.1, pd.key_cells keys (pd.columns df) r.2)) (pd.rows df)))
  = pd.column c df.
Proof.
  intros Hc. unfold pd.column, pd.cells. simpl.
  induction (pd.rows df) as [|r rs IH]; [done|]. simpl.
  f_equal; [by apply cell_key_cells|done].
Qed.

(** The tables of a ready frame with the cells of the fact table. *)
Lemma semantic_tables_full core :
  core_ready core →
  ∃ T, semantic_tables core = Return T
       ∧ pd.column "TIME_ID" (FACT_EXPORTACIONES T)
         = map (vlookup dim_time_cols "TIME_ID" (DIM_TIME T))
             (tuples dim_time_cols core)
       ∧ pd.column "EMPRESA_ID" (FACT_EXPORTACIONES T)
         = map (vlookup dim_empresa_cols "EMPRESA_ID" (DIM_EMPRESA T))
             (tuples dim_empresa_cols core)
       ∧ pd.column "PAIS_ID" (FACT_EXPORTACIONES T)
         = map (vlookup dim_pais_cols "PAIS_ID" (DIM_PAIS T))
             (tuples dim_pais_cols core)
       ∧ pd.column "MERCANCIA_ID" (FACT_EXPORTACIONES T)
         = map (vlookup dim_mercancia_cols "MERCANCIA_ID" (DIM_MERCANCIA T))
             (tuples dim_mercancia_cols core)
       ∧ ∀ c, c ∈ measure_cols →
           pd.column c (FACT_EXPORTACIONES T) = pd.column c core.
Proof.
  intros (Hne & Hnd & Hrect & Hread & Hmade & Hdt).
  assert (∀ l, Forall (λ c, c ∈ read_cols) l →
               Forall (λ c, c ∈ pd.columns core) l) as Hsub.
  { intros l Hl. rewrite list.Forall_forall in Hread.
    eapply list.Forall_impl; [exact Hl|]. intros c Hc. by apply Hread. }
  unfold semantic_tables.
  rewrite !dimension_spec by (done || decide_closed || (apply Hsub; decide_closed)).
  fold (keyed dim_time_cols "TIME_ID" core)
       (keyed dim_empresa_cols "EMPRESA_ID" core)
       (keyed dim_pais_cols "PAIS_ID" core)
       (keyed dim_mercancia_cols "MERCANCIA_ID" core).
  cbn [mbind outcome_bind].
  set (t0 := keyed dim_time_cols "TIME_ID" core).
  assert (Forall (λ v, pd.is_datetimelike v = true) (pd.column FECHA t0)) as Hd0.
  { apply keyed_time_dates; try done.
    rewrite list.Forall_forall in Hread. apply Hread. decide_closed. }
  pose proof (keyed_rectangular dim_time_cols "TIME_ID" core) as Hr0.
  fold t0 in Hr0.
  destruct (with_dt_spec "YEAR" (λ y _ _, y) t0)
    as (t1 & -> & Hc1 & He1 & Hr1); [decide_closed..|done|].
  cbn [mbind outcome_bind]. simpl in Hc1. specialize (Hr1 Hr0).
  assert (Forall (λ v, pd.is_datetimelike v = true) (pd.column FECHA t1)) as Hd1.
  { rewrite (extends_column FECHA _ _ Hr0 He1); [done | decide_closed]. }
  destruct (with_dt_spec "MONTH" (λ _ m _, m) t1)
    as (t2 & -> & Hc2 & He2 & Hr2); [rewrite Hc1; decide_closed..|done|].
  cbn [mbind outcome_bind]. rewrite Hc1 in Hc2. simpl in Hc2.
  specialize (Hr2 Hr1).
  assert (Forall (λ v, pd.is_datetimelike v = true) (pd.column FECHA t2)) as Hd2.
  { rewrite (extends_column FECHA _ _ Hr1 He2);
      [done | rewrite Hc1; decide_closed]. }
  destruct (with_dt_spec "DAY" (λ _ _ d, d) t2)
    as (t3 & -> & Hc3 & He3 & Hr3); [rewrite Hc2; decide_closed..|done|].
  cbn [mbind outcome_bind]. rewrite Hc2 in Hc3. simpl in Hc3.
  specialize (Hr3 Hr2).
  assert (extends t0 t3) as He03.
  { eapply extends_trans; [exact He1|]. eapply extends_trans; eauto. }
  rewrite (sql_ok_NoDup t3) by (rewrite Hc3; decide_closed).
  cbn [mbind outcome_bind].
  rewrite !sql_ok_NoDup by decide_closed.
  cbn [mbind outcome_bind].
  destruct (merge_dimension_full core core [] dim_time_cols "TIME_ID"
              ["YEAR"; "MONTH"; "DAY"] t3)
    as (m1 & -> & Hm1 & Hx1 & _ & Hrm1 & Hk1);
    [done | done | done | apply Hsub; decide_closed | by rewrite app_nil_r
    | apply extends_refl | done | done | decide_closed.. | done | done |].
  cbn [mbind outcome_bind]. simpl in Hm1.
  destruct (merge_dimension_full core m1 ["TIME_ID"; "YEAR"; "MONTH"; "DAY"]
              dim_empresa_cols "EMPRESA_ID" []
              (keyed dim_empresa_cols "EMPRESA_ID" core))
    as (m2 & -> & Hm2 & Hx2 & Hy2 & Hrm2 & Hk2);
    [done | done | done | apply Hsub; decide_closed | done | done | done
    | apply extends_refl | decide_closed.. | done | apply keyed_rectangular |].
  cbn [mbind outcome_bind]. simpl in Hm2.
  destruct (merge_dimension_full core m2
              ["TIME_ID"; "YEAR"; "MONTH"; "DAY"; "EMPRESA_ID"]
              dim_pais_cols "PAIS_ID" []
              (keyed dim_pais_cols "PAIS_ID" core))
    as (m3 & -> & Hm3 & Hx3 & Hy3 & Hrm3 & Hk3);
    [done | done | done | apply Hsub; decide_closed | done | done | done
    | apply extends_refl | decide_closed.. | done | apply keyed_rectangular |].
  cbn [mbind outcome_bind]. simpl in Hm3.
  destruct (merge_dimension_full core m3
              ["TIME_ID"; "YEAR"; "MONTH"; "DAY"; "EMPRESA_ID"; "PAIS_ID"]
              dim_mercancia_cols "MERCANCIA_ID" []
              (keyed dim_mercancia_cols "MERCANCIA_ID" core))
    as (m4 & -> & Hm4 & Hx4 & Hy4 & Hrm4 & Hk4);
    [done | done | done | apply Hsub; decide_closed | done | done | done
    | apply extends_refl | decide_closed.. | done | apply keyed_rectangular |].
  cbn [mbind outcome_bind]. simpl in Hm4.
  assert (NoDup (pd.columns m4)) as Hnd4.
  { rewrite Hm4. apply list.NoDup_app. split; [done|]. split; [|decide_closed].
    rewrite list.Forall_forall in Hmade. intros c Ha Hb. by apply (Hmade c). }
  rewrite getitem_list_present; [|done|done|].
  2:{ rewrite Hm4. apply list.Forall_forall. intros c Hc.
      apply elem_of_app.
      unfold fact_cols in Hc. rewrite !elem_of_cons, elem_of_nil in Hc.
      rewrite list.Forall_forall in Hread.
      destruct Hc as [->|[->|[->|[->|Hc]]]];
        [right; decide_closed..|].
      left. apply Hread.
      destruct Hc as [->|[->|[->|[->|[]]]]]; decide_closed. }
  cbn [mbind outcome_bind].
  rewrite sql_ok_NoDup by decide_closed.
  cbn [mbind outcome_bind].
  eexists. split; [done|].
  cbn [DIM_TIME DIM_EMPRESA DIM_PAIS DIM_MERCANCIA FACT_EXPORTACIONES].
  split; [|split; [|split; [|split]]].
  - rewrite column_selected by decide_closed.
    rewrite (extends_column "TIME_ID" m3 m4), (extends_column "TIME_ID" m2 m3),
      (extends_column "TIME_ID" m1 m2);
      [|done|done|rewrite Hm1; apply elem_of_app; right; decide_closed
       |done|done|rewrite Hm2; apply elem_of_app; right; decide_closed
       |done|done|rewrite Hm3; apply elem_of_app; right; decide_closed].
    apply Hk1. decide_closed.
  - rewrite column_selected by decide_closed.
    rewrite (extends_column "EMPRESA_ID" m3 m4), (extends_column "EMPRESA_ID" m2 m3);
      [|done|done|rewrite Hm2; apply elem_of_app; right; decide_closed
       |done|done|rewrite Hm3; apply elem_of_app; right; decide_closed].
    apply Hk2. decide_closed.
  - rewrite column_selected by decide_closed.
    rewrite (extends_column "PAIS_ID" m3 m4);
      [|done|done|rewrite Hm3; apply elem_of_app; right; decide_closed].
    apply Hk3. decide_closed.
  - rewrite column_selected by decide_closed.
    apply Hk4. decide_closed.
  - intros c Hc.
    rewrite column_selected.
    2:{ unfold measure_cols in Hc. rewrite !elem_of_cons, elem_of_nil in Hc.
        destruct Hc as [->|[->|[->|[->|[]]]]]; decide_closed. }
    apply extends_column; [done|done|].
    rewrite list.Forall_forall in Hread. apply Hread.
    unfold measure_cols in Hc. rewrite !elem_of_cons, elem_of_nil in Hc.
    destruct Hc as [->|[->|[->|[->|[]]]]]; decide_closed.
Qed.

(** X17: the fact table refers to the dimensions row by row: the i-th
    fact row carries, under each surrogate-key label, the key of the
    dimension row whose tuple is that of the i-th row of the integrated
    frame, and, under the measure labels and NUMERO_FORMULARIO, the cells
    of that row. *)
Theorem fact_references core T :
  core_ready core →
  semantic_tables core = Return T →
  pd.column "TIME_ID" (FACT_EXPORTACIONES T)
  = map (vlookup dim_time_cols "TIME_ID" (DIM_TIME T)) (tuples dim_time_cols core)
  ∧ pd.column "EMPRESA_ID" (FACT_EXPORTACIONES T)
    = map (vlookup dim_empresa_cols "EMPRESA_ID" (DIM_EMPRESA T))
        (tuples dim_empresa_cols core)
  ∧ pd.column "PAIS_ID" (FACT_EXPORTACIONES T)
    = map (vlookup dim_pais_cols "PAIS_ID" (DIM_PAIS T))
        (tuples dim_pais_cols core)
  ∧ pd.column "MERCANCIA_ID" (FACT_EXPORTACIONES T)
    = map (vlookup dim_mercancia_cols "MERCANCIA_ID" (DIM_MERCANCIA T))
        (tuples dim_mercancia_cols core)
  ∧ ∀ c, c ∈ measure_cols →
      pd.column c (FACT_EXPORTACIONES T) = pd.column c core.
Proof.
  intros Hready HT.
  destruct (semantic_tables_full core Hready) as (T' & HT' & H).
  assert (T' = T) as -> by congruence. exact H.
Qed.

Lemma fact_references_witness :
  pd.column "TIME_ID" (FACT_EXPORTACIONES ex_tables)
  = map (vlookup dim_time_cols "TIME_ID" (DIM_TIME ex_tables))
      (tuples dim_time_cols ex_core)
  ∧ pd.column "EMPRESA_ID" (FACT_EXPORTACIONES ex_tables)
    = map (vlookup dim_empresa_cols "EMPRESA_ID" (DIM_EMPRESA ex_tables))
        (tuples dim_empresa_cols ex_core)
  ∧ pd.column "PAIS_ID" (FACT_EXPORTACIONES ex_tables)
    = map (vlookup dim_pais_cols "PAIS_ID" (DIM_PAIS ex_tables))
        (tuples dim_pais_cols ex_core)
  ∧ pd.column "MERCANCIA_ID" (FACT_EXPORTACIONES ex_tables)
    = map (vlookup dim_mercancia_cols "MERCANCIA_ID" (DIM_MERCANCIA ex_tables))
        (tuples dim_mercancia_cols ex_core)
  ∧ ∀ c, c ∈ measure_cols →
      pd.column c (FACT_EXPORTACIONES ex_tables) = pd.column c ex_core.
Proof.
  apply (fact_references ex_core ex_tables).
  - unfold core_ready, rectangular. decide_closed.
  - vm_compute. reflexivity.
Defined.

Example fact_references_ex :
  pd.column "EMPRESA_ID" (FACT_EXPORTACIONES ex_tables)
  = [pd.Numz 1; pd.Numz 1; pd.Numz 2]
  ∧ pd.column "EMPRESA_ID" (DIM_EMPRESA ex_tables) = [pd.Numz 1; pd.Numz 2]
  ∧ pd.column "RAZON_SOCIAL_EXPORTADOR" (DIM_EMPRESA ex_tables)
    = [pd.Str "ACME"; pd.Str "BETA"].
Proof. vm_compute. done. Qed.

(** ** Stage 2 into Stage 3 *)

Lemma column_under c df :
  pd.column c df = map (λ l, default pd.NaN (head l)) (under c df).
Proof. unfold pd.column, under, pd.cell. by rewrite map_map. Qed.

Lemma length_map_cell c f cols cs :
  length (pd.map_cell c f cols cs) = length cs.
Proof.
  revert cs. induction cols as [|n cols IH]; intros [|v cs]; try done.
  simpl. by rewrite IH.
Qed.

Lemma map_column_rectangular c f df :
  rectangular df → rectangular (pd.map_column c f df).
Proof.
  unfold rectangular, pd.cells. simpl. intros H.
  induction (pd.rows df) as [|r rs IH]; [constructor|].
  apply Forall_cons_1 in H as [Hr H]. simpl.
  constructor; [by rewrite length_map_cell | by apply IH].
Qed.

Lemma map_column_rows_length c f df :
  length (pd.rows (pd.map_column c f df)) = length (pd.rows df).
Proof. simpl. by rewrite length_map. Qed.

Section Cleaned.

Variable render : list pd.value → pd.value → string.
Variable parse_number : string → option Qc.

Lemma typed_shape rc :
  (rectangular rc → rectangular (typed render parse_number rc))
  ∧ length (pd.rows (typed render parse_number rc)) = length (pd.rows rc)
  ∧ under FECHA (typed render parse_number rc)
    = map (map (parsed_date render (pd.column FECHA rc))) (under FECHA rc).
Proof.
  unfold typed.
  assert (∀ cols df, FECHA ∉ cols →
            let d := foldl (λ d col, pd.map_column col
                                       (pd.to_numeric_cell parse_number) d)
                       df cols in
            (rectangular df → rectangular d)
            ∧ length (pd.rows d) = length (pd.rows df)
            ∧ under FECHA d = under FECHA df) as H.
  { induction cols as [|c cols IH]; intros df Hn; [done|].
    apply not_elem_of_cons in Hn as [Hne Hn]. cbn [foldl].
    destruct (IH (pd.map_column c (pd.to_numeric_cell parse_number) df) Hn)
      as (Hr & Hl & Hu).
    split; [intros ?; by apply Hr, map_column_rectangular|].
    split; [by rewrite Hl, map_column_rows_length|].
    rewrite Hu, under_map_column. by rewrite decide_False. }
  destruct (H numeric_cols
              (pd.map_column FECHA (parsed_date render (pd.column FECHA rc)) rc))
    as (Hr & Hl & Hu); [decide_closed|].
  split; [intros ?; by apply Hr, map_column_rectangular|].
  split; [by rewrite Hl, map_column_rows_length|].
  rewrite Hu, under_map_column. by rewrite decide_True.
Qed.

Lemma fill_nulls_rectangular df : rectangular df → rectangular (fill_nulls df).
Proof.
  rewrite fill_nulls_unfold. intros H. apply map_column_rectangular.
  revert df H. induction numeric_cols as [|c cols IH]; intros df H; [done|].
  simpl. apply IH. by apply map_column_rectangular.
Qed.

Lemma parsed_date_datetimelike col v :
  pd.is_datetimelike (parsed_date render col v) = true.
Proof.
  unfold parsed_date, pd.to_datetime_cell.
  by destruct (pd.strptime_Ymd _) as [[[y m] d]|].
Qed.

(** The frame of Stage 2 is one Stage 3 can be built from. *)
Lemma cleaned_ready rc :
  NoDup (pd.columns rc) → rectangular rc → pd.rows rc ≠ [] →
  Forall (λ c, c ∈ pd.columns rc) read_cols →
  Forall (λ c, c ∉ pd.columns rc) made_cols →
  core_ready (cleaned render parse_number rc).
Proof.
  intros Hnd Hrect Hrows Hread Hmade.
  destruct (typed_shape rc) as (Htr & Htl & Htu).
  set (t := typed render parse_number rc) in *.
  assert (pd.columns (cleaned render parse_number rc) = pd.columns rc) as Hc.
  { unfold cleaned. cbv zeta. rewrite fill_nulls_columns. cbn [pd.columns].
    apply typed_columns. }
  assert (FECHA ∈ pd.columns rc) as Hf.
  { rewrite list.Forall_forall in Hread. apply Hread. decide_closed. }
  set (d := pd.mkDataFrame (pd.columns t) (keep_first (natural_key t) [] (pd.rows t))).
  assert (∀ r, r ∈ pd.rows d → r ∈ pd.rows t) as Hsub.
  { intros r Hr. by apply keep_first_elem in Hr as [? _]. }
  unfold core_ready. rewrite Hc.
  split; [|split; [done|split; [|split; [done|split; [done|]]]]].
  - unfold pd.empty. apply orb_false_iff. split; apply bool_decide_eq_false_2.
    + rewrite Hc. intros Hnil. rewrite Hnil in Hf. by apply elem_of_nil in Hf.
    + intros Hnil.
      assert (length (pd.rows (cleaned render parse_number rc))
              = length (pd.rows d)) as Hl.
      { unfold cleaned. cbv zeta. fold t. fold d.
        pose proof (fill_nulls_index d) as Hi. unfold pd.index in Hi.
        apply (f_equal length) in Hi. by rewrite !length_fmap in Hi. }
      rewrite Hnil in Hl. cbn [length] in Hl.
      destruct (keep_first_head_length (natural_key t) (pd.rows t)) as [Hpos _].
      { rewrite Htl. destruct (pd.rows rc); [done|simpl; lia]. }
      unfold d in Hl. cbn [pd.rows] in Hl. lia.
  - unfold cleaned. cbv zeta. fold t. fold d. apply fill_nulls_rectangular.
    unfold rectangular, pd.cells. apply list.Forall_forall. intros cs Hcs.
    apply list_elem_of_fmap in Hcs as (r & -> & Hr).
    apply Hsub in Hr. specialize (Htr Hrect).
    unfold rectangular, pd.cells in Htr. rewrite list.Forall_forall in Htr.
    apply Htr. by apply list_elem_of_fmap_2.
  - rewrite column_under. unfold cleaned. cbv zeta. fold t. fold d.
    rewrite under_fill_nulls_other by (done || decide_closed).
    apply list.Forall_forall. intros v Hv.
    apply list_elem_of_fmap in Hv as (l & -> & Hl).
    unfold under, pd.cells in Hl.
    apply list_elem_of_fmap in Hl as (cs & -> & Hcs).
    apply list_elem_of_fmap in Hcs as (r & -> & Hr). apply Hsub in Hr.
    assert (pd.cells_in [FECHA] (pd.columns t) r.2 ∈ under FECHA t) as Hin.
    { unfold under, pd.cells. apply list_elem_of_fmap_2.
      by apply list_elem_of_fmap_2. }
    rewrite Htu in Hin. apply list_elem_of_fmap in Hin as (l0 & Heq & _).
    change (pd.columns d) with (pd.columns t). rewrite Heq.
    destruct l0 as [|x l0]; [done|]. simpl. apply parsed_date_datetimelike.
Qed.

End Cleaned.

Lemma reconcile_rectangular df : rectangular df → rectangular (reconcile df).
Proof.
  unfold rectangular, pd.cells. rewrite reconcile_rows.
  assert (length (pd.columns (reconcile df)) = length (pd.columns df)) as ->; [|done].
  unfold reconcile. cbv zeta.
  repeat destruct (decide _); simpl; by rewrite ?length_map.
Qed.

(** ** The main flow to the warehouse *)

Section MainBuilds.

Variable render : list pd.value → pd.value → string.
Variable parse_number : string → option Qc.
Variable arrow_ok : pd.DataFrame → bool.

(** X18: the three stages in sequence.  When the ingested periods
    concatenate to a frame whose reconciled labels are pairwise distinct,
    include every label the pipeline reads and none of those it creates,
    and the Parquet engine accepts the result, the main flow runs through
    Stage 3 without an exception: the Parquet snapshot and the frame
    object handed to Stage 3 are the cleaned frame, the five tables
    written are those of that frame, and the fact table has the fact
    labels and one row per row of the cleaned frame, that is per distinct
    (NUMERO_FORMULARIO, NUMERO_SERIE) key. *)
Theorem main_builds_warehouse s dfs s1 all_data :
  ingest_to_staging (started s) = (Return dfs, s1) →
  pd.concat (filter (λ df, pd.empty df = false) dfs.*2) = Return all_data →
  NoDup (pd.columns (reconcile all_data)) →
  rectangular all_data →
  Forall (λ c, c ∈ pd.columns (reconcile all_data)) ("NUMERO_SERIE" :: read_cols) →
  Forall (λ c, c ∉ pd.columns (reconcile all_data)) made_cols →
  arrow_ok (cleaned render parse_number (reconcile all_data)) = true →
  let core := cleaned render parse_number (reconcile all_data) in
  ∃ s' T,
    main_stages render parse_number arrow_ok s = (Return (), s')
    ∧ core_parquet (run s') = Some core
    ∧ objects (run s') !! length (objects (run s1)) = Some core
    ∧ semantic_tables core = Return T
    ∧ dw (run s') !! "DIM_TIME" = Some (DIM_TIME T)
    ∧ dw (run s') !! "DIM_EMPRESA" = Some (DIM_EMPRESA T)
    ∧ dw (run s') !! "DIM_PAIS" = Some (DIM_PAIS T)
    ∧ dw (run s') !! "DIM_MERCANCIA" = Some (DIM_MERCANCIA T)
    ∧ dw (run s') !! "FACT_EXPORTACIONES" = Some (FACT_EXPORTACIONES T)
    ∧ pd.columns (FACT_EXPORTACIONES T) = fact_cols
    ∧ length (pd.rows (FACT_EXPORTACIONES T)) = length (pd.rows core)
    ∧ NoDup (map (natural_key core) (pd.rows core)).
Proof.
  intros Hin Hc Hnd Hrect Hall Hmade Hok core.
  assert (Forall (λ c, c ∈ pd.columns (reconcile all_data))
            (FECHA :: required_cols)) as Hkeys.
  { rewrite list.Forall_forall in Hall. apply list.Forall_forall.
    intros c Hcin. apply Hall. revert Hcin.
    unfold required_cols. rewrite !elem_of_cons, elem_of_nil.
    intros [->|[->|[->|[]]]]; decide_closed. }
  assert (core_ready core) as Hready.
  { apply cleaned_ready; [done|by apply reconcile_rectangular| |
      by apply Forall_cons_1 in Hall as [_ ?] | done].
    rewrite reconcile_rows.
    pose proof (concat_nonempty _ _ (filter_nonempty_Forall _) Hc) as Hne.
    unfold pd.empty in Hne. apply orb_false_iff in Hne as [_ Hr].
    by apply bool_decide_eq_false_1 in Hr. }
  unfold main_stages.
  rewrite io_bind_unfold. unfold logging_info at 1. rewrite in_run_logging.
  change (mkSite (raw s) (staging s) _) with (started s).
  rewrite io_bind_unfold, Hin.
  rewrite io_bind_unfold, in_run_unfold.
  rewrite (transform_cleaned _ _ _ _ _ _ Hc Hnd Hkeys Hok).
  fold core. cbn [fst snd].
  rewrite io_bind_unfold, in_run_unfold. unfold new.
  cbn [fst snd run objects log core_parquet dw].
  rewrite in_run_unfold. cbn [run raw staging].
  set (w2 := mkWorld _ (Some core) (objects (run s1) ++ [core]) (dw (run s1))).
  assert (objects w2 !! length (objects (run s1)) = Some core) as Hobj.
  { unfold w2. simpl. by apply list_lookup_middle. }
  destruct (build_semantic_layer_ready _ w2 core Hobj Hready)
    as (w' & T & Hb & HT & H1 & H2 & H3 & H4 & H5).
  destruct (semantic_tables_spec core Hready) as (T' & HT' & _ & _ & _ & _ & Hfc & Hfr).
  assert (T' = T) as -> by congruence.
  destruct (confined_build_semantic_layer (length (objects (run s1))) w2)
    as (Hp & _ & _).
  pose proof (keeps_build_semantic_layer_any _ core
                (length (objects (run s1))) w2 Hobj) as [Hk _].
  rewrite Hb in Hp, Hk |- *. cbn [fst snd] in *.
  exists (mkSite (raw s1) (staging s1) w'), T.
  split; [reflexivity|]. cbn [run].
  split; [exact Hp|]. split; [exact Hk|]. split; [exact HT|].
  repeat (split; [assumption|]).
  unfold core, cleaned. cbv zeta.
  rewrite fill_nulls_natural_key. cbn [pd.rows].
  set (t := typed render parse_number (reconcile all_data)).
  erewrite map_ext_in; [apply (keep_first_NoDup (natural_key t))|].
  intros r _. reflexivity.
Qed.

End MainBuilds.

Lemma main_builds_warehouse_witness :
  let core := cleaned ex_render ex_parse (reconcile ex_full_all) in
  ∃ s' T,
    main_stages ex_render ex_parse (λ _, true) ex_site_full = (Return (), s')
    ∧ core_parquet (run s') = Some core
    ∧ objects (run s') !! length (objects (run (ingest_to_staging (started ex_site_full)).2))
      = Some core
    ∧ semantic_tables core = Return T
    ∧ dw (run s') !! "DIM_TIME" = Some (DIM_TIME T)
    ∧ dw (run s') !! "DIM_EMPRESA" = Some (DIM_EMPRESA T)
    ∧ dw (run s') !! "DIM_PAIS" = Some (DIM_PAIS T)
    ∧ dw (run s') !! "DIM_MERCANCIA" = Some (DIM_MERCANCIA T)
    ∧ dw (run s') !! "FACT_EXPORTACIONES" = Some (FACT_EXPORTACIONES T)
    ∧ pd.columns (FACT_EXPORTACIONES T) = fact_cols
    ∧ length (pd.rows (FACT_EXPORTACIONES T)) = length (pd.rows core)
    ∧ NoDup (map (natural_key core) (pd.rows core)).
Proof.
  apply (main_builds_warehouse ex_render ex_parse (λ _, true) ex_site_full
           ex_full_ingested (ingest_to_staging (started ex_site_full)).2
           ex_full_all).
  - vm_compute. reflexivity.
  - vm_compute. reflexivity.
  - decide_closed.
  - unfold rectangular. decide_closed.
  - decide_closed.
  - decide_closed.
  - reflexivity.
Defined.

Example main_builds_warehouse_ex :
  (λ t, pd.rows t)
    <$> dw (run (main_stages ex_render ex_parse (λ _, true) ex_site_full).2)
          !! "FACT_EXPORTACIONES"
  = Some [(0, [pd.Numz 1; pd.Numz 1; pd.Numz 1; pd.Numz 1;
               pd.Numz 10; pd.Numz 3; pd.Numz 1; pd.Numz 100]);
          (1, [pd.Numz 2; pd.Numz 2; pd.Numz 2; pd.Numz 2;
               pd.Numz 0; pd.Numz 0; pd.Numz 2; pd.Numz 101])].
Proof. vm_compute. reflexivity. Qed.

Section MainGuards.

Variable render : list pd.value → pd.value → string.
Variable parse_number : string → option Qc.
Variable arrow_ok : pd.DataFrame → bool.
Variable sqlite : statement → gmap string pd.DataFrame → outcome pd.DataFrame.

(** The three stages when a key column is missing: Stage 2 returns the
    empty frame and Stage 3, called with it, only logs that the core frame
    is empty. *)
Lemma main_stages_missing_key_columns s dfs s1 all_data :
  ingest_to_staging (started s) = (Return dfs, s1) →
  pd.concat (filter (λ df, pd.empty df = false) dfs.*2) = Return all_data →
  filter (λ col, col ∉ pd.columns (reconcile all_data)) required_cols ≠ [] →
  main_stages render parse_number arrow_ok s
  = (Return (),
     mkSite (raw s1) (staging s1)
       (mkWorld
          (log (run s1) ++
           [log_integrated all_data;
            (ERROR, [Lit "Columnas faltantes para deduplicación: ";
                     Labels (filter (λ col, col ∉ pd.columns (reconcile all_data))
                               required_cols)]);
            log_core_empty])
          (core_parquet (run s1)) (objects (run s1) ++ [pd.DataFrame_new])
          (dw (run s1)))).
Proof.
  intros Hin Hc Hmiss. unfold main_stages.
  rewrite io_bind_unfold. unfold logging_info at 1. rewrite in_run_logging.
  change (mkSite (raw s) (staging s) _) with (started s).
  rewrite io_bind_unfold, Hin.
  rewrite io_bind_unfold, in_run_unfold.
  rewrite (transform_run _ _ _ _ _ _ Hc). cbv zeta.
  rewrite bool_decide_eq_true_2 by done. cbn [fst snd].
  rewrite io_bind_unfold, in_run_unfold. unfold new.
  cbn [fst snd run objects log core_parquet dw logged].
  rewrite in_run_unfold. cbn [run raw staging].
  rewrite (build_semantic_layer_skip _ _ pd.DataFrame_new);
    [|by apply list_lookup_middle|done].
  unfold logged. cbn [fst snd log core_parquet objects dw].
  by rewrite <- !app_assoc.
Qed.

(** X19: the main flow when a key column is missing.  Stage 2 returns the
    empty frame and the main flow goes on to Stage 3 with it, which only
    logs that the core frame is empty; nothing is written, and the
    analysis then runs on the database as it was before the run.  When
    that database has no fact table (a new one has none), the run ends in
    the [DatabaseError] of the first query, on the table
    [FACT_EXPORTACIONES]: the log has the three lines of the stages and
    not the closing line, and nothing is printed. *)
Theorem main_missing_key_columns s printed dfs s1 all_data :
  ingest_to_staging (started s) = (Return dfs, s1) →
  pd.concat (filter (λ df, pd.empty df = false) dfs.*2) = Return all_data →
  filter (λ col, col ∉ pd.columns (reconcile all_data)) required_cols ≠ [] →
  dw (run s) !! "FACT_EXPORTACIONES" = None →
  main render parse_number arrow_ok sqlite (mkProcess s printed)
  = (Raise (DatabaseError ("Execution failed on sql '" +:+ sql_text q1
                           +:+ "': no such table: FACT_EXPORTACIONES")),
     mkProcess
       (mkSite (raw s1) (staging s1)
          (mkWorld
             (log (run s1) ++
              [log_integrated all_data;
               (ERROR, [Lit "Columnas faltantes para deduplicación: ";
                        Labels (filter (λ col, col ∉ pd.columns (reconcile all_data))
                                  required_cols)]);
               log_core_empty])
             (core_parquet (run s1)) (objects (run s1) ++ [pd.DataFrame_new])
             (dw (run s))))
       printed).
Proof.
  intros Hin Hc Hmiss Hfact.
  pose proof (ingest_to_staging_dw (started s)) as Hdw.
  rewrite Hin in Hdw. cbn [fst snd started run dw logged] in Hdw.
  unfold main. rewrite run_bind_unfold. unfold on_disk at 1. cbn [disk stdout].
  rewrite (main_stages_missing_key_columns _ _ _ _ Hin Hc Hmiss).
  rewrite run_bind_unfold.
  unfold analyze_data. rewrite run_bind_unfold.
  unfold query_dw, on_disk. cbn [disk stdout].
  rewrite in_run_unfold. unfold read_sql_query. cbn [run dw from_tables q1].
  rewrite Hdw. cbn [first_missing]. rewrite Hfact. reflexivity.
Qed.

End MainGuards.

(** ** The concatenation *)

Lemma with_range_index_fst cs :
  (pd.with_range_index cs).*1 = seqZ 0 (Z.of_nat (length cs)).
Proof.
  unfold pd.with_range_index. apply fst_zip. rewrite length_seqZ. lia.
Qed.

Lemma length_flat_map_rows (f : pd.DataFrame → list (list pd.value)) objs :
  (∀ d, length (f d) = length (pd.rows d)) →
  length (flat_map f objs) = sum_list (map (λ d, length (pd.rows d)) objs).
Proof.
  intros Hf. induction objs as [|o objs IH]; [done|].
  simpl. by rewrite length_app, Hf, IH.
Qed.

(** X20: the concatenated frame has one row per row of the periods with
    data, labelled 0, 1, 2, ... whatever the labels of the rows were
    ([ignore_index=True]); this number is the count in the first log line
    of [transform_to_core], which every run that gets past the
    concatenation writes, on every path. *)
Theorem integrated_row_count render parse_number arrow_ok
    (staging_dfs : list (string * pd.DataFrame)) all_data :
  pd.concat (filter (λ df, pd.empty df = false) staging_dfs.*2)
    = Return all_data →
  pd.shape0 all_data
  = Z.of_nat (sum_list (map (λ d, length (pd.rows d))
                          (filter (λ df, pd.empty df = false) staging_dfs.*2)))
  ∧ pd.index all_data = seqZ 0 (pd.shape0 all_data)
  ∧ ∀ w, ∃ lines,
      log (transform_to_core render parse_number arrow_ok staging_dfs w).2
      = log w ++ log_integrated all_data :: lines.
Proof.
  intros Hc.
  assert (∃ f : pd.DataFrame → list (list pd.value),
            (∀ d, length (f d) = length (pd.rows d))
            ∧ pd.rows all_data
              = pd.with_range_index
                  (flat_map f (filter (λ df, pd.empty df = false) staging_dfs.*2)))
    as (f & Hf & Hrows).
  { unfold pd.concat in Hc.
    destruct (filter _ staging_dfs.*2) as [|o rest]; [done|].
    destruct (forallb _ rest).
    - injection Hc as <-. exists pd.cells. split; [|done].
      intros d. unfold pd.cells. by rewrite length_fmap.
    - destruct (forallb _ (o :: rest)); [|done]. injection Hc as <-.
      eexists. split; [|reflexivity].
      intros d. unfold pd.reindex_cells, pd.cells.
      by rewrite length_map, length_fmap. }
  split; [|split].
  - unfold pd.shape0. rewrite Hrows, length_with_range_index.
    by rewrite (length_flat_map_rows f _ Hf).
  - unfold pd.index, pd.shape0. rewrite Hrows, with_range_index_fst.
    by rewrite length_with_range_index.
  - intros w. rewrite (transform_run _ _ _ _ _ _ Hc). cbv zeta.
    destruct (bool_decide _); [by eexists|].
    destruct (_ ≫= _) as [d|e]; [|by eexists].
    destruct (decide _); [|by eexists].
    destruct (arrow_ok _); by eexists.
Qed.

Lemma main_missing_key_columns_witness :
  main ex_render ex_parse (λ _, true) ex_sqlite (mkProcess ex_site_no_form [])
  = (Raise (DatabaseError ("Execution failed on sql '" +:+ sql_text q1
                           +:+ "': no such table: FACT_EXPORTACIONES")),
     mkProcess
       (mkSite (raw (ingest_to_staging (started ex_site_no_form)).2)
          (staging (ingest_to_staging (started ex_site_no_form)).2)
          (mkWorld
             (log (run (ingest_to_staging (started ex_site_no_form)).2) ++
              [log_integrated ex_staged_all;
               (ERROR, [Lit "Columnas faltantes para deduplicación: ";
                        Labels (filter (λ col, col ∉ pd.columns (reconcile ex_staged_all))
                                  required_cols)]);
               log_core_empty])
             (core_parquet (run (ingest_to_staging (started ex_site_no_form)).2))
             (objects (run (ingest_to_staging (started ex_site_no_form)).2)
              ++ [pd.DataFrame_new])
             (dw (run ex_site_no_form))))
       []).
Proof.
  apply (main_missing_key_columns ex_render ex_parse (λ _, true) ex_sqlite
           ex_site_no_form [] ex_ingested_no_form
           (ingest_to_staging (started ex_site_no_form)).2 ex_staged_all).
  - vm_compute. reflexivity.
  - vm_compute. reflexivity.
  - vm_compute. discriminate.
  - reflexivity.
Defined.

Lemma integrated_row_count_witness :
  pd.shape0 ex_all
  = Z.of_nat (sum_list (map (λ d, length (pd.rows d))
                          (filter (λ df, pd.empty df = false) ex_staging.*2)))
  ∧ pd.index ex_all = seqZ 0 (pd.shape0 ex_all)
  ∧ ∀ w, ∃ lines,
      log (transform_to_core ex_render ex_parse (λ _, true) ex_staging w).2
      = log w ++ log_integrated ex_all :: lines.
Proof.
  apply (integrated_row_count ex_render ex_parse (λ _, true) ex_staging ex_all).
  vm_compute. reflexivity.
Defined.
